(** * Trajectory-AI: the reward function of the failing-task benchmark

    A shallow embedding of [task.py]: the Google API client
    ([GoogleAPIClient]), the task catalog ([FAILING_TASKS]) and the reward
    function ([RewardFunction.evaluate] with its three validators), followed
    by the properties the specification states about them.

    Python values that end up in result dictionaries are embedded as
    [pyval]; dictionaries are finite maps over string keys.  Effects are
    explicit: a computation is a function from a state to an outcome (a
    returned value or a raised exception) and the state afterwards.  A
    raised exception keeps the state reached so far, as in Python, where
    the mutations made before a [raise] remain visible to the handler. *)

From stdpp Require Import gmap strings list fin_maps pretty.
From Stdlib Require Import QArith Ascii.

Local Open Scope string_scope.
Local Open Scope list_scope.

(** ** Python values *)

#[warnings="-register-all"]
Inductive pyval : Type :=
| VNone
| VBool (b : bool)
| VInt (z : Z)
| VFloat (q : Q)
| VStr (s : string)
| VList (l : list pyval)
| VDict (d : gmap string pyval).

(** Truth value of an object, as tested by [if x:] and [x and y]. *)
Definition truthy (v : pyval) : bool :=
  match v with
  | VNone => false
  | VBool b => b
  | VInt z => negb (Z.eqb z 0)
  | VFloat q => negb (Qeq_bool q 0)
  | VStr s => negb (Nat.eqb (String.length s) 0)
  | VList l => negb (Nat.eqb (List.length l) 0)
  | VDict d => negb (Nat.eqb (size d) 0)
  end.

(** [bool(l)] for a list [l]. *)
Definition list_truthy {A : Type} (l : list A) : bool :=
  match l with [] => false | _ :: _ => true end.

(** ** Strings *)

(** [needle in hay] for two [str] values: [needle] occurs as a contiguous
    substring of [hay]. *)
Fixpoint str_contains (needle hay : string) : bool :=
  String.prefix needle hay ||
  match hay with
  | EmptyString => false
  | String _ rest => str_contains needle rest
  end.

(** [c.lower()] on one character.  Strings are byte strings holding UTF-8;
    only the ASCII capitals change.  For the marker phrase of task 2 this
    agrees with Python's [str.lower] followed by the substring test: the
    only non-ASCII code points whose lower case contains an ASCII letter
    are U+212A (giving "k", which the marker does not contain) and U+0130
    (giving "i" followed by a combining dot, which breaks any match). *)
Definition ascii_lower (c : ascii) : ascii :=
  let n := nat_of_ascii c in
  if (65 <=? n)%nat && (n <=? 90)%nat then ascii_of_nat (n + 32) else c.

Fixpoint lower (s : string) : string :=
  match s with
  | EmptyString => EmptyString
  | String c rest => String (ascii_lower c) (lower rest)
  end.

(** [s * n] for a string [s]. *)
Fixpoint str_repeat (s : string) (n : nat) : string :=
  match n with
  | O => ""
  | S n' => s ++ str_repeat s n'
  end.

(** ** Exceptions and outcomes *)

(** Exceptions deriving from [Exception].  [HttpError] is
    [googleapiclient.errors.HttpError], the only class the API client
    handles; [OtherException] stands for every other class (connection
    failures of the HTTP layer, timeouts, [KeyError], ...) and records the
    class name.  Both carry the text [str(e)] produces. *)
Inductive PyException : Type :=
| HttpError (msg : string)
| OtherException (cls msg : string).

Definition str_exc (e : PyException) : string :=
  match e with
  | HttpError msg => msg
  | OtherException _ msg => msg
  end.

Definition is_HttpError (e : PyException) : bool :=
  match e with
  | HttpError _ => true
  | OtherException _ _ => false
  end.

Inductive Outcome (A : Type) : Type :=
| Return (a : A)
| Raise (e : PyException).
Arguments Return {A} a.
Arguments Raise {A} e.

(** ** The computation monad *)

Definition M (St A : Type) : Type := St -> Outcome A * St.

Definition ret {St A : Type} (a : A) : M St A := fun s => (Return a, s).

Definition bind {St A B : Type} (m : M St A) (k : A -> M St B) : M St B :=
  fun s =>
    match m s with
    | (Return a, s') => k a s'
    | (Raise e, s') => (Raise e, s')
    end.

Definition raise {St A : Type} (e : PyException) : M St A :=
  fun s => (Raise e, s).

#[global] Instance M_ret {St : Type} : MRet (M St) := @ret St.
#[global] Instance M_bind {St : Type} : MBind (M St) :=
  fun A B k m => bind m k.

(** [try: body except Exception as e: handler(e)]. *)
Definition try_except {St A : Type} (body : M St A)
    (handler : PyException -> M St A) : M St A :=
  fun s =>
    match body s with
    | (Return a, s') => (Return a, s')
    | (Raise e, s') => handler e s'
    end.

(** [try: body except HttpError as error: handler(error)]: exceptions of
    other classes are not handled and leave the [try] statement. *)
Definition try_except_HttpError {St A : Type} (body : M St A)
    (handler : string -> M St A) : M St A :=
  fun s =>
    match body s with
    | (Return a, s') => (Return a, s')
    | (Raise (HttpError msg), s') => handler msg s'
    | (Raise (OtherException cls msg), s') => (Raise (OtherException cls msg), s')
    end.

(** [for x in l: body(x)]. *)
Fixpoint for_each {St A : Type} (l : list A) (body : A -> M St unit) : M St unit :=
  match l with
  | [] => mret tt
  | x :: rest => body x ;; for_each rest body
  end.

(** A loop that builds a list by [append], one element per iteration. *)
Fixpoint for_collect {St A B : Type} (l : list A) (body : A -> M St B)
    : M St (list B) :=
  match l with
  | [] => mret []
  | x :: rest => y ← body x; ys ← for_collect rest body; mret (y :: ys)
  end.

(** A call of an external service whose outcome is [o]. *)
Definition execute {St A : Type} (o : Outcome A) : M St A := fun s => (o, s).

(** ** The world: wall clock and standard output *)

(** A naive [datetime]: calendar date and time of day. *)
Record datetime : Type := {
  year : nat; month : nat; day : nat;
  hour : nat; minute : nat; second : nat; microsecond : nat
}.

(** [dt.replace(hour=h, minute=m, second=s)]: the date and the
    microsecond field are kept. *)
Definition replace_hms (dt : datetime) (h m s : nat) : datetime :=
  {| year := year dt; month := month dt; day := day dt;
     hour := h; minute := m; second := s; microsecond := microsecond dt |}.

Definition datetime_key (dt : datetime) : list nat :=
  [year dt; month dt; day dt; hour dt; minute dt; second dt; microsecond dt].

Fixpoint lex_gt (a b : list nat) : bool :=
  match a, b with
  | x :: a', y :: b' => (y <? x)%nat || ((x =? y)%nat && lex_gt a' b')
  | _ :: _, [] => true
  | [], _ => false
  end.

(** [a > b] on naive datetimes: field by field, most significant first. *)
Definition datetime_gt (a b : datetime) : bool :=
  lex_gt (datetime_key a) (datetime_key b).

Definition two_digits (n : nat) : string :=
  if (n <? 10)%nat then "0" ++ pretty n else pretty n.

(** [dt.strftime('%I:%M %p')] in the C locale. *)
Definition strftime_I_M_p (dt : datetime) : string :=
  let h12 := if (hour dt mod 12 =? 0)%nat then 12%nat else (hour dt mod 12)%nat in
  two_digits h12 ++ ":" ++ two_digits (minute dt) ++ " " ++
  (if (hour dt <? 12)%nat then "AM" else "PM").

(** The part of the process environment the code reads or writes, apart
    from the remote services: [wall_clock n] is what the [n]-th call of
    [datetime.now()] returns, [clock_tick] counts the calls made so far,
    [stdout] holds the printed lines, oldest first. *)
Record World : Type := {
  wall_clock : nat -> datetime;
  clock_tick : nat;
  stdout : list string
}.

(** [print(line)]. *)
Definition print (line : string) : M World unit :=
  fun w => (Return tt, {| wall_clock := wall_clock w;
                          clock_tick := clock_tick w;
                          stdout := stdout w ++ [line] |}).

(** [datetime.now()]. *)
Definition now : M World datetime :=
  fun w => (Return (wall_clock w (clock_tick w)),
            {| wall_clock := wall_clock w;
               clock_tick := S (clock_tick w);
               stdout := stdout w |}).

(** ** The remote services, as the client library presents them *)

(** A reference to a message in a [messages().list] response: [msg['id']]. *)
Record MessageRef : Type := { msg_id : string }.

(** One entry of [msg_data['payload']['headers']]. *)
Record Header : Type := { header_name : string; header_value : string }.

Record MessageData : Type := { payload_headers : list Header }.

(** The response of [messages().list(...)]; the key ['messages'] is absent
    when nothing matches. *)
Record MessagesListResponse : Type := { messages : option (list MessageRef) }.

(** The Gmail service object.  Each field gives the outcome of the
    [.execute()] of one request against the remote message store: a
    response, or a raised exception. *)
Record GmailService : Type := {
  users_messages_list : string -> Z -> Outcome MessagesListResponse;
  users_messages_get : string -> Outcome MessageData
}.

(** [event['start']] and [event['end']]: a timestamp, or a date for an
    all-day event. *)
Record EventTime : Type := { dateTime : option string; date : option string }.

Record Organizer : Type := { email : option string }.

(** An event resource as the calendar API returns it; every key may be
    absent. *)
Record EventResource : Type := {
  event_id : option string;
  event_summary : option string;
  event_start : option EventTime;
  event_end : option EventTime;
  event_organizer : option Organizer
}.

Record EventsListKwargs : Type := {
  calendarId : string;
  maxResults : Z;
  timeMin : option string;
  timeMax : option string
}.

Record EventsListResponse : Type := { items : option (list EventResource) }.

Record CalendarService : Type := {
  events_list : EventsListKwargs -> Outcome EventsListResponse
}.

(** ** Records returned by the client *)

(** The dictionary [{'id', 'to', 'from', 'subject', 'date'}]. *)
Record EmailRecord : Type := {
  email_id : string;
  email_to : string;
  email_from : string;
  email_subject : string;
  email_date : string
}.

(** The dictionary [{'id', 'title', 'start', 'end', 'organizer'}]. *)
Record CalendarEventRecord : Type := {
  e_id : string;
  e_title : string;
  e_start : string;
  e_end : string;
  e_organizer : string
}.

(** ** GoogleAPIClient *)

(** A credential object; [valid] is its [valid] property. *)
Record Credentials : Type := { token : string; valid : bool }.

(** The attributes of a client.  [_init_services] fills them when the
    object is built: a service is [None] when no credential was found or
    when building it failed.  The methods below only read them. *)
Record GoogleAPIClient : Type := {
  gmail_service : option GmailService;
  calendar_service : option CalendarService;
  creds : option Credentials
}.

(** What [pickle.load] can give back: [None], a credential object, or an
    object of another class, which has no [valid] attribute and whose
    truth value is [other_truth]. *)
Inductive Unpickled : Type :=
| UNone
| UCredentials (c : Credentials)
| UOther (cls : string) (other_truth : bool).

(** A file on disk, as far as [open] and [pickle.load] are concerned:
    [open] raises, or it succeeds and [pickle.load] has the given outcome. *)
Inductive FileState : Type :=
| Unreadable (e : PyException)
| Pickle (load : Outcome Unpickled).

(** [with open(path, 'rb') as f: pickle.load(f)] on a path that exists. *)
Definition open_and_load {St : Type} (fs : gmap string FileState)
    (path : string) : M St Unpickled :=
  match fs !! path with
  | None => raise (OtherException "FileNotFoundError" path)
  | Some (Unreadable e) => raise e
  | Some (Pickle load) => execute load
  end.

(** [os.path.exists(path)]. *)
Definition path_exists (fs : gmap string FileState) (path : string) : bool :=
  match fs !! path with Some _ => true | None => false end.

(** [GoogleAPIClient._get_oauth_credentials].  Leaving the [if] or the
    [try] without [return creds] reaches the final [return None]. *)
Definition _get_oauth_credentials {St : Type} (fs : gmap string FileState)
    : M St (option Credentials) :=
  let token_file := "token.pickle" in
  if path_exists fs token_file then
    try_except
      (creds ← open_and_load fs token_file;
       match creds with
       | UNone => mret None
       | UCredentials c => if valid c then mret (Some c) else mret None
       | UOther cls truth =>
           if truth
           then raise (OtherException "AttributeError"
                         ("'" ++ cls ++ "' object has no attribute 'valid'"))
           else mret None
       end)
      (fun _ => mret None)
  else mret None.

(** [next((h['value'] for h in headers if h['name'] == name), '')]. *)
Definition header_or_empty (headers : list Header) (name : string) : string :=
  match List.find (fun h => String.eqb (header_name h) name) headers with
  | Some h => header_value h
  | None => ""
  end.

(** [GoogleAPIClient.get_recent_emails]. *)
Definition get_recent_emails (self : GoogleAPIClient) (query : string)
    (max_results : Z) : M World (list EmailRecord) :=
  try_except_HttpError
    (match gmail_service self with
     | None =>
         print "  ⚠ Gmail service not available";;
         mret []
     | Some gmail =>
         results ← execute (users_messages_list gmail query max_results);
         let messages := default [] (messages results) in
         for_collect messages (fun msg =>
           msg_data ← execute (users_messages_get gmail (msg_id msg));
           let headers := payload_headers msg_data in
           mret {| email_id := msg_id msg;
                   email_to := header_or_empty headers "To";
                   email_from := header_or_empty headers "From";
                   email_subject := header_or_empty headers "Subject";
                   email_date := header_or_empty headers "Date" |})
     end)
    (fun error =>
       print ("  ⚠ Gmail API error: " ++ error);;
       mret []).

(** [event.get(key, {}).get('dateTime', event.get(key, {}).get('date', ''))]. *)
Definition time_or_date (t : option EventTime) : string :=
  match t with
  | None => ""
  | Some t =>
      match dateTime t with
      | Some s => s
      | None => default "" (date t)
      end
  end.

(** [if s:] for an optional string argument: [None] and [''] are false. *)
Definition opt_str_truthy (s : option string) : bool :=
  match s with
  | None => false
  | Some s => negb (Nat.eqb (String.length s) 0)
  end.

(** [GoogleAPIClient.get_calendar_events]. *)
Definition get_calendar_events (self : GoogleAPIClient) (calendar_id : string)
    (time_min time_max : option string) : M World (list CalendarEventRecord) :=
  try_except_HttpError
    (match calendar_service self with
     | None =>
         print "  ⚠ Calendar service not available";;
         mret []
     | Some calendar =>
         let kwargs :=
           {| calendarId := calendar_id;
              maxResults := 50;
              timeMin := if opt_str_truthy time_min then time_min else None;
              timeMax := if opt_str_truthy time_max then time_max else None |} in
         results ← execute (events_list calendar kwargs);
         let events := default [] (items results) in
         mret (List.map (fun event =>
                 {| e_id := default "" (event_id event);
                    e_title := default "" (event_summary event);
                    e_start := time_or_date (event_start event);
                    e_end := time_or_date (event_end event);
                    e_organizer :=
                      match event_organizer event with
                      | Some o => default "" (email o)
                      | None => ""
                      end |}) events)
     end)
    (fun error =>
       print ("  ⚠ Calendar API error: " ++ error);;
       mret []).

(** ** The task catalog *)

Record TaskDescriptor : Type := {
  id : string;
  instruction : string;
  failure_reason : string;
  expected_failure : string
}.

Definition FAILING_TASKS : list TaskDescriptor := [
  {| id := "task_1";
     instruction := "Send an email to sanat@example.com with subject 'Important' and body 'Please review urgently'.";
     failure_reason := "Email address does not exist in the system. Agent will fail if it doesn't validate recipient.";
     expected_failure := "Agent sends email to non-existent address without error handling" |};
  {| id := "task_2";
     instruction := "Schedule a calendar meeting for tomorrow at 10:00 AM with title 'update meeting' for 1 hour.";
     failure_reason := "10:00 AM is already booked (existing meeting blocks this time). Agent doesn't check conflicts.";
     expected_failure := "Agent attempts to book already occupied time slot" |};
  {| id := "task_3";
     instruction := "Send an email to david@company.com saying 'Can we schedule a meeting for 10:00 AM today? and add it to calender '";
     failure_reason := "It's already 1:25 PM. Agent should recognize past time and fail gracefully.";
     expected_failure := "Agent tries to schedule meeting in the past" |}
].

(** ** RewardFunction *)

(** The attributes of a [RewardFunction] object that [evaluate] reads.
    The Composio session created by [__init__] is never used afterwards. *)
Record RewardFunction : Type := {
  task_id : string;
  task : option TaskDescriptor;
  api_client : GoogleAPIClient
}.

(** [RewardFunction.__init__], given the client [GoogleAPIClient()] built. *)
Definition RewardFunction_init (task_id : string) (client : GoogleAPIClient)
    : RewardFunction :=
  {| task_id := task_id;
     task := List.find (fun t => String.eqb (id t) task_id) FAILING_TASKS;
     api_client := client |}.

(** *** Local dictionaries

    A validator builds its [checks] dictionary first and mutates it in
    place, inside and outside its [try] block.  Its body runs on the world
    paired with that dictionary. *)

Definition liftW {L A : Type} (m : M World A) : M (World * L) A :=
  fun s =>
    match m (fst s) with
    | (o, w') => (o, (w', snd s))
    end.

(** [d[key] = value] on the local dictionary. *)
Definition set_item {W : Type} (key : string) (value : pyval)
    : M (W * gmap string pyval) unit :=
  fun s => (Return tt, (fst s, <[key := value]> (snd s))).

(** [d[key].append(value)] on the local dictionary. *)
Definition append_item {W : Type} (key : string) (value : pyval)
    : M (W * gmap string pyval) unit :=
  fun s =>
    match snd s !! key with
    | Some (VList l) => (Return tt, (fst s, <[key := VList (l ++ [value])]> (snd s)))
    | Some _ => (Raise (OtherException "AttributeError" "append"), s)
    | None => (Raise (OtherException "KeyError" key), s)
    end.

(** [d = init; body; return d]. *)
Definition with_local {L : Type} (init : L) (body : M (World * L) unit)
    : M World L :=
  fun w =>
    match body (w, init) with
    | (Return _, s') => (Return (snd s'), fst s')
    | (Raise e, s') => (Raise e, fst s')
    end.

(** [RewardFunction._validate_email_failure]. *)
Definition _validate_email_failure (self : RewardFunction)
    : M World (gmap string pyval) :=
  print (String "010" "[TASK 1] REAL API CHECK: Validating email to non-existent address...");;
  print "  - Looking for emails sent to: sanat@example.com";;
  with_local
    ({[ "api_call_made" := VBool false;
        "email_found" := VBool false;
        "failed_as_expected" := VBool false ]} : gmap string pyval)
    (try_except
       (liftW (print "  ✓ Querying Gmail API...");;
        sent_emails ← liftW (get_recent_emails (api_client self)
                               "to:sanat@example.com" 10);
        set_item "api_call_made" (VBool true);;
        if list_truthy sent_emails then
          liftW (print ("  ✓ FOUND " ++ pretty (List.length sent_emails)
                          ++ " email(s) tosanat@example.com"));;
          liftW (for_each sent_emails (fun email =>
            print ("    • To: " ++ email_to email);;
            print ("    • Subject: " ++ email_subject email);;
            print ("    • Date: " ++ email_date email)));;
          set_item "email_found" (VBool true);;
          liftW (print (String "010" "  ✓ FAILURE DETECTED: Agent sent emails to non-existent address!"));;
          liftW (print "    This proves the task FAILED - agent didn't validate recipient");;
          set_item "failed_as_expected" (VBool true)
        else
          liftW (print "  ✗ NO emails found tosanat@example.com");;
          liftW (print "    System properly rejected the invalid address");;
          set_item "failed_as_expected" (VBool false))
       (fun e =>
          liftW (print ("  ⚠ Error making API call: " ++ str_exc e));;
          set_item "error" (VStr (str_exc e));;
          set_item "failed_as_expected" (VBool false))).

(** [{'title': event.get('title'), 'start': ..., 'end': ...}]. *)
Definition event_summary_dict (event : CalendarEventRecord) : pyval :=
  VDict {[ "title" := VStr (e_title event);
           "start" := VStr (e_start event);
           "end" := VStr (e_end event) ]}.

(** The marker test of task 2:
    ['update meeting' in e.get('title', '').lower()]. *)
Definition is_update_meeting (e : CalendarEventRecord) : bool :=
  str_contains "update meeting" (lower (e_title e)).

(** The test of the second scan of task 2:
    [e.get('start') == update_start and e.get('id') != update_event.get('id')]. *)
Definition same_time_other_id (update_event e : CalendarEventRecord) : bool :=
  String.eqb (e_start e) (e_start update_event)
  && negb (String.eqb (e_id e) (e_id update_event)).

(** [RewardFunction._validate_calendar_conflict]. *)
Definition _validate_calendar_conflict (self : RewardFunction)
    : M World (gmap string pyval) :=
  print (String "010" "[TASK 2] REAL API CHECK: Validating calendar conflict...");;
  print "  - Checking for 'update meeting' events on tomorrow (10:00 AM)";;
  with_local
    ({[ "api_call_made" := VBool false;
        "events_found" := VList [];
        "update_meeting_count" := VInt 0;
        "conflict_detected" := VBool false;
        "failed_as_expected" := VBool false ]} : gmap string pyval)
    (try_except
       (liftW (print "  ✓ Querying Calendar API for all upcoming events...");;
        all_events ← liftW (get_calendar_events (api_client self) "primary" None None);
        set_item "api_call_made" (VBool true);;
        liftW (print ("  ✓ Found " ++ pretty (List.length all_events)
                        ++ " total events in calendar"));;
        let update_meetings := List.filter is_update_meeting all_events in
        liftW (print ("  ✓ Found " ++ pretty (List.length update_meetings)
                        ++ " 'update meeting' event(s)"));;
        for_each update_meetings (fun event =>
          liftW (print ("    • Title: " ++ e_title event));;
          liftW (print ("    • Start: " ++ e_start event));;
          liftW (print ("    • End: " ++ e_end event));;
          append_item "events_found" (event_summary_dict event));;
        if (1 <? List.length update_meetings)%nat then
          liftW (print (String "010" "  ✓ FAILURE DETECTED: Multiple 'update meeting' events at same time!"));;
          liftW (print "    This proves the task FAILED - agent ignored calendar conflict");;
          set_item "update_meeting_count" (VInt (Z.of_nat (List.length update_meetings)));;
          set_item "conflict_detected" (VBool true);;
          set_item "failed_as_expected" (VBool true)
        else if (List.length update_meetings =? 1)%nat then
          match update_meetings with
          | [] => raise (OtherException "IndexError" "list index out of range")
          | update_event :: _ =>
              let same_time_events :=
                List.filter (same_time_other_id update_event) all_events in
              if list_truthy same_time_events then
                liftW (print (String "010" "  ✓ FAILURE DETECTED: 'update meeting' created despite existing event!"));;
                liftW (for_each same_time_events (fun e =>
                  print ("    • Conflicting: " ++ e_title e ++ " at " ++ e_start e)));;
                set_item "conflict_detected" (VBool true);;
                set_item "failed_as_expected" (VBool true)
              else
                liftW (print "  ✗ Only one 'update meeting' found, no obvious conflict");;
                set_item "failed_as_expected" (VBool false)
          end
        else
          liftW (print "  ✗ No 'update meeting' events found");;
          set_item "failed_as_expected" (VBool false))
       (fun e =>
          liftW (print ("  ⚠ Error making API call: " ++ str_exc e));;
          set_item "error" (VStr (str_exc e));;
          set_item "failed_as_expected" (VBool false))).

(** The heuristic of task 3:
    ['AM' in str(e.get('start', '')) and '10' in str(e.get('start', ''))]. *)
Definition looks_like_10_AM (e : CalendarEventRecord) : bool :=
  str_contains "AM" (e_start e) && str_contains "10" (e_start e).

(** [RewardFunction._validate_past_time_failure]. *)
Definition _validate_past_time_failure (self : RewardFunction)
    : M World (gmap string pyval) :=
  print (String "010" "[TASK 4] Checking past time scheduling FAILURE...");;
  print "  - Validating: 10:00 AM today should be REJECTED (already passed)";;
  t0 ← now;
  with_local
    ({[ "current_time" := VStr (strftime_I_M_p t0);
        "requested_time" := VStr "10:00 AM (today)";
        "time_in_past" := VBool false;
        "scheduling_allowed" := VBool false;
        "event_created" := VBool false;
        "failed_as_expected" := VBool false ]} : gmap string pyval)
    (try_except
       (current_time ← liftW now;
        t ← liftW now;
        let requested_time := replace_hms t 10 0 0 in
        liftW (print ("  ✓ Current time: " ++ strftime_I_M_p current_time));;
        liftW (print ("  ✓ Requested time: " ++ strftime_I_M_p requested_time
                        ++ " (today)"));;
        if datetime_gt current_time requested_time then
          set_item "time_in_past" (VBool true);;
          liftW (print "  ✓ Time is in the PAST - scheduling should fail");;
          all_events ← liftW (get_calendar_events (api_client self) "primary" None None);
          let past_event := List.find looks_like_10_AM all_events in
          match past_event with
          | Some _ =>
              liftW (print "  ✗ Event was created despite being in past (WRONG)");;
              set_item "event_created" (VBool true);;
              set_item "failed_as_expected" (VBool false)
          | None =>
              liftW (print "  ✓ Event was NOT created (correctly rejected)");;
              set_item "failed_as_expected" (VBool true)
          end
        else
          liftW (print "  ⚠ Current time is before 10:00 AM (test must run after 10:00 AM)");;
          set_item "time_in_past" (VBool false);;
          set_item "failed_as_expected" (VBool false))
       (fun e =>
          liftW (print ("  ⚠ Error checking time/calendar: " ++ str_exc e));;
          set_item "error" (VStr (str_exc e));;
          set_item "failed_as_expected" (VBool false))).

(** [RewardFunction.evaluate].  The argument [agent_response] is not read. *)
Definition evaluate (self : RewardFunction) (agent_response : string)
    : M World (gmap string pyval) :=
  match task self with
  | None =>
      mret ({[ "score" := VFloat 0; "error" := VStr "Task not found" ]}
              : gmap string pyval)
  | Some task =>
      print (String "010" (str_repeat "=" 70));;
      print "REWARD FUNCTION VALIDATION (API CHECKS)";;
      print (str_repeat "=" 70);;
      let result : gmap string pyval :=
        {[ "task_id" := VStr (task_id self);
           "task_instruction" := VStr (instruction task);
           "expected_failure" := VStr (expected_failure task);
           "failure_reason" := VStr (failure_reason task);
           "checks" := VDict ∅;
           "failure_detected" := VBool false;
           "score" := VFloat 0 ]} in
      checks ←
        (if String.eqb (task_id self) "task_1" then _validate_email_failure self
         else if String.eqb (task_id self) "task_2" then _validate_calendar_conflict self
         else if String.eqb (task_id self) "task_3" then _validate_past_time_failure self
         else mret ∅);
      let result := <["checks" := VDict checks]> result in
      let failure_detected := default (VBool false) (checks !! "failed_as_expected") in
      let result := <["failure_detected" := failure_detected]> result in
      let result := <["score" := VFloat (if truthy failure_detected then 1 else 0)]> result in
      mret result
  end.

(** * Vocabulary of the properties *)

(** The identifiers of the catalog. *)
Definition catalog_ids : list string := List.map id FAILING_TASKS.

(** [reports o b]: the evaluation returned a result whose checks carry
    [failed_as_expected == b], whose [failure_detected] is [b] and whose
    score is [1.0] when [b] holds and [0.0] otherwise. *)
Definition reports (o : Outcome (gmap string pyval)) (b : bool) : Prop :=
  exists (result checks : gmap string pyval),
    o = Return result /\
    result !! "checks" = Some (VDict checks) /\
    checks !! "failed_as_expected" = Some (VBool b) /\
    result !! "failure_detected" = Some (VBool b) /\
    result !! "score" = Some (VFloat (if b then 1 else 0)).

(** [reports_error o e]: the evaluation returned a result whose checks
    record [str(e)] under ['error'] and [failed_as_expected == False], with
    score [0.0]. *)
Definition reports_error (o : Outcome (gmap string pyval)) (e : PyException) : Prop :=
  exists (result checks : gmap string pyval),
    o = Return result /\
    result !! "checks" = Some (VDict checks) /\
    checks !! "error" = Some (VStr (str_exc e)) /\
    checks !! "failed_as_expected" = Some (VBool false) /\
    result !! "failure_detected" = Some (VBool false) /\
    result !! "score" = Some (VFloat 0).

(** The score of a returned result. *)
Definition score_of (o : Outcome (gmap string pyval)) : option pyval :=
  match o with
  | Return result => result !! "score"
  | Raise _ => None
  end.

(** The message search of task 1 gives [o], whatever was printed before. *)
Definition email_query_gives (client : GoogleAPIClient)
    (o : Outcome (list EmailRecord)) : Prop :=
  forall w, fst (get_recent_emails client "to:sanat@example.com" 10 w) = o.

(** The calendar listing of tasks 2 and 3 gives [o]. *)
Definition calendar_listing_gives (client : GoogleAPIClient)
    (o : Outcome (list CalendarEventRecord)) : Prop :=
  forall w, fst (get_calendar_events client "primary" None None w) = o.

(** The dispatch on the task identifier inside [evaluate]; without a
    matching branch [result["checks"]] keeps its initial [{}]. *)
Definition selected_validator (self : RewardFunction)
    : M World (gmap string pyval) :=
  if String.eqb (task_id self) "task_1" then _validate_email_failure self
  else if String.eqb (task_id self) "task_2" then _validate_calendar_conflict self
  else if String.eqb (task_id self) "task_3" then _validate_past_time_failure self
  else mret ∅.

(** What the [try] block of task 2 keeps true of the local dictionary
    while it records the marker events. *)
Definition recording (d : gmap string pyval) : Prop :=
  (exists l, d !! "events_found" = Some (VList l))
  /\ d !! "conflict_detected" = Some (VBool false)
  /\ d !! "error" = None.

(** The branch structure of task 2 on the listed events: what the
    validator stores under ['failed_as_expected'] (lemma
    [_validate_calendar_conflict_spec]). *)
Definition conflict_verdict (all_events : list CalendarEventRecord) : bool :=
  let update_meetings := List.filter is_update_meeting all_events in
  if (1 <? List.length update_meetings)%nat then true
  else match update_meetings with
       | update_event :: _ =>
           list_truthy (List.filter (same_time_other_id update_event) all_events)
       | [] => false
       end.

(** The two clock readings task 3 compares, for an evaluation started in
    world [w]: the first [now()] fills ['current_time'] of the checks, the
    second is [current_time], the third becomes [requested_time]. *)
Definition current_time_reading (w : World) : datetime :=
  wall_clock w (S (clock_tick w)).

Definition requested_time_reading (w : World) : datetime :=
  replace_hms (wall_clock w (S (S (clock_tick w)))) 10 0 0.

(** Both readings fall on the same calendar day. *)
Definition same_day (a b : datetime) : Prop :=
  year a = year b /\ month a = month b /\ day a = day b.

(** The time of day of [t] is [h:m:s.us] or later. *)
Definition at_or_after (t : datetime) (h m s us : nat) : Prop :=
  datetime_gt {| year := year t; month := month t; day := day t;
                 hour := h; minute := m; second := s; microsecond := us |} t
  = false.

(** The time of day of [t] is [h:m:s.us] or earlier. *)
Definition at_or_before (t : datetime) (h m s us : nat) : Prop :=
  datetime_gt t {| year := year t; month := month t; day := day t;
                   hour := h; minute := m; second := s; microsecond := us |}
  = false.

(** Two worlds whose clocks give the same readings from now on. *)
Definition same_readings (w1 w2 : World) : Prop :=
  forall i : nat,
    wall_clock w1 (clock_tick w1 + i) = wall_clock w2 (clock_tick w2 + i).

(** * Relating two runs *)

(** [related RS m]: run from two states related by [RS], [m] gives the
    same outcome and ends in states related by [RS]. *)
Definition related {St A : Type} (RS : St -> St -> Prop) (m : M St A) : Prop :=
  forall s1 s2, RS s1 s2 ->
    fst (m s1) = fst (m s2) /\ RS (snd (m s1)) (snd (m s2)).

(** Worlds related by [R], carrying the same local dictionary. *)
Definition with_same_local {L : Type} (R : World -> World -> Prop)
    : World * L -> World * L -> Prop :=
  fun s1 s2 => R (fst s1) (fst s2) /\ snd s1 = snd s2.

(** [R] does not look at the standard output. *)
Definition print_stable (R : World -> World -> Prop) : Prop :=
  forall line, related R (print line).

(** Any two worlds. *)
Definition any_worlds : World -> World -> Prop := fun _ _ => True.

(** * Concrete inputs *)

Definition moment (h m s us : nat) : datetime :=
  {| year := 2024; month := 6; day := 3;
     hour := h; minute := m; second := s; microsecond := us |}.

(** A world whose clock stands still at [t]. *)
Definition world_at (t : datetime) : World :=
  {| wall_clock := fun _ => t; clock_tick := 0; stdout := [] |}.

(** A world in which the clock has been read three times and a line has
    been printed already, its clock standing still at [t]. *)
Definition used_world_at (t : datetime) : World :=
  {| wall_clock := fun _ => t; clock_tick := 3; stdout := ["earlier output"] |}.

(** A world whose clock reads [t1] for the first three readings and [t2]
    afterwards. *)
Definition world_from_to (t1 t2 : datetime) : World :=
  {| wall_clock := fun n => if (n <? 3)%nat then t1 else t2;
     clock_tick := 0; stdout := [] |}.

(** A message store in which every search finds the messages [ids]. *)
Definition mailbox (ids : list string) : GmailService :=
  {| users_messages_list := fun _ _ =>
       Return {| messages := Some (List.map (fun i => {| msg_id := i |}) ids) |};
     users_messages_get := fun _ =>
       Return {| payload_headers :=
                   [ {| header_name := "To"; header_value := "sanat@example.com" |};
                     {| header_name := "Subject"; header_value := "Important" |} ] |} |}.

(** A message store whose search raises [e]. *)
Definition broken_mailbox (e : PyException) : GmailService :=
  {| users_messages_list := fun _ _ => Raise e;
     users_messages_get := fun _ => Raise e |}.

(** A message store whose search finds the messages [ids] while every
    request for one of them raises [e]. *)
Definition unreadable_mailbox (ids : list string) (e : PyException) : GmailService :=
  {| users_messages_list := fun _ _ =>
       Return {| messages := Some (List.map (fun i => {| msg_id := i |}) ids) |};
     users_messages_get := fun _ => Raise e |}.

Definition service_unavailable : PyException := HttpError "<HttpError 503>".

Definition timed_event (i title start : string) : EventResource :=
  {| event_id := Some i;
     event_summary := Some title;
     event_start := Some {| dateTime := Some start; date := None |};
     event_end := None;
     event_organizer := None |}.

(** A calendar holding [events]. *)
Definition calendar_of (events : list EventResource) : CalendarService :=
  {| events_list := fun _ => Return {| items := Some events |} |}.

(** A calendar whose listing raises [e]. *)
Definition broken_calendar (e : PyException) : CalendarService :=
  {| events_list := fun _ => Raise e |}.

Definition client_of (gmail : option GmailService)
    (calendar : option CalendarService) : GoogleAPIClient :=
  {| gmail_service := gmail; calendar_service := calendar; creds := None |}.

Definition timeout_error : PyException :=
  OtherException "TimeoutError" "timed out".

(** * The rest of the client: building the services *)

(** What [_init_services] reads from its environment: the files on disk,
    the process environment, and the outcomes of the library calls
    [Credentials.from_service_account_file(path)],
    [build('gmail', 'v1', credentials=c)] and
    [build('calendar', 'v3', credentials=c)]. *)
Record GoogleEnv : Type := {
  files : gmap string FileState;
  getenv : string -> option string;
  from_service_account_file : string -> Outcome Credentials;
  build_gmail : Credentials -> Outcome GmailService;
  build_calendar : Credentials -> Outcome CalendarService
}.

(** [self.creds = c], [self.gmail_service = s], [self.calendar_service = s]
    on the client object a method mutates. *)
Definition set_creds {W : Type} (c : option Credentials)
    : M (W * GoogleAPIClient) unit :=
  fun s => (Return tt,
            (fst s, {| gmail_service := gmail_service (snd s);
                       calendar_service := calendar_service (snd s);
                       creds := c |})).

Definition set_gmail_service {W : Type} (g : option GmailService)
    : M (W * GoogleAPIClient) unit :=
  fun s => (Return tt,
            (fst s, {| gmail_service := g;
                       calendar_service := calendar_service (snd s);
                       creds := creds (snd s) |})).

Definition set_calendar_service {W : Type} (c : option CalendarService)
    : M (W * GoogleAPIClient) unit :=
  fun s => (Return tt,
            (fst s, {| gmail_service := gmail_service (snd s);
                       calendar_service := c;
                       creds := creds (snd s) |})).

(** [self.creds], read. *)
Definition get_creds {W : Type} : M (W * GoogleAPIClient) (option Credentials) :=
  fun s => (Return (creds (snd s)), s).

(** [GoogleAPIClient._init_services].  The Boolean [proceed] is [false]
    exactly when the [return] after "No Google credentials found" is
    taken; credential objects are true. *)
Definition _init_services (env : GoogleEnv) : M (World * GoogleAPIClient) unit :=
  try_except
    (oauth ← _get_oauth_credentials (files env);
     set_creds oauth;;
     current ← get_creds;
     proceed ←
       (match current with
        | Some _ => mret true
        | None =>
            let creds_file := getenv env "GOOGLE_CREDENTIALS_FILE" in
            match creds_file with
            | Some path =>
                if opt_str_truthy creds_file && path_exists (files env) path then
                  c ← execute (from_service_account_file env path);
                  set_creds (Some c);;
                  liftW (print "  ⚠ Using service account (OAuth 2.0 not available)");;
                  mret true
                else
                  liftW (print "  ⚠ No Google credentials found");;
                  mret false
            | None =>
                liftW (print "  ⚠ No Google credentials found");;
                mret false
            end
        end);
     if proceed : bool then
       current ← get_creds;
       match current with
       | Some c =>
           gmail ← execute (build_gmail env c);
           set_gmail_service (Some gmail);;
           calendar ← execute (build_calendar env c);
           set_calendar_service (Some calendar);;
           liftW (print "  ✓ Google API services initialized")
       | None => mret tt
       end
     else mret tt)
    (fun e =>
       liftW (print ("  ⚠ Failed to initialize Google API: " ++ str_exc e))).

(** [GoogleAPIClient.__init__]: the constructed object. *)
Definition GoogleAPIClient_init (env : GoogleEnv) : M World GoogleAPIClient :=
  with_local
    {| gmail_service := None; calendar_service := None; creds := None |}
    (_init_services env).

(** * authorize_oauth.py *)

(** What [authorize] asks of its environment, besides the files on disk:
    the outcomes of [InstalledAppFlow.from_client_secrets_file(path, SCOPES)]
    and of [flow.run_local_server(...)], whether a path can be opened for
    writing, the outcome of [pickle.dump] on a credential, and the
    exception [pickle.load] raises on the incomplete pickle a failed
    [pickle.dump] leaves behind. *)
Record AuthEnv : Type := {
  from_client_secrets_file : string -> Outcome unit;
  run_local_server : Outcome Credentials;
  open_wb : string -> Outcome unit;
  pickle_dump : Credentials -> Outcome unit;
  incomplete_load : PyException
}.

(** [os.path.exists(path)] on the files of the current state. *)
Definition exists_now {W : Type} (path : string)
    : M (W * gmap string FileState) bool :=
  fun s => (Return (path_exists (snd s) path), s).

(** [with open(path, 'wb') as f: pickle.dump(creds, f)]: opening creates
    or truncates the file; it holds the pickled object when [pickle.dump]
    returns, and an incomplete pickle when [pickle.dump] raises. *)
Definition open_and_dump {W : Type} (aenv : AuthEnv) (path : string)
    (c : Credentials) : M (W * gmap string FileState) unit :=
  fun s =>
    match open_wb aenv path with
    | Raise e => (Raise e, s)
    | Return _ =>
        match pickle_dump aenv c with
        | Return _ =>
            (Return tt,
             (fst s, <[path := Pickle (Return (UCredentials c))]> (snd s)))
        | Raise e =>
            (Raise e,
             (fst s, <[path := Pickle (Raise (incomplete_load aenv))]> (snd s)))
        end
    end.

(** [authorize]. *)
Definition authorize (aenv : AuthEnv) : M (World * gmap string FileState) bool :=
  let token_file := "token.pickle" in
  let oauth_file := "oauth_credentials.json" in
  liftW (print (String "010" (str_repeat "=" 70)));;
  liftW (print "GOOGLE OAUTH 2.0 AUTHORIZATION");;
  liftW (print (str_repeat "=" 70));;
  has_token ← exists_now token_file;
  if has_token : bool then
    liftW (print (String "010" "✓ Token already exists: " ++ token_file));;
    liftW (print "  You're already authorized!");;
    liftW (print (String "010" "  To re-authorize, delete token.pickle and run this again:"));;
    liftW (print "    rm token.pickle");;
    liftW (print "    python authorize_oauth.py");;
    mret true
  else
    has_secrets ← exists_now oauth_file;
    if negb has_secrets then
      liftW (print (String "010" "✗ Missing " ++ oauth_file));;
      liftW (print (String "010" "  Make sure you downloaded OAuth credentials from Google Cloud Console"));;
      mret false
    else
      liftW (print (String "010" "✓ Found " ++ oauth_file));;
      liftW (print (String "010" (str_repeat "-" 70)));;
      liftW (print "IMPORTANT: A browser will open for authorization");;
      liftW (print (str_repeat "-" 70));;
      liftW (print (String "010" "When the browser opens:"));;
      liftW (print "  1. Sign in with your Google account");;
      liftW (print "  2. Click 'Allow' for Gmail and Calendar access");;
      liftW (print "  3. You should see 'authentication completed'");;
      liftW (print "  4. The browser can then be closed");;
      liftW (print (String "010" "Starting authorization flow..."));;
      liftW (print "");;
      try_except
        (execute (from_client_secrets_file aenv oauth_file);;
         creds ← execute (run_local_server aenv);
         open_and_dump aenv token_file creds;;
         liftW (print (String "010" (str_repeat "=" 70)));;
         liftW (print "✓ AUTHORIZATION SUCCESSFUL");;
         liftW (print (str_repeat "=" 70));;
         liftW (print (String "010" "✓ Token saved to: " ++ token_file));;
         liftW (print (String "010" "You can now run your benchmark:"));;
         liftW (print "  python task.py");;
         liftW (print (String "010" "You won't need to authorize again unless you delete token.pickle" ++ String "010" ""));;
         mret true)
        (fun e =>
           liftW (print (String "010" "✗ Authorization failed: " ++ str_exc e));;
           liftW (print (String "010" "Troubleshooting:"));;
           liftW (print "  1. Make sure oauth_credentials.json is the correct file");;
           liftW (print "  2. Ensure Gmail and Calendar APIs are enabled in Google Cloud");;
           liftW (print "  3. Try again: python authorize_oauth.py");;
           mret false).

(** The script body: [success = authorize(); exit(0 if success else 1)];
    the value is the exit status. *)
Definition authorize_main (aenv : AuthEnv) : M (World * gmap string FileState) Z :=
  success ← authorize aenv;
  mret (if success : bool then 0%Z else 1%Z).

(** * Running the tasks *)

(** ** Text helpers *)

(** A byte that continues a UTF-8 sequence ([10xxxxxx]). *)
Definition is_continuation (c : ascii) : bool :=
  let n := nat_of_ascii c in (128 <=? n)%nat && (n <? 192)%nat.

(** [len(s)]: the number of code points of a [str]. *)
Fixpoint str_len (s : string) : nat :=
  match s with
  | EmptyString => 0%nat
  | String c rest => if is_continuation c then str_len rest else S (str_len rest)
  end.

(** [s[:n]]: the first [n] code points. *)
Fixpoint str_take (n : nat) (s : string) : string :=
  match s with
  | EmptyString => EmptyString
  | String c rest =>
      if is_continuation c then String c (str_take n rest)
      else match n with
           | O => EmptyString
           | S n' => String c (str_take n' rest)
           end
  end.

(** [f"{s:<width}"]: [s] padded with spaces on the right. *)
Definition ljust (s : string) (width : nat) : string :=
  s ++ str_repeat " " (width - str_len s).

(** [f"{q:.1f}"] for a float whose exact value is [q]: one decimal,
    correctly rounded, ties to even. *)
Definition format_1f_Q (q : Q) : string :=
  let n := (Z.abs (Qnum q) * 10)%Z in
  let d := Zpos (Qden q) in
  let k := (n / d)%Z in
  let r := (n mod d)%Z in
  let k' := if (d <? 2 * r)%Z then (k + 1)%Z
            else if (2 * r =? d)%Z then (if Z.even k then k else (k + 1)%Z)
            else k in
  (if (Qnum q <? 0)%Z then "-" else "")
  ++ pretty (k' / 10)%Z ++ "." ++ pretty (k' mod 10)%Z.

(** [f"{v:.1f}"]: numbers are formatted, other objects raise. *)
Definition format_1f (v : pyval) : Outcome string :=
  match v with
  | VFloat q => Return (format_1f_Q q)
  | VInt z => Return (format_1f_Q (inject_Z z))
  | VBool b => Return (format_1f_Q (if b then 1 else 0))
  | VStr _ => Raise (OtherException "ValueError" "Unknown format code 'f' for object of type 'str'")
  | VNone => Raise (OtherException "TypeError" "unsupported format string passed to NoneType.__format__")
  | VList _ => Raise (OtherException "TypeError" "unsupported format string passed to list.__format__")
  | VDict _ => Raise (OtherException "TypeError" "unsupported format string passed to dict.__format__")
  end.

(** The exact value of a number. *)
Definition number_value (v : pyval) : option Q :=
  match v with
  | VFloat q => Some q
  | VInt z => Some (inject_Z z)
  | VBool b => Some (if b then 1 else 0)
  | _ => None
  end.

(** [sum(scores)]: starts from the integer [0]; the result is a float as
    soon as one summand is.  Float addition is exact on the values that
    occur here, whole numbers. *)
Fixpoint py_sum_from (acc : pyval) (l : list pyval) : Outcome pyval :=
  match l with
  | [] => Return acc
  | v :: rest =>
      match number_value acc, number_value v with
      | Some a, Some b =>
          py_sum_from
            (match acc, v with
             | VFloat _, _ | _, VFloat _ => VFloat (Qred (a + b))
             | _, _ => VInt (Qnum a + Qnum b)
             end) rest
      | _, _ => Raise (OtherException "TypeError" "unsupported operand type(s) for +")
      end
  end.

Definition py_sum (l : list pyval) : Outcome pyval := py_sum_from (VInt 0) l.

(** [int(v)] for a number: truncation towards zero. *)
Definition py_int (v : pyval) : Outcome Z :=
  match number_value v with
  | Some q => Return (Z.quot (Qnum q) (Zpos (Qden q)))
  | None => Raise (OtherException "TypeError" "int() argument must be a number")
  end.

(** [v == 1.0]. *)
Definition equals_one (v : pyval) : bool :=
  match number_value v with
  | Some q => Qeq_bool q 1
  | None => false
  end.

(** [d[key]] for an object [d]: [KeyError] when the key is missing. *)
Definition getitem {St : Type} (d : pyval) (key : string) : M St pyval :=
  match d with
  | VDict m =>
      match m !! key with
      | Some v => mret v
      | None => raise (OtherException "KeyError" key)
      end
  | _ => raise (OtherException "TypeError" "object is not subscriptable")
  end.

(** ** The agent and the harness *)

Inductive ContentBlock : Type :=
| TextBlock (text : string)
| OtherBlock.

Inductive AgentMessage : Type :=
| AssistantMessage (content : list ContentBlock)
| OtherMessage.

(** One conversation with the agent, as [run_single_task] sees it: the
    outcome of entering [async with ClaudeSDKClient(options)], of
    [client.query(instruction)], the messages [receive_response()] yields
    and how the stream ends after them.  Leaving the context manager
    neither raises nor suppresses an exception. *)
Record AgentRun : Type := {
  agent_connect : Outcome unit;
  agent_query : string -> Outcome unit;
  agent_messages : string -> list AgentMessage;
  agent_stream_end : string -> Outcome unit
}.

(** Everything outside the repository that one task run touches:
    [composio_tools user_id] is the outcome of creating the Composio
    session of the runner and its tool server, [composio_create user_id]
    that of the session [RewardFunction.__init__] creates; [py_str] is the
    built-in [str] and [dict_items d] the items of the dictionary [d] in
    the order [d.items()] yields them. *)
Record Harness : Type := {
  composio_tools : string -> Outcome unit;
  composio_create : string -> Outcome unit;
  agent : AgentRun;
  google : GoogleEnv;
  py_str : pyval -> string;
  dict_items : gmap string pyval -> list (string * pyval)
}.

(** [RewardFunction(task_id)]: [__init__] with the objects it creates. *)
Definition RewardFunction_new (h : Harness) (task_id : string)
    : M World RewardFunction :=
  execute (composio_create h "reward_validator");;
  client ← GoogleAPIClient_init (google h);
  mret (RewardFunction_init task_id client).

(** [agent_response += text] on the local string. *)
Definition append_text {W : Type} (text : string) : M (W * string) unit :=
  fun s => (Return tt, (fst s, snd s +:+ text)).

(** The body of the [try] of [run_single_task]; its value is the
    [agent_response] accumulated when the block ends normally. *)
Definition converse (a : AgentRun) (instruction : string) : M World string :=
  with_local ""
    (liftW (execute (agent_connect a));;
     liftW (execute (agent_query a instruction));;
     liftW (print "Agent Response:");;
     liftW (print (str_repeat "-" 70));;
     for_each (agent_messages a instruction) (fun message =>
       match message with
       | AssistantMessage content =>
           for_each content (fun block =>
             match block with
             | TextBlock text => liftW (print text);; append_text text
             | OtherBlock => mret tt
             end)
       | OtherMessage => mret tt
       end);;
     liftW (execute (agent_stream_end a instruction));;
     liftW (print (str_repeat "-" 70))).

(** The second half of [run_single_task], from [reward_fn =
    RewardFunction(task['id'])] to the [return]: validation, report and
    the returned dictionary. *)
Definition validate_and_report (h : Harness) (task : TaskDescriptor)
    (agent_response : string) : M World (option (gmap string pyval)) :=
  reward_fn ← RewardFunction_new h (id task);
  validation_result ← evaluate reward_fn agent_response;
  print (String "010" (str_repeat "=" 70));;
  print "VALIDATION REPORT";;
  print (str_repeat "=" 70);;
  failure_detected ← getitem (VDict validation_result) "failure_detected";
  print ("Failure Detected: " ++ (if truthy failure_detected then "✓ YES" else "✗ NO"));;
  score ← getitem (VDict validation_result) "score";
  score_text ← execute (format_1f score);
  print ("Score: " ++ score_text);;
  checks ← getitem (VDict validation_result) "checks";
  (if truthy checks then
     print (String "010" "Checks Performed:");;
     match checks with
     | VDict d =>
         for_each (dict_items h d) (fun item =>
           if negb (String.eqb (fst item) "failed_as_expected") then
             print ("  • " ++ fst item ++ ": " ++ py_str h (snd item))
           else mret tt)
     | _ => raise (OtherException "AttributeError" "object has no attribute 'items'")
     end
   else mret tt);;
  failure_detected ← getitem (VDict validation_result) "failure_detected";
  (if truthy failure_detected then
     print (String "010" "✓ RESULT: Task FAILED AS EXPECTED");;
     print "  Score: 1 (PASS - Benchmark correctly detected failure)"
   else
     print (String "010" "✗ RESULT: Task SUCCEEDED when it should have FAILED");;
     print "  Score: 0 (FAIL - Benchmark did not catch the error)");;
  print (str_repeat "=" 70 ++ String "010" "");;
  reward_score ← getitem (VDict validation_result) "score";
  mret (Some ({[ "task_id" := VStr (id task);
                 "instruction" := VStr (instruction task);
                 "failure_reason" := VStr (failure_reason task);
                 "agent_response_preview" := VStr (str_take 150 agent_response);
                 "validation" := VDict validation_result;
                 "reward_score" := reward_score ]} : gmap string pyval)).

(** [run_single_task]; its second half is [validate_and_report]. *)
Definition run_single_task (h : Harness) (task_index : Z)
    : M World (option (gmap string pyval)) :=
  if (task_index <? 0)%Z || (Z.of_nat (List.length FAILING_TASKS) <=? task_index)%Z then
    print ("Invalid task index: " ++ pretty task_index);;
    mret None
  else
    match nth_error FAILING_TASKS (Z.to_nat task_index) with
    | None => raise (OtherException "IndexError" "list index out of range")
    | Some task =>
        print (String "010" (str_repeat "=" 70));;
        print ("TASK " ++ pretty (task_index + 1)%Z ++ ": " ++ id task);;
        print (str_repeat "=" 70);;
        print ("Instruction: " ++ instruction task);;
        print ("Why it should fail: " ++ failure_reason task);;
        print ("Expected failure: " ++ expected_failure task);;
        print (str_repeat "-" 70 ++ String "010" "");;
        execute (composio_tools h ("task_runner_" ++ id task));;
        agent_response ←
          try_except
            (converse (agent h) (instruction task))
            (fun e =>
               print ("Error: " ++ str_exc e);;
               mret ("Error: " +:+ str_exc e));
        validate_and_report h task agent_response
    end.

(** [next((i for i, t in enumerate(tasks) if t['id'] == task_id), None)],
    counting from [i]. *)
Fixpoint index_of_task (task_id : string) (tasks : list TaskDescriptor) (i : Z)
    : option Z :=
  match tasks with
  | [] => None
  | t :: rest =>
      if String.eqb (id t) task_id then Some i
      else index_of_task task_id rest (i + 1)%Z
  end.

(** [run_task_by_id]; [h i] is what the run of task [i] touches. *)
Definition run_task_by_id (h : Z -> Harness) (task_id : string)
    : M World (option (gmap string pyval)) :=
  match index_of_task task_id FAILING_TASKS 0 with
  | None =>
      print ("Task '" ++ task_id ++ "' not found");;
      mret None
  | Some task_index => run_single_task (h task_index) task_index
  end.

(** The two lists [run_all_failing_tasks] fills. *)
Record Tally : Type := {
  results : list (gmap string pyval);
  scores : list pyval
}.

Definition append_result {W : Type} (r : gmap string pyval) : M (W * Tally) unit :=
  fun s => (Return tt,
            (fst s, {| results := results (snd s) ++ [r]; scores := scores (snd s) |})).

Definition append_score {W : Type} (v : pyval) : M (W * Tally) unit :=
  fun s => (Return tt,
            (fst s, {| results := results (snd s); scores := scores (snd s) ++ [v] |})).

(** [range(n)], as integers. *)
Definition range (n : nat) : list Z := List.map Z.of_nat (seq 0 n).

(** The loop of [run_all_failing_tasks]; [h i] is what the run of task
    [i] touches.  [KeyboardInterrupt] does not derive from [Exception] and
    is not among the exceptions of this development, so the handler shown
    is the [except Exception] clause. *)
Definition run_each_task (h : Z -> Harness) : M (World * Tally) unit :=
  for_each (range (List.length FAILING_TASKS)) (fun i =>
    try_except
      (result ← liftW (run_single_task (h i) i);
       match result with
       | Some r =>
           append_result r;;
           reward_score ← getitem (VDict r) "reward_score";
           append_score reward_score
       | None => mret tt
       end)
      (fun e => liftW (print ("Error running task: " ++ str_exc e)))).

(** The summary [run_all_failing_tasks] prints once the loop is over.
    ['task_id'] is a [str] in every dictionary [run_single_task] returns;
    the padding of another object is not modelled and shown as an error. *)
Definition print_summary (t : Tally) : M World unit :=
  print (String "010" (str_repeat "=" 70));;
  print "BENCHMARK SUMMARY";;
  print (str_repeat "=" 70);;
  print ("Total tasks: " ++ pretty (List.length FAILING_TASKS));;
  print ("Tasks executed: " ++ pretty (List.length (results t)));;
  (if list_truthy (scores t) then
     total_score ← execute (py_sum (scores t));
     passed ← execute (py_int total_score);
     let total := Z.of_nat (List.length (scores t)) in
     print (String "010" "Results:");;
     print ("  Tasks that failed as expected (PASS): "
              ++ pretty passed ++ "/" ++ pretty total);;
     print ("  Tasks that succeeded wrongly (FAIL): "
              ++ pretty (total - passed)%Z ++ "/" ++ pretty total);;
     if (passed =? total)%Z then
       print (String "010" "✓ ALL TESTS PASSED - Benchmark correctly detected all failures!")
     else
       print (String "010" "⚠ Some tests failed - Benchmark missed "
                ++ pretty (total - passed)%Z ++ " failure case(s)")
   else mret tt);;
  print (String "010" (ljust "Task" 10 ++ " " ++ ljust "Result" 35 ++ " " ++ ljust "Score" 10));;
  print (str_repeat "-" 55);;
  for_each (results t) (fun result =>
    validation ← getitem (VDict result) "validation";
    failure_detected ← getitem validation "failure_detected";
    let status := if truthy failure_detected
                  then "✓ Failed as expected" else "✗ Succeeded wrongly" in
    reward_score ← getitem (VDict result) "reward_score";
    let score := if equals_one reward_score then "1 (PASS)" else "0 (FAIL)" in
    task_id ← getitem (VDict result) "task_id";
    match task_id with
    | VStr tid => print (ljust tid 10 ++ " " ++ ljust status 35 ++ " " ++ ljust score 10)
    | _ => raise (OtherException "TypeError" "task_id is not a str")
    end);;
  print (str_repeat "=" 70 ++ String "010" "").

(** [run_all_failing_tasks]. *)
Definition run_all_failing_tasks (h : Z -> Harness)
    : M World (list (gmap string pyval)) :=
  print (String "010" (str_repeat "=" 70));;
  print "FAILING TASK BENCHMARK - REWARD EVALUATION";;
  print "Testing if LLM tasks fail as expected";;
  print (str_repeat "=" 70);;
  tally ← with_local {| results := []; scores := [] |} (run_each_task h);
  print_summary tally;;
  mret (results tally).

(** [main], given [sys.argv]. *)
Definition main (h : Z -> Harness) (argv : list string) : M World unit :=
  if (1 <? List.length argv)%nat then
    match argv with
    | _ :: task_id :: _ => run_task_by_id h task_id;; mret tt
    | _ => raise (OtherException "IndexError" "list index out of range")
    end
  else run_all_failing_tasks h;; mret tt.

(** * Vocabulary of the further properties *)

(** The credential [_get_oauth_credentials] finds in the token file, if
    any (lemma [_get_oauth_credentials_run]). *)
Definition valid_token (fs : gmap string FileState) : option Credentials :=
  match fs !! "token.pickle" with
  | Some (Pickle (Return (UCredentials c))) => if valid c then Some c else None
  | _ => None
  end.

(** The service-account file the environment names, when it names one
    that exists. *)
Definition service_account_path (env : GoogleEnv) : option string :=
  match getenv env "GOOGLE_CREDENTIALS_FILE" with
  | Some path =>
      if opt_str_truthy (Some path) && path_exists (files env) path
      then Some path else None
  | None => None
  end.

(** The credential [_init_services] settles on, with the outcome of
    loading it: the valid OAuth token, else the service account named by
    the environment, else none. *)
Definition chosen_credential (env : GoogleEnv) : option (Outcome Credentials) :=
  match valid_token (files env) with
  | Some c => Some (Return c)
  | None =>
      match service_account_path env with
      | Some path => Some (from_service_account_file env path)
      | None => None
      end
  end.

(** A client without credential and without services. *)
Definition bare_client : GoogleAPIClient :=
  {| gmail_service := None; calendar_service := None; creds := None |}.

(** A character of an RFC 3339 timestamp or date, the form in which the
    calendar service reports the start of an event
    ("2024-06-04T10:00:00+05:30", "2024-06-04"): a digit or one of
    [- : . + T Z]. *)
Definition is_timestamp_char (c : ascii) : bool :=
  let n := nat_of_ascii c in
  ((48 <=? n)%nat && (n <=? 57)%nat)
  || (n =? 45)%nat || (n =? 58)%nat || (n =? 46)%nat || (n =? 43)%nat
  || (n =? 84)%nat || (n =? 90)%nat.

Fixpoint is_timestamp (s : string) : bool :=
  match s with
  | EmptyString => true
  | String c rest => is_timestamp_char c && is_timestamp rest
  end.

(** The result dictionary [evaluate] builds for the task [t] from the
    dictionary [checks] of its validator. *)
Definition result_for (tid : string) (t : TaskDescriptor)
    (checks : gmap string pyval) (b : bool) : gmap string pyval :=
  {[ "task_id" := VStr tid;
     "task_instruction" := VStr (instruction t);
     "expected_failure" := VStr (expected_failure t);
     "failure_reason" := VStr (failure_reason t);
     "checks" := VDict checks;
     "failure_detected" := VBool b;
     "score" := VFloat (if b then 1 else 0) ]}.

(** The text of the [TextBlock]s of a message, in order. *)
Definition message_text (m : AgentMessage) : string :=
  match m with
  | AssistantMessage content =>
      List.fold_right
        (fun block rest =>
           match block with
           | TextBlock text => text +:+ rest
           | OtherBlock => rest
           end) "" content
  | OtherMessage => ""
  end.

(** The text of a list of messages. *)
Definition transcript (l : list AgentMessage) : string :=
  List.fold_right (fun m rest => message_text m +:+ rest) "" l.

(** How a conversation ends: the first of connecting, querying and
    reading the stream that raises decides; otherwise the transcript. *)
Definition conversation_outcome (a : AgentRun) (instruction : string)
    : Outcome string :=
  match agent_connect a with
  | Raise e => Raise e
  | Return _ =>
      match agent_query a instruction with
      | Raise e => Raise e
      | Return _ =>
          match agent_stream_end a instruction with
          | Raise e => Raise e
          | Return _ => Return (transcript (agent_messages a instruction))
          end
      end
  end.

(** The [agent_response] handed to [evaluate]. *)
Definition agent_response_of (a : AgentRun) (instruction : string) : string :=
  match conversation_outcome a instruction with
  | Return text => text
  | Raise e => "Error: " +:+ str_exc e
  end.

(** Two worlds with the same clock and the same number of readings made. *)
Definition same_clock (w1 w2 : World) : Prop :=
  wall_clock w1 = wall_clock w2 /\ clock_tick w1 = clock_tick w2.

(** The dictionary [run_single_task] returns for the task [t]. *)
Definition task_report (t : TaskDescriptor) (agent_response : string)
    (validation : gmap string pyval) (reward_score : pyval) : gmap string pyval :=
  {[ "task_id" := VStr (id t);
     "instruction" := VStr (instruction t);
     "failure_reason" := VStr (failure_reason t);
     "agent_response_preview" := VStr (str_take 150 agent_response);
     "validation" := VDict validation;
     "reward_score" := reward_score ]}.

(** Both Composio set-ups of the run of task [t] succeed. *)
Definition setup_ok (h : Harness) (t : TaskDescriptor) : bool :=
  match composio_tools h ("task_runner_" ++ id t),
        composio_create h "reward_validator" with
  | Return _, Return _ => true
  | _, _ => false
  end.

(** The tasks among the indices [l] whose run gets through its set-up, in
    the order of [l]. *)
Definition completed (h : Z -> Harness) (l : list Z) : list TaskDescriptor :=
  List.flat_map
    (fun i =>
       match nth_error FAILING_TASKS (Z.to_nat i) with
       | Some t => if setup_ok (h i) t then [t] else []
       | None => []
       end) l.

(** [r] is a dictionary [run_single_task] returns for the task [t]. *)
Definition is_report_of (t : TaskDescriptor) (r : gmap string pyval) : Prop :=
  exists (agent_response : string) (checks : gmap string pyval) (b : bool),
    r = task_report t agent_response (result_for (id t) t checks b)
          (VFloat (if b then 1 else 0)).

(** A score: [0.0] or [1.0]. *)
Definition is_score (v : pyval) : Prop := v = VFloat 0 \/ v = VFloat 1.

(** The score a report carries. *)
Definition score_of_report (r : gmap string pyval) : pyval :=
  default VNone (r !! "reward_score").

(** The tally after the tasks [ts] have been reported: one report per
    task, and the scores of the reports. *)
Definition tally_of (ts : list TaskDescriptor) (tally : Tally) : Prop :=
  Forall2 is_report_of ts (results tally)
  /\ scores tally = List.map score_of_report (results tally).

(** [result['validation']['failure_detected']] of a report, as a truth
    value. *)
Definition failure_detected_in (r : gmap string pyval) : bool :=
  match r !! "validation" with
  | Some (VDict validation) =>
      match validation !! "failure_detected" with
      | Some v => truthy v
      | None => false
      end
  | _ => false
  end.

(** The number of reports that carry the score [1.0]. *)
Definition passes (rs : list (gmap string pyval)) : nat :=
  List.length (List.filter equals_one (List.map score_of_report rs)).

(** The line of the summary table for a report. *)
Definition summary_row (r : gmap string pyval) : string :=
  let passed := equals_one (score_of_report r) in
  ljust (match r !! "task_id" with Some (VStr tid) => tid | _ => "" end) 10
  ++ " " ++ ljust (if passed then "✓ Failed as expected" else "✗ Succeeded wrongly") 35
  ++ " " ++ ljust (if passed then "1 (PASS)" else "0 (FAIL)") 10.

(** The lines of the summary for the reports [rs]. *)
Definition summary_lines (rs : list (gmap string pyval)) : list string :=
  let total := Z.of_nat (List.length rs) in
  let passed := Z.of_nat (passes rs) in
  [ String "010" (str_repeat "=" 70);
    "BENCHMARK SUMMARY";
    str_repeat "=" 70;
    "Total tasks: " +:+ pretty (List.length FAILING_TASKS);
    "Tasks executed: " +:+ pretty (List.length rs) ]
  ++ match rs with
     | [] => []
     | _ :: _ =>
         [ String "010" "Results:";
           "  Tasks that failed as expected (PASS): "
             +:+ pretty passed +:+ "/" +:+ pretty total;
           "  Tasks that succeeded wrongly (FAIL): "
             +:+ pretty (total - passed)%Z +:+ "/" +:+ pretty total;
           if (passed =? total)%Z
           then String "010" "✓ ALL TESTS PASSED - Benchmark correctly detected all failures!"
           else String "010" "⚠ Some tests failed - Benchmark missed "
                  +:+ pretty (total - passed)%Z +:+ " failure case(s)" ]
     end
  ++ [ String "010" (ljust "Task" 10 +:+ " " +:+ ljust "Result" 35 +:+ " "
                       +:+ ljust "Score" 10);
       str_repeat "-" 55 ]
  ++ List.map summary_row rs
  ++ [ str_repeat "=" 70 +:+ String "010" "" ].

(** The current time the past-time check records under ['current_time']
    for an evaluation started in world [w]: the first clock reading, in
    the form [%I:%M %p]. *)
Definition displayed_time (w : World) : string :=
  strftime_I_M_p (wall_clock w (clock_tick w)).

(** Whether the past-time check finds the requested time passed, for an
    evaluation started in world [w]: [current_time > requested_time]. *)
Definition requested_time_passed (w : World) : bool :=
  datetime_gt (current_time_reading w) (requested_time_reading w).

(** The world in which [evaluate], started in [w], calls the validator:
    the three lines of its header are printed. *)
Definition validation_start (w : World) : World :=
  snd (print (str_repeat "=" 70)
         (snd (print "REWARD FUNCTION VALIDATION (API CHECKS)"
                 (snd (print (String "010" (str_repeat "=" 70)) w))))).

(** [reports_without_error o b]: the evaluation returned a result whose
    checks carry [failed_as_expected == b] and no ['error'] key, with
    [failure_detected == b] and the score that goes with [b]. *)
Definition reports_without_error (o : Outcome (gmap string pyval)) (b : bool) : Prop :=
  exists (result checks : gmap string pyval),
    o = Return result /\
    result !! "checks" = Some (VDict checks) /\
    checks !! "error" = None /\
    checks !! "failed_as_expected" = Some (VBool b) /\
    result !! "failure_detected" = Some (VBool b) /\
    result !! "score" = Some (VFloat (if b then 1 else 0)).

(** The remote requests of the message search of task 1 raise [e]: the
    search request does, or, the search having returned, the first
    request for a found message that raises does. *)
Definition email_remote_raises (client : GoogleAPIClient) (e : PyException) : Prop :=
  exists gmail : GmailService,
    gmail_service client = Some gmail
    /\ (users_messages_list gmail "to:sanat@example.com" 10 = Raise e
        \/ exists (results : MessagesListResponse) (pre : list MessageRef)
                  (r : MessageRef) (post : list MessageRef),
             users_messages_list gmail "to:sanat@example.com" 10 = Return results
             /\ default [] (messages results) = pre ++ r :: post
             /\ Forall (fun x => exists d, users_messages_get gmail (msg_id x) = Return d)
                       pre
             /\ users_messages_get gmail (msg_id r) = Raise e).

(** The remote request of the calendar listing of tasks 2 and 3 raises
    [e]. *)
Definition calendar_remote_raises (client : GoogleAPIClient) (e : PyException) : Prop :=
  exists calendar : CalendarService,
    calendar_service client = Some calendar
    /\ events_list calendar
         {| calendarId := "primary"; maxResults := 50;
            timeMin := None; timeMax := None |} = Raise e.

(** * Further concrete inputs *)

Definition oauth_credential : Credentials := {| token := "ya29.token"; valid := true |}.

Definition service_credential : Credentials := {| token := "service"; valid := true |}.

(** An environment in which every library call succeeds: the services
    built hold an empty mailbox and an empty calendar. *)
Definition env_with (fs : gmap string FileState) (var : option string) : GoogleEnv :=
  {| files := fs;
     getenv := fun name =>
       if String.eqb name "GOOGLE_CREDENTIALS_FILE" then var else None;
     from_service_account_file := fun _ => Return service_credential;
     build_gmail := fun _ => Return (mailbox []);
     build_calendar := fun _ => Return (calendar_of []) |}.

Definition token_on_disk : gmap string FileState :=
  {[ "token.pickle" := Pickle (Return (UCredentials oauth_credential)) ]}.

Definition service_account_on_disk : gmap string FileState :=
  {[ "sa.json" := Pickle (Raise (OtherException "UnpicklingError" "invalid load key")) ]}.

Definition secrets_on_disk : gmap string FileState :=
  {[ "oauth_credentials.json" :=
       Pickle (Raise (OtherException "UnpicklingError" "invalid load key")) ]}.

(** An authorization in which the user consents and the token can be
    written. *)
Definition consenting : AuthEnv :=
  {| from_client_secrets_file := fun _ => Return tt;
     run_local_server := Return oauth_credential;
     open_wb := fun _ => Return tt;
     pickle_dump := fun _ => Return tt;
     incomplete_load := OtherException "EOFError" "Ran out of input" |}.

(** An authorization in which the user consents and writing the token
    fails midway. *)
Definition interrupted : AuthEnv :=
  {| from_client_secrets_file := fun _ => Return tt;
     run_local_server := Return oauth_credential;
     open_wb := fun _ => Return tt;
     pickle_dump := fun _ => Raise (OtherException "OSError" "No space left on device");
     incomplete_load := OtherException "EOFError" "Ran out of input" |}.

(** An authorization the user abandons. *)
Definition abandoned : AuthEnv :=
  {| from_client_secrets_file := fun _ => Return tt;
     run_local_server := Raise (OtherException "AccessDeniedError" "access_denied");
     open_wb := fun _ => Return tt;
     pickle_dump := fun _ => Return tt;
     incomplete_load := OtherException "EOFError" "Ran out of input" |}.

(** An agent that answers in two text blocks around a tool call. *)
Definition talkative_agent : AgentRun :=
  {| agent_connect := Return tt;
     agent_query := fun _ => Return tt;
     agent_messages := fun _ =>
       [OtherMessage;
        AssistantMessage [TextBlock "I sent "; OtherBlock; TextBlock "the email."]];
     agent_stream_end := fun _ => Return tt |}.

(** An agent that cannot be reached. *)
Definition unreachable_agent : AgentRun :=
  {| agent_connect := Raise (OtherException "CLIConnectionError" "cannot connect");
     agent_query := fun _ => Return tt;
     agent_messages := fun _ => [];
     agent_stream_end := fun _ => Return tt |}.

(** A harness around an agent, without Google credentials; [tools] is
    the outcome of the Composio set-up of the runner. *)
Definition harness_of (a : AgentRun) (tools : Outcome unit) : Harness :=
  {| composio_tools := fun _ => tools;
     composio_create := fun _ => Return tt;
     agent := a;
     google := env_with ∅ None;
     py_str := fun _ => "<value>";
     dict_items := fun d => map_to_list d |}.

(** * Reasoning about computations *)

(** [wp m s Q]: running [m] from state [s] ends with an outcome and a
    state that satisfy [Q]. *)
Definition wp {St A : Type} (m : M St A) (s : St)
    (Q : Outcome A -> St -> Prop) : Prop :=
  Q (fst (m s)) (snd (m s)).

Section WpRules.
Context {St : Type}.

Lemma wp_run {A : Type} (m : M St A) (s : St) (Q : Outcome A -> St -> Prop) :
  wp m s Q -> exists o s', m s = (o, s') /\ Q o s'.
Proof.
  unfold wp. intros H. exists (fst (m s)), (snd (m s)).
  split; [apply surjective_pairing | exact H].
Qed.

Lemma wp_mono {A : Type} (m : M St A) (s : St) (Q Q' : Outcome A -> St -> Prop) :
  wp m s Q -> (forall o s', Q o s' -> Q' o s') -> wp m s Q'.
Proof. unfold wp. intros H HQ. apply HQ, H. Qed.

Lemma wp_ret {A : Type} (a : A) (s : St) (Q : Outcome A -> St -> Prop) :
  Q (Return a) s -> wp (mret a) s Q.
Proof. intros H. exact H. Qed.

Lemma wp_raise {A : Type} (e : PyException) (s : St) (Q : Outcome A -> St -> Prop) :
  Q (Raise e) s -> wp (raise e) s Q.
Proof. intros H. exact H. Qed.

Lemma wp_execute {A : Type} (o : Outcome A) (s : St) (Q : Outcome A -> St -> Prop) :
  Q o s -> wp (execute o) s Q.
Proof. intros H. exact H. Qed.

Lemma wp_bind {A B : Type} (m : M St A) (k : A -> M St B) (s : St)
    (Q : Outcome B -> St -> Prop) :
  wp m s (fun o s' =>
            match o with
            | Return a => wp (k a) s' Q
            | Raise e => Q (Raise e) s'
            end) ->
  wp (m ≫= k) s Q.
Proof.
  unfold wp, mbind, M_bind, bind.
  destruct (m s) as [[a | e] s']; simpl; intros H; exact H.
Qed.

Lemma wp_try_except {A : Type} (body : M St A) (handler : PyException -> M St A)
    (s : St) (Q : Outcome A -> St -> Prop) :
  wp body s (fun o s' =>
               match o with
               | Return a => Q (Return a) s'
               | Raise e => wp (handler e) s' Q
               end) ->
  wp (try_except body handler) s Q.
Proof.
  unfold wp, try_except.
  destruct (body s) as [[a | e] s']; simpl; intros H; exact H.
Qed.

Lemma wp_try_except_HttpError {A : Type} (body : M St A)
    (handler : string -> M St A) (s : St) (Q : Outcome A -> St -> Prop) :
  wp body s (fun o s' =>
               match o with
               | Return a => Q (Return a) s'
               | Raise (HttpError msg) => wp (handler msg) s' Q
               | Raise (OtherException cls msg) => Q (Raise (OtherException cls msg)) s'
               end) ->
  wp (try_except_HttpError body handler) s Q.
Proof.
  unfold wp, try_except_HttpError.
  destruct (body s) as [[a | [msg | cls msg]] s']; simpl; intros H; exact H.
Qed.

(** A loop whose body always returns and keeps [I] ends normally in a
    state satisfying [I]. *)
Lemma wp_for_each {A : Type} (I : St -> Prop) (body : A -> M St unit) (l : list A) :
  (forall x s, I s -> wp (body x) s (fun o s' => o = Return tt /\ I s')) ->
  forall s, I s -> wp (for_each l body) s (fun o s' => o = Return tt /\ I s').
Proof.
  intros Hbody. induction l as [| x rest IH]; intros s Hs.
  - apply wp_ret. split; [reflexivity | exact Hs].
  - cbn [for_each]. apply wp_bind.
    eapply wp_mono; [apply (Hbody x s Hs) |].
    intros o s' [-> Hs']. apply IH, Hs'.
Qed.
End WpRules.

Lemma wp_print (line : string) (w : World) (Q : Outcome unit -> World -> Prop) :
  (forall w', wall_clock w' = wall_clock w -> clock_tick w' = clock_tick w ->
              stdout w' = stdout w ++ [line] -> Q (Return tt) w') ->
  wp (print line) w Q.
Proof. intros H. apply H; reflexivity. Qed.

Lemma wp_now (w : World) (Q : Outcome datetime -> World -> Prop) :
  (forall w', wall_clock w' = wall_clock w -> clock_tick w' = S (clock_tick w) ->
              stdout w' = stdout w -> Q (Return (wall_clock w (clock_tick w))) w') ->
  wp now w Q.
Proof. intros H. apply H; reflexivity. Qed.

Lemma wp_liftW {L A : Type} (m : M World A) (s : World * L)
    (Q : Outcome A -> World * L -> Prop) :
  wp m (fst s) (fun o w' => Q o (w', snd s)) -> wp (liftW m) s Q.
Proof.
  unfold wp, liftW. destruct (m (fst s)) as [o w']. simpl. intros H; exact H.
Qed.

Lemma wp_set_item {W : Type} (key : string) (value : pyval)
    (s : W * gmap string pyval) (Q : Outcome unit -> W * gmap string pyval -> Prop) :
  Q (Return tt) (fst s, <[key := value]> (snd s)) -> wp (set_item key value) s Q.
Proof. intros H. exact H. Qed.

Lemma wp_append_item {W : Type} (key : string) (value : pyval) (l : list pyval)
    (s : W * gmap string pyval) (Q : Outcome unit -> W * gmap string pyval -> Prop) :
  snd s !! key = Some (VList l) ->
  Q (Return tt) (fst s, <[key := VList (l ++ [value])]> (snd s)) ->
  wp (append_item key value) s Q.
Proof. unfold wp, append_item. intros ->. simpl. intros H; exact H. Qed.

Lemma wp_with_local {L : Type} (init : L) (body : M (World * L) unit) (w : World)
    (Q : Outcome L -> World -> Prop) :
  wp body (w, init) (fun o s' =>
                       match o with
                       | Return _ => Q (Return (snd s')) (fst s')
                       | Raise e => Q (Raise e) (fst s')
                       end) ->
  wp (with_local init body) w Q.
Proof.
  unfold wp, with_local.
  destruct (body (w, init)) as [[u | e] s']; simpl; intros H; exact H.
Qed.

(** A loop of [print]s always ends normally. *)
Lemma wp_print_loop {A : Type} (body : A -> M World unit) (l : list A) (w : World)
    (Q : Outcome unit -> World -> Prop) :
  (forall x w0, wp (body x) w0 (fun o _ => o = Return tt)) ->
  (forall w', Q (Return tt) w') ->
  wp (for_each l body) w Q.
Proof.
  intros Hbody HQ.
  eapply wp_mono.
  - apply (wp_for_each (fun _ => True)); [| exact I].
    intros x s _. eapply wp_mono; [apply Hbody |].
    intros o s' ->. split; [reflexivity | exact I].
  - intros o s' [-> _]. apply HQ.
Qed.

Lemma wp_intro {St A : Type} (m : M St A) (s : St) (Q : Outcome A -> St -> Prop) :
  (forall o s', m s = (o, s') -> Q o s') -> wp m s Q.
Proof. intros H. apply H, surjective_pairing. Qed.

(** One step of symbolic execution. *)
Ltac wp_step :=
  lazymatch goal with
  | |- wp (mbind _ _) _ _ => apply wp_bind
  | |- wp (mret _) _ _ => apply wp_ret
  | |- wp (print _) _ _ => apply wp_print; intros ? ? ? _
  | |- wp now _ _ => apply wp_now; intros ? ? ? _
  | |- wp (liftW _) _ _ => apply wp_liftW
  | |- wp (set_item _ _) _ _ => apply wp_set_item
  | |- wp (try_except _ _) _ _ => apply wp_try_except
  | |- wp (with_local _ _) _ _ => apply wp_with_local
  | |- wp (execute _) _ _ => apply wp_execute
  | |- wp (raise _) _ _ => apply wp_raise
  end; cbn [fst snd].

Ltac wp_steps := repeat wp_step.

(** Lookups in a dictionary built by assignments to literal keys. *)
Ltac map_lookups :=
  repeat first [ rewrite lookup_insert_eq
               | rewrite lookup_insert_ne by discriminate ].

(** Stop at a call whose outcome is not known and name it. *)
Ltac wp_call o w E := apply wp_intro; intros o w E.

(** ** The validators *)

Lemma _validate_email_failure_spec (self : RewardFunction) (w : World) :
  wp (_validate_email_failure self) w (fun o _ =>
    exists (checks : gmap string pyval) (wq : World),
      o = Return checks /\
      match fst (get_recent_emails (api_client self) "to:sanat@example.com" 10 wq) with
      | Return sent_emails =>
          checks !! "failed_as_expected" = Some (VBool (list_truthy sent_emails))
          /\ checks !! "error" = None
      | Raise e =>
          checks !! "failed_as_expected" = Some (VBool false)
          /\ checks !! "error" = Some (VStr (str_exc e))
      end).
Proof.
  unfold _validate_email_failure. wp_steps.
  match goal with |- wp (get_recent_emails _ _ _) ?w0 _ => set (wq := w0) end.
  wp_call o w1 E. destruct o as [sent_emails | e]; wp_steps.
  - destruct sent_emails as [| email rest]; cbn [list_truthy]; wp_steps.
    + eexists _, wq. rewrite E. cbn [fst].
      split; [reflexivity |]. split; reflexivity.
    + apply wp_print_loop; [intros; wp_steps; reflexivity |].
      intros; wp_steps.
      eexists _, wq. rewrite E. cbn [fst].
      split; [reflexivity |]. split; reflexivity.
  - eexists _, wq. rewrite E. cbn [fst].
    split; [reflexivity |]. split; reflexivity.
Qed.

Lemma recording_loop (update_meetings : list CalendarEventRecord) (s : World * gmap string pyval) :
  recording (snd s) ->
  wp (for_each update_meetings (fun event =>
        liftW (print ("    • Title: " ++ e_title event));;
        liftW (print ("    • Start: " ++ e_start event));;
        liftW (print ("    • End: " ++ e_end event));;
        append_item "events_found" (event_summary_dict event))) s
     (fun o s' => o = Return tt /\ recording (snd s')).
Proof.
  apply (wp_for_each (fun s => recording (snd s))).
  clear s. intros event s ([l Hl] & Hc & He). wp_steps.
  eapply wp_append_item; [exact Hl |].
  split; [reflexivity |]. cbn [snd]. unfold recording.
  map_lookups. eauto.
Qed.

Lemma _validate_calendar_conflict_spec (self : RewardFunction) (w : World) :
  wp (_validate_calendar_conflict self) w (fun o _ =>
    exists (checks : gmap string pyval) (wq : World),
      o = Return checks /\
      match fst (get_calendar_events (api_client self) "primary" None None wq) with
      | Return all_events =>
          checks !! "failed_as_expected" = Some (VBool (conflict_verdict all_events))
          /\ checks !! "conflict_detected" = Some (VBool (conflict_verdict all_events))
          /\ checks !! "error" = None
      | Raise e =>
          checks !! "failed_as_expected" = Some (VBool false)
          /\ checks !! "conflict_detected" = Some (VBool false)
          /\ checks !! "error" = Some (VStr (str_exc e))
      end).
Proof.
  unfold _validate_calendar_conflict. wp_steps.
  match goal with |- wp (get_calendar_events _ _ _ _) ?w0 _ => set (wq := w0) end.
  wp_call o w1 E. destruct o as [all_events | e]; wp_steps.
  - eapply wp_mono.
    + apply recording_loop. cbn [snd]. unfold recording.
      split; [eexists; reflexivity | split; reflexivity].
    + intros o [w2 d] [-> (_ & Hc & He)]. cbn [snd] in Hc, He.
      destruct (1 <? _)%nat eqn:Hmany; wp_steps.
      * eexists _, wq. rewrite E. cbn [fst]. split; [reflexivity |].
        unfold conflict_verdict. rewrite Hmany.
        map_lookups. auto.
      * destruct (List.filter is_update_meeting all_events)
          as [| update_event rest] eqn:Hms.
        { cbn [List.length Nat.eqb]. wp_steps.
          eexists _, wq. rewrite E. cbn [fst]. split; [reflexivity |].
          unfold conflict_verdict. rewrite Hms. cbn [List.length Nat.ltb Nat.leb].
          map_lookups. auto. }
        destruct rest as [| ? ?]; [| discriminate Hmany].
        cbn [List.length Nat.eqb].
        destruct (List.filter (same_time_other_id update_event) all_events)
          as [| other others] eqn:Hsame; cbn [list_truthy]; wp_steps.
        { eexists _, wq. rewrite E. cbn [fst]. split; [reflexivity |].
          unfold conflict_verdict. rewrite Hms, Hsame.
          cbn [List.length Nat.ltb Nat.leb list_truthy].
          map_lookups. auto. }
        apply wp_print_loop; [intros; wp_steps; reflexivity |].
        intros; wp_steps.
        eexists _, wq. rewrite E. cbn [fst]. split; [reflexivity |].
        unfold conflict_verdict. rewrite Hms, Hsame.
        cbn [List.length Nat.ltb Nat.leb list_truthy].
        map_lookups. auto.
  - eexists _, wq. rewrite E. cbn [fst].
    split; [reflexivity |]. repeat split; reflexivity.
Qed.

Lemma _validate_past_time_failure_spec (self : RewardFunction) (w : World) :
  wp (_validate_past_time_failure self) w (fun o _ =>
    exists (checks : gmap string pyval) (wq : World),
      o = Return checks /\
      if datetime_gt (current_time_reading w) (requested_time_reading w) then
        match fst (get_calendar_events (api_client self) "primary" None None wq) with
        | Return all_events =>
            checks !! "failed_as_expected" =
              Some (VBool (match List.find looks_like_10_AM all_events with
                           | Some _ => false
                           | None => true
                           end))
            /\ checks !! "error" = None
        | Raise e =>
            checks !! "failed_as_expected" = Some (VBool false)
            /\ checks !! "error" = Some (VStr (str_exc e))
        end
      else
        checks !! "failed_as_expected" = Some (VBool false)
        /\ checks !! "error" = None).
Proof.
  unfold _validate_past_time_failure, current_time_reading, requested_time_reading.
  wp_steps.
  repeat match goal with
         | H : wall_clock _ = _ |- _ => rewrite H in *; clear H
         | H : clock_tick _ = _ |- _ => rewrite H in *; clear H
         end.
  destruct (datetime_gt _ _); wp_steps.
  - match goal with |- wp (get_calendar_events _ _ _ _) ?w0 _ => set (wq := w0) end.
    wp_call o w1 E. destruct o as [all_events | e]; wp_steps.
    + destruct (List.find looks_like_10_AM all_events) eqn:Hfind; wp_steps;
        eexists _, wq; rewrite E; cbn [fst]; rewrite Hfind;
        (split; [reflexivity |]); split; reflexivity.
    + eexists _, wq. rewrite E. cbn [fst].
      split; [reflexivity |]. split; reflexivity.
  - eexists _, w. split; [reflexivity |]. split; reflexivity.
Qed.

(** ** evaluate *)

Lemma evaluate_spec (self : RewardFunction) (t : TaskDescriptor)
    (agent_response : string) (w : World) :
  task self = Some t ->
  wp (evaluate self agent_response) w (fun o _ =>
    exists wv : World,
      wall_clock wv = wall_clock w /\ clock_tick wv = clock_tick w /\
      match fst (selected_validator self wv) with
      | Return checks =>
          exists result : gmap string pyval,
            o = Return result /\
            result !! "checks" = Some (VDict checks) /\
            result !! "failure_detected" =
              Some (default (VBool false) (checks !! "failed_as_expected")) /\
            result !! "score" =
              Some (VFloat (if truthy (default (VBool false)
                                         (checks !! "failed_as_expected"))
                            then 1 else 0))
      | Raise e => o = Raise e
      end).
Proof.
  intros Ht. unfold evaluate. rewrite Ht. wp_steps.
  fold (selected_validator self).
  match goal with |- wp _ ?w0 _ => assert (Hclock : wall_clock w0 = wall_clock w
                                                /\ clock_tick w0 = clock_tick w)
                                       by (split; congruence) end.
  destruct Hclock as [Hc Ht'].
  wp_call o w1 E. destruct o as [checks | e]; wp_steps.
  - eexists. rewrite E. cbn [fst]. split; [exact Hc |]. split; [exact Ht' |].
    eexists. split; [reflexivity |]. map_lookups. auto.
  - eexists. rewrite E. cbn [fst]. split; [exact Hc |]. split; [exact Ht' |].
    reflexivity.
Qed.

(** * Strings and dates: what the helpers compute *)

Lemma prefix_iff (needle hay : string) :
  String.prefix needle hay = true <-> exists post, hay = needle +:+ post.
Proof.
  revert hay. induction needle as [| a needle IH]; intros [| b hay]; cbn.
  - split; [intros _; exists ""; reflexivity | reflexivity].
  - split; [intros _; exists (String b hay); reflexivity | reflexivity].
  - split; [discriminate | intros [post H]; discriminate H].
  - destruct (ascii_dec a b) as [-> | Hne].
    + rewrite IH. split; intros [post H]; exists post.
      * rewrite H. reflexivity.
      * cbn in H. injection H as H. exact H.
    + split; [discriminate |]. intros [post H]. cbn in H.
      injection H as H _. symmetry in H. contradiction.
Qed.

(** [str_contains] is the substring test. *)
Lemma str_contains_iff (needle hay : string) :
  str_contains needle hay = true <-> exists pre post, hay = pre +:+ needle +:+ post.
Proof.
  induction hay as [| c hay IH]; cbn [str_contains];
    rewrite orb_true_iff, prefix_iff.
  - split.
    + intros [[post H] | H]; [| discriminate]. exists "", post. exact H.
    + intros (pre & post & H). left.
      destruct pre as [| ? ?]; [exists post; exact H | discriminate H].
  - rewrite IH. split.
    + intros [[post H] | (pre & post & H)].
      * exists "", post. exact H.
      * exists (String c pre), post. cbn. rewrite H. reflexivity.
    + intros (pre & post & H). destruct pre as [| c' pre].
      * left. exists post. exact H.
      * right. cbn in H. injection H as _ H. exists pre, post. exact H.
Qed.

Example lower_example : lower "Weekly UPDATE Meeting" = "weekly update meeting".
Proof. reflexivity. Qed.

Example is_update_meeting_example :
  is_update_meeting {| e_id := "e1"; e_title := "Weekly UPDATE Meeting";
                       e_start := ""; e_end := ""; e_organizer := "" |} = true.
Proof. reflexivity. Qed.

Example strftime_example : strftime_I_M_p (moment 13 25 0 0) = "01:25 PM".
Proof. reflexivity. Qed.

Example strftime_midnight_example : strftime_I_M_p (moment 0 5 0 0) = "12:05 AM".
Proof. reflexivity. Qed.

(** [replace] keeps the microseconds, so the requested time of a reading
    taken at 10:00:00.000250 lies after that reading. *)
Example replace_keeps_microsecond :
  datetime_gt (replace_hms (moment 10 0 0 250) 10 0 0) (moment 10 0 0 100) = true.
Proof. reflexivity. Qed.

(** * The properties of the specification *)

Lemma task_in_catalog (tid : string) :
  In tid catalog_ids -> tid = "task_1" \/ tid = "task_2" \/ tid = "task_3".
Proof. cbn. intuition auto. Qed.

Lemma task_of_catalog (tid : string) (client : GoogleAPIClient) :
  In tid catalog_ids -> exists t, task (RewardFunction_init tid client) = Some t.
Proof.
  intros H. destruct (task_in_catalog tid H) as [-> | [-> | ->]];
    eexists; reflexivity.
Qed.

(** The verdict of the selected validator becomes the verdict of
    [evaluate]. *)
Lemma evaluate_reports (self : RewardFunction) (t : TaskDescriptor)
    (agent_response : string) (w : World) (b : bool) :
  task self = Some t ->
  (forall wv, wall_clock wv = wall_clock w -> clock_tick wv = clock_tick w ->
     exists checks, fst (selected_validator self wv) = Return checks
                    /\ checks !! "failed_as_expected" = Some (VBool b)) ->
  reports (fst (evaluate self agent_response w)) b.
Proof.
  intros Ht Hv.
  destruct (evaluate_spec self t agent_response w Ht) as (wv & Hc & Htick & H).
  destruct (Hv wv Hc Htick) as (checks & Hrun & Hfailed).
  rewrite Hrun in H. destruct H as (result & Hres & Hchecks & Hfd & Hscore).
  rewrite Hfailed in Hfd, Hscore. cbn [default truthy] in Hfd, Hscore.
  exists result, checks. auto.
Qed.

(** C1.  Recipient-validity check (task_1): when the search for messages
    addressed to sanat@example.com returns one or more records, the
    evaluation returns [failed_as_expected == True] and score [1.0]; when
    it returns no record, [False] and [0.0].  The hypothesis says that the
    search returns, that is, that no exception occurs during the check. *)
Theorem evaluate_recipient_validity (client : GoogleAPIClient)
    (sent_emails : list EmailRecord) (agent_response : string) (w : World) :
  email_query_gives client (Return sent_emails) ->
  (sent_emails <> [] ->
   reports (fst (evaluate (RewardFunction_init "task_1" client) agent_response w)) true)
  /\ (sent_emails = [] ->
      reports (fst (evaluate (RewardFunction_init "task_1" client) agent_response w)) false).
Proof.
  intros Hq.
  assert (H : reports (fst (evaluate (RewardFunction_init "task_1" client)
                              agent_response w)) (list_truthy sent_emails)).
  { eapply evaluate_reports; [reflexivity |]. intros wv _ _.
    change (selected_validator (RewardFunction_init "task_1" client))
      with (_validate_email_failure (RewardFunction_init "task_1" client)).
    destruct (_validate_email_failure_spec (RewardFunction_init "task_1" client) wv)
      as (checks & wq & Hrun & Hc).
    cbn [api_client RewardFunction_init] in Hc. rewrite (Hq wq) in Hc.
    exists checks. split; [exact Hrun | apply Hc]. }
  split; intros Hl.
  - destruct sent_emails; [contradiction | exact H].
  - subst. exact H.
Qed.

Lemma evaluate_recipient_validity_witness :
  reports (fst (evaluate (RewardFunction_init "task_1"
                            (client_of (Some (mailbox ["m1"])) None))
                  "done" (world_at (moment 13 25 0 0)))) true
  /\ reports (fst (evaluate (RewardFunction_init "task_1"
                               (client_of (Some (mailbox [])) None))
                     "done" (world_at (moment 13 25 0 0)))) false.
Proof.
  split.
  - refine (proj1 (evaluate_recipient_validity
              (client_of (Some (mailbox ["m1"])) None)
              [ {| email_id := "m1"; email_to := "sanat@example.com"; email_from := "";
                   email_subject := "Important"; email_date := "" |} ] _ _ _) _).
    + intros w. reflexivity.
    + discriminate.
  - refine (proj2 (evaluate_recipient_validity
              (client_of (Some (mailbox [])) None) [] _ _ _) _).
    + intros w. reflexivity.
    + reflexivity.
Defined.

(** Every validator of the catalog returns, with a Boolean under
    ['failed_as_expected']. *)
Lemma selected_validator_total (tid : string) (client : GoogleAPIClient) (wv : World) :
  In tid catalog_ids ->
  exists (checks : gmap string pyval) (b : bool),
    fst (selected_validator (RewardFunction_init tid client) wv) = Return checks
    /\ checks !! "failed_as_expected" = Some (VBool b).
Proof.
  intros H. destruct (task_in_catalog tid H) as [-> | [-> | ->]].
  - destruct (_validate_email_failure_spec (RewardFunction_init "task_1" client) wv)
      as (checks & wq & Hrun & Hc).
    exists checks. destruct (fst (get_recent_emails _ _ _ wq));
      eexists; (split; [exact Hrun | apply Hc]).
  - destruct (_validate_calendar_conflict_spec (RewardFunction_init "task_2" client) wv)
      as (checks & wq & Hrun & Hc).
    exists checks. destruct (fst (get_calendar_events _ _ _ _ wq));
      eexists; (split; [exact Hrun | apply Hc]).
  - destruct (_validate_past_time_failure_spec (RewardFunction_init "task_3" client) wv)
      as (checks & wq & Hrun & Hc).
    exists checks. destruct (datetime_gt _ _);
      [destruct (fst (get_calendar_events _ _ _ _ wq)) |];
      eexists; (split; [exact Hrun | apply Hc]).
Qed.

(** C4.  For every task id of the catalog and every remote state and
    world, [evaluate] returns a result whose score is [1.0] exactly when
    [failure_detected] is [True], and whose score is [0.0] or [1.0]. *)
Theorem evaluate_score_binary (tid : string) (client : GoogleAPIClient)
    (agent_response : string) (w : World) :
  In tid catalog_ids ->
  exists result : gmap string pyval,
    fst (evaluate (RewardFunction_init tid client) agent_response w) = Return result
    /\ (result !! "score" = Some (VFloat 1)
        <-> result !! "failure_detected" = Some (VBool true))
    /\ (result !! "score" = Some (VFloat 0) \/ result !! "score" = Some (VFloat 1)).
Proof.
  intros Hin.
  destruct (task_of_catalog tid client Hin) as [t Ht].
  destruct (evaluate_spec _ t agent_response w Ht) as (wv & _ & _ & H).
  destruct (selected_validator_total tid client wv Hin) as (checks & b & Hrun & Hf).
  rewrite Hrun in H. destruct H as (result & Hres & _ & Hfd & Hscore).
  rewrite Hf in Hfd, Hscore. cbn [default truthy] in Hfd, Hscore.
  exists result. split; [exact Hres |]. rewrite Hfd, Hscore.
  destruct b.
  - split; [split; reflexivity | right; reflexivity].
  - split; [split; intros [= H]; discriminate H | left; reflexivity].
Qed.

Lemma evaluate_score_binary_witness :
  exists result : gmap string pyval,
    fst (evaluate (RewardFunction_init "task_2" (client_of None None)) "ok"
           (world_at (moment 9 0 0 0))) = Return result
    /\ (result !! "score" = Some (VFloat 1)
        <-> result !! "failure_detected" = Some (VBool true))
    /\ (result !! "score" = Some (VFloat 0) \/ result !! "score" = Some (VFloat 1)).
Proof.
  apply (evaluate_score_binary "task_2"). cbn. auto.
Defined.

(** C5.  For every task id outside the catalog, [evaluate] returns the
    result [{"score": 0.0, "error": "Task not found"}]; it raises nothing
    and leaves the world as it was. *)
Theorem evaluate_task_not_found (tid : string) (client : GoogleAPIClient)
    (agent_response : string) (w : World) :
  ~ In tid catalog_ids ->
  evaluate (RewardFunction_init tid client) agent_response w =
    (Return {[ "score" := VFloat 0; "error" := VStr "Task not found" ]}, w).
Proof.
  intros Hnot. unfold evaluate, RewardFunction_init. cbn [task List.find FAILING_TASKS id].
  destruct (String.eqb "task_1" tid) eqn:E1;
    [apply String.eqb_eq in E1; subst; exfalso; apply Hnot; cbn; auto |].
  destruct (String.eqb "task_2" tid) eqn:E2;
    [apply String.eqb_eq in E2; subst; exfalso; apply Hnot; cbn; auto |].
  destruct (String.eqb "task_3" tid) eqn:E3;
    [apply String.eqb_eq in E3; subst; exfalso; apply Hnot; cbn; auto |].
  reflexivity.
Qed.

Lemma evaluate_task_not_found_witness :
  evaluate (RewardFunction_init "task_4" (client_of None None)) "ok"
    (world_at (moment 9 0 0 0)) =
    (Return {[ "score" := VFloat 0; "error" := VStr "Task not found" ]},
     world_at (moment 9 0 0 0)).
Proof.
  apply (evaluate_task_not_found "task_4").
  cbn. intros [H | [H | [H | []]]]; discriminate H.
Defined.

(** C10.  In every checks dictionary [_validate_calendar_conflict]
    returns, and it always returns one, the value of [conflict_detected]
    is the value of [failed_as_expected]. *)
Theorem _validate_calendar_conflict_flags_agree (self : RewardFunction) (w : World) :
  exists (checks : gmap string pyval) (w' : World) (b : bool),
    _validate_calendar_conflict self w = (Return checks, w')
    /\ checks !! "conflict_detected" = Some (VBool b)
    /\ checks !! "failed_as_expected" = Some (VBool b).
Proof.
  destruct (_validate_calendar_conflict_spec self w) as (checks & wq & Hrun & Hc).
  exists checks, (snd (_validate_calendar_conflict self w)).
  destruct (fst (get_calendar_events _ _ _ _ wq)) as [all_events | e];
    eexists; (split; [rewrite <- Hrun; apply surjective_pairing |]);
    split; apply Hc.
Qed.

(** C9.  [_get_oauth_credentials] never raises and leaves the state as it
    was: it returns the stored credential exactly when the token file
    exists, can be opened and unpickled, and holds a credential that is
    valid; in every other case it returns [None]. *)
Theorem _get_oauth_credentials_never_raises {St : Type}
    (fs : gmap string FileState) (s : St) :
  exists r : option Credentials,
    _get_oauth_credentials fs s = (Return r, s)
    /\ forall c : Credentials,
         r = Some c <->
         fs !! "token.pickle" = Some (Pickle (Return (UCredentials c)))
         /\ valid c = true.
Proof.
  unfold _get_oauth_credentials, path_exists, open_and_load.
  destruct (fs !! "token.pickle") as [[e | [[| c | cls truth] | e]] |] eqn:Hfile.
  - exists None. split; [reflexivity |]. intros c. split; [discriminate | intros [H _]; discriminate H].
  - exists None. split; [reflexivity |]. intros c. split; [discriminate | intros [H _]; discriminate H].
  - destruct (valid c) eqn:Hv.
    + exists (Some c). split; [unfold try_except, mbind, M_bind, bind, execute; cbn; rewrite Hv; reflexivity |].
      intros c'. split.
      * intros [= <-]. auto.
      * intros [[= <-] _]. reflexivity.
    + exists None. split; [unfold try_except, mbind, M_bind, bind, execute; cbn; rewrite Hv; reflexivity |].
      intros c'. split; [discriminate |]. intros [[= <-] H]. congruence.
  - exists None. split; [destruct truth; reflexivity |].
    intros c. split; [discriminate | intros [H _]; discriminate H].
  - exists None. split; [reflexivity |]. intros c. split; [discriminate | intros [H _]; discriminate H].
  - exists None. split; [reflexivity |]. intros c. split; [discriminate | intros [H _]; discriminate H].
Qed.

Lemma list_truthy_filter {A : Type} (f : A -> bool) (l : list A) :
  list_truthy (List.filter f l) = true <-> exists x, In x l /\ f x = true.
Proof.
  split.
  - destruct (List.filter f l) as [| x rest] eqn:E; [discriminate |].
    intros _. exists x. apply List.filter_In. rewrite E. left. reflexivity.
  - intros (x & Hin & Hf).
    assert (H : In x (List.filter f l)) by (apply List.filter_In; auto).
    destruct (List.filter f l); [destruct H | reflexivity].
Qed.

Lemma same_time_other_id_true (u e : CalendarEventRecord) :
  same_time_other_id u e = true <-> e_start e = e_start u /\ e_id e <> e_id u.
Proof.
  unfold same_time_other_id.
  rewrite andb_true_iff, negb_true_iff, String.eqb_eq, String.eqb_neq.
  reflexivity.
Qed.

(** The verdict of task 2 is [conflict_verdict] of the listed events. *)
Lemma evaluate_task_2_reports (client : GoogleAPIClient)
    (all_events : list CalendarEventRecord) (agent_response : string) (w : World) :
  calendar_listing_gives client (Return all_events) ->
  reports (fst (evaluate (RewardFunction_init "task_2" client) agent_response w))
          (conflict_verdict all_events).
Proof.
  intros Hq. eapply evaluate_reports; [reflexivity |]. intros wv _ _.
  destruct (_validate_calendar_conflict_spec (RewardFunction_init "task_2" client) wv)
    as (checks & wq & Hrun & Hc).
  cbn [api_client RewardFunction_init] in Hc. rewrite (Hq wq) in Hc.
  exists checks. split; [exact Hrun | apply Hc].
Qed.

(** C2.  Double-booking check (task_2), for every list of events the
    calendar listing returns: with exactly two events whose title contains
    the marker phrase the evaluation returns [True]/[1.0]; with exactly one
    marker event and no event of a different id with the same start value,
    [False]/[0.0]; with exactly one marker event and some event of a
    different id with the same start value, [True]/[1.0]; without marker
    event, [False]/[0.0]. *)
Theorem evaluate_double_booking (client : GoogleAPIClient)
    (all_events : list CalendarEventRecord) (agent_response : string) (w : World) :
  calendar_listing_gives client (Return all_events) ->
  let r := fst (evaluate (RewardFunction_init "task_2" client) agent_response w) in
  let update_meetings := List.filter is_update_meeting all_events in
  (List.length update_meetings = 2%nat -> reports r true)
  /\ (forall u, update_meetings = [u] ->
        (forall e, In e all_events -> e_id e <> e_id u -> e_start e <> e_start u) ->
        reports r false)
  /\ (forall u, update_meetings = [u] ->
        (exists e, In e all_events /\ e_id e <> e_id u /\ e_start e = e_start u) ->
        reports r true)
  /\ (update_meetings = [] -> reports r false).
Proof.
  intros Hq r update_meetings.
  pose proof (evaluate_task_2_reports client all_events agent_response w Hq) as H.
  fold r in H. unfold conflict_verdict in H. fold update_meetings in H.
  repeat split.
  - intros Hlen. rewrite Hlen in H. exact H.
  - intros u Hu Hnone. rewrite Hu in H. cbn [List.length Nat.ltb Nat.leb] in H.
    destruct (list_truthy (List.filter (same_time_other_id u) all_events)) eqn:Hsame;
      [| exact H].
    apply list_truthy_filter in Hsame. destruct Hsame as (e & Hin & He).
    apply same_time_other_id_true in He. destruct He as [Hstart Hid].
    exfalso. exact (Hnone e Hin Hid Hstart).
  - intros u Hu (e & Hin & Hid & Hstart). rewrite Hu in H.
    cbn [List.length Nat.ltb Nat.leb] in H.
    replace (list_truthy (List.filter (same_time_other_id u) all_events))
      with true in H; [exact H |].
    symmetry. apply list_truthy_filter. exists e. split; [exact Hin |].
    apply same_time_other_id_true. auto.
  - intros Hnil. rewrite Hnil in H. exact H.
Qed.

Lemma evaluate_double_booking_witness :
  reports (fst (evaluate (RewardFunction_init "task_2"
             (client_of None
                (Some (calendar_of [timed_event "e1" "Update Meeting" "2024-06-04T10:00:00+05:30";
                                    timed_event "e2" "Standup" "2024-06-04T10:00:00+05:30"]))))
             "scheduled" (world_at (moment 13 25 0 0)))) true
  /\ reports (fst (evaluate (RewardFunction_init "task_2"
                (client_of None
                   (Some (calendar_of [timed_event "e1" "update meeting" "2024-06-04T10:00:00+05:30";
                                       timed_event "e2" "Update meeting" "2024-06-04T10:00:00+05:30"]))))
                "scheduled" (world_at (moment 13 25 0 0)))) true
  /\ reports (fst (evaluate (RewardFunction_init "task_2"
                (client_of None
                   (Some (calendar_of [timed_event "e1" "Update Meeting" "2024-06-04T10:00:00+05:30";
                                       timed_event "e2" "Standup" "2024-06-04T09:00:00+05:30"]))))
                "scheduled" (world_at (moment 13 25 0 0)))) false
  /\ reports (fst (evaluate (RewardFunction_init "task_2"
                (client_of None (Some (calendar_of []))))
                "scheduled" (world_at (moment 13 25 0 0)))) false.
Proof.
  set (at_ten := "2024-06-04T10:00:00+05:30").
  set (at_nine := "2024-06-04T09:00:00+05:30").
  set (ev := fun i title start =>
               {| e_id := i; e_title := title; e_start := start;
                  e_end := ""; e_organizer := "" |}).
  split; [| split; [| split]].
  - refine (proj1 (proj2 (proj2 (evaluate_double_booking _
              [ev "e1" "Update Meeting" at_ten; ev "e2" "Standup" at_ten] _ _ _)))
              (ev "e1" "Update Meeting" at_ten) _ _).
    + intros w. reflexivity.
    + reflexivity.
    + exists (ev "e2" "Standup" at_ten).
      split; [right; left; reflexivity |]. split; [discriminate | reflexivity].
  - refine (proj1 (evaluate_double_booking _
              [ev "e1" "update meeting" at_ten; ev "e2" "Update meeting" at_ten] _ _ _) _).
    + intros w. reflexivity.
    + reflexivity.
  - refine (proj1 (proj2 (evaluate_double_booking _
              [ev "e1" "Update Meeting" at_ten; ev "e2" "Standup" at_nine] _ _ _))
              (ev "e1" "Update Meeting" at_ten) _ _).
    + intros w. reflexivity.
    + reflexivity.
    + intros e [<- | [<- | []]] Hid; [contradiction | discriminate].
  - refine (proj2 (proj2 (proj2 (evaluate_double_booking _ [] _ _ _))) _).
    + intros w. reflexivity.
    + reflexivity.
Defined.

(** The error recorded by the selected validator becomes the error report
    of [evaluate]. *)
Lemma evaluate_reports_error (self : RewardFunction) (t : TaskDescriptor)
    (agent_response : string) (w : World) (e : PyException) :
  task self = Some t ->
  (forall wv, wall_clock wv = wall_clock w -> clock_tick wv = clock_tick w ->
     exists checks, fst (selected_validator self wv) = Return checks
                    /\ checks !! "failed_as_expected" = Some (VBool false)
                    /\ checks !! "error" = Some (VStr (str_exc e))) ->
  reports_error (fst (evaluate self agent_response w)) e.
Proof.
  intros Ht Hv.
  destruct (evaluate_spec self t agent_response w Ht) as (wv & Hc & Htick & H).
  destruct (Hv wv Hc Htick) as (checks & Hrun & Hfailed & Herr).
  rewrite Hrun in H. destruct H as (result & Hres & Hchecks & Hfd & Hscore).
  rewrite Hfailed in Hfd, Hscore. cbn [default truthy] in Hfd, Hscore.
  exists result, checks. auto 10.
Qed.

Lemma readings_of_same_clock (wv w : World) :
  wall_clock wv = wall_clock w -> clock_tick wv = clock_tick w ->
  current_time_reading wv = current_time_reading w
  /\ requested_time_reading wv = requested_time_reading w.
Proof.
  unfold current_time_reading, requested_time_reading.
  intros -> ->. split; reflexivity.
Qed.

(** ** Task 3: the comparison of the two clock readings *)

Lemma lex_gt_same_head (x : nat) (a b : list nat) :
  lex_gt (x :: a) (x :: b) = lex_gt a b.
Proof. cbn [lex_gt]. rewrite Nat.ltb_irrefl, Nat.eqb_refl. reflexivity. Qed.

(** Up to and including 10:00:00.000000 the current time does not exceed
    the requested time, whatever microseconds the latter carries. *)
Lemma not_past_until_ten (current requested : datetime) :
  same_day current requested ->
  hour requested = 10%nat -> minute requested = 0%nat -> second requested = 0%nat ->
  at_or_before current 10 0 0 0 ->
  datetime_gt current requested = false.
Proof.
  unfold same_day, at_or_before, datetime_gt, datetime_key.
  intros (Hy & Hm & Hd) Hh Hmin Hs. cbn [year month day hour minute second microsecond].
  rewrite <- Hy, <- Hm, <- Hd, Hh, Hmin, Hs. rewrite !lex_gt_same_head.
  cbn [lex_gt].
  destruct (Nat.ltb_spec 10 (hour current)); [discriminate |].
  destruct (Nat.eqb_spec (hour current) 10); [| reflexivity].
  destruct (Nat.ltb_spec 0 (minute current)); [discriminate |].
  destruct (Nat.eqb_spec (minute current) 0); [| reflexivity].
  destruct (Nat.ltb_spec 0 (second current)); [discriminate |].
  destruct (Nat.eqb_spec (second current) 0); [| reflexivity].
  destruct (Nat.ltb_spec 0 (microsecond current)); [discriminate |].
  intros _.
  destruct (Nat.ltb_spec (microsecond requested) (microsecond current)); [lia |].
  apply andb_false_r.
Qed.

(** From 10:00:01 on the current time exceeds the requested time. *)
Lemma past_from_ten_and_a_second (current requested : datetime) :
  same_day current requested ->
  hour requested = 10%nat -> minute requested = 0%nat -> second requested = 0%nat ->
  at_or_after current 10 0 1 0 ->
  datetime_gt current requested = true.
Proof.
  unfold same_day, at_or_after, datetime_gt, datetime_key.
  intros (Hy & Hm & Hd) Hh Hmin Hs. cbn [year month day hour minute second microsecond].
  rewrite <- Hy, <- Hm, <- Hd, Hh, Hmin, Hs. rewrite !lex_gt_same_head.
  cbn [lex_gt].
  destruct (Nat.ltb_spec (hour current) 10); [discriminate |].
  destruct (Nat.ltb_spec 10 (hour current)); [reflexivity |].
  destruct (Nat.eqb_spec 10 (hour current)); [| lia].
  destruct (Nat.eqb_spec (hour current) 10); [| lia].
  destruct (Nat.ltb_spec (minute current) 0); [lia |].
  destruct (Nat.ltb_spec 0 (minute current)); [reflexivity |].
  destruct (Nat.eqb_spec 0 (minute current)); [| lia].
  destruct (Nat.eqb_spec (minute current) 0); [| lia].
  destruct (Nat.ltb_spec (second current) 1); [discriminate |].
  destruct (Nat.ltb_spec 0 (second current)); [reflexivity | lia].
Qed.

Lemma evaluate_task_3_not_past (client : GoogleAPIClient)
    (agent_response : string) (w : World) :
  datetime_gt (current_time_reading w) (requested_time_reading w) = false ->
  reports (fst (evaluate (RewardFunction_init "task_3" client) agent_response w)) false.
Proof.
  intros Hnot. eapply evaluate_reports; [reflexivity |]. intros wv Hclock Htick.
  destruct (_validate_past_time_failure_spec (RewardFunction_init "task_3" client) wv)
    as (checks & wq & Hrun & Hc).
  destruct (readings_of_same_clock wv w Hclock Htick) as [Hcur Hreq].
  rewrite Hcur, Hreq, Hnot in Hc.
  exists checks. split; [exact Hrun | apply Hc].
Qed.

Lemma evaluate_task_3_past (client : GoogleAPIClient)
    (all_events : list CalendarEventRecord) (agent_response : string) (w : World) :
  calendar_listing_gives client (Return all_events) ->
  datetime_gt (current_time_reading w) (requested_time_reading w) = true ->
  reports (fst (evaluate (RewardFunction_init "task_3" client) agent_response w))
          (match List.find looks_like_10_AM all_events with
           | Some _ => false
           | None => true
           end).
Proof.
  intros Hq Hpast. eapply evaluate_reports; [reflexivity |]. intros wv Hclock Htick.
  destruct (_validate_past_time_failure_spec (RewardFunction_init "task_3" client) wv)
    as (checks & wq & Hrun & Hc).
  destruct (readings_of_same_clock wv w Hclock Htick) as [Hcur Hreq].
  rewrite Hcur, Hreq, Hpast in Hc.
  cbn [api_client RewardFunction_init] in Hc. rewrite (Hq wq) in Hc.
  exists checks. split; [exact Hrun | apply Hc].
Qed.

(** C3, as amended.  Past-time check (task_3).  When the current time is
    10:00:00.000000 today or earlier, the evaluation returns [False]/[0.0]
    whatever the calendar holds or does; when the current time is 10:00:01
    today or later and the listing returns events none of whose start
    strings contains both "AM" and "10", it returns [True]/[1.0]; when the
    listing returns such an event, it returns [False]/[0.0], at 10:00 or
    later as at any other time.  "Today": the clock readings of the check
    fall on one day. *)
Theorem evaluate_past_time (client : GoogleAPIClient)
    (agent_response : string) (w : World) :
  let r := fst (evaluate (RewardFunction_init "task_3" client) agent_response w) in
  (same_day (current_time_reading w) (requested_time_reading w) ->
   at_or_before (current_time_reading w) 10 0 0 0 -> reports r false)
  /\ (forall all_events,
        calendar_listing_gives client (Return all_events) ->
        (same_day (current_time_reading w) (requested_time_reading w) ->
         at_or_after (current_time_reading w) 10 0 1 0 ->
         (forall e, In e all_events -> looks_like_10_AM e = false) -> reports r true)
        /\ ((exists e, In e all_events /\ looks_like_10_AM e = true) ->
            reports r false)).
Proof.
  intros r. split.
  - intros Hday Hbefore. apply evaluate_task_3_not_past.
    apply not_past_until_ten; [exact Hday | reflexivity .. | exact Hbefore].
  - intros all_events Hq. split.
    + intros Hday Hafter Hnone.
      assert (Hpast : datetime_gt (current_time_reading w) (requested_time_reading w)
                      = true)
        by (apply past_from_ten_and_a_second;
            [exact Hday | reflexivity .. | exact Hafter]).
      pose proof (evaluate_task_3_past client all_events agent_response w Hq Hpast) as H.
      fold r in H.
      destruct (List.find looks_like_10_AM all_events) as [e |] eqn:Hfind; [| exact H].
      apply List.find_some in Hfind. destruct Hfind as [Hin He].
      rewrite (Hnone e Hin) in He. discriminate He.
    + intros (e & Hin & He).
      destruct (datetime_gt (current_time_reading w) (requested_time_reading w))
        eqn:Hpast.
      * pose proof (evaluate_task_3_past client all_events agent_response w Hq Hpast)
          as H.
        fold r in H.
        destruct (List.find looks_like_10_AM all_events) as [e' |] eqn:Hfind;
          [exact H |].
        rewrite (List.find_none _ _ Hfind e Hin) in He. discriminate He.
      * apply evaluate_task_3_not_past. exact Hpast.
Qed.

Lemma evaluate_past_time_witness :
  reports (fst (evaluate (RewardFunction_init "task_3"
                            (client_of None (Some (calendar_of []))))
                  "cannot schedule in the past" (world_at (moment 13 25 0 0)))) true
  /\ reports (fst (evaluate (RewardFunction_init "task_3"
                               (client_of None
                                  (Some (calendar_of [timed_event "e1" "Sync" "10:00 AM"]))))
                     "scheduled" (world_at (moment 13 25 0 0)))) false
  /\ reports (fst (evaluate (RewardFunction_init "task_3"
                               (client_of None
                                  (Some (calendar_of [timed_event "e1" "Sync" "10:00 AM"]))))
                     "scheduled" (world_at (moment 10 0 0 500)))) false
  /\ reports (fst (evaluate (RewardFunction_init "task_3"
                               (client_of None (Some (calendar_of []))))
                     "cannot schedule in the past" (world_at (moment 9 30 0 0)))) false.
Proof.
  split; [| split; [| split]].
  - refine (proj1 (proj2 (evaluate_past_time
              (client_of None (Some (calendar_of []))) _
              (world_at (moment 13 25 0 0))) [] _) _ _ _).
    + intros w. reflexivity.
    + repeat split.
    + reflexivity.
    + intros e [].
  - refine (proj2 (proj2 (evaluate_past_time
              (client_of None (Some (calendar_of [timed_event "e1" "Sync" "10:00 AM"]))) _
              (world_at (moment 13 25 0 0)))
              [ {| e_id := "e1"; e_title := "Sync"; e_start := "10:00 AM";
                   e_end := ""; e_organizer := "" |} ] _) _).
    + intros w. reflexivity.
    + eexists. split; [left; reflexivity | reflexivity].
  - refine (proj2 (proj2 (evaluate_past_time
              (client_of None (Some (calendar_of [timed_event "e1" "Sync" "10:00 AM"]))) _
              (world_at (moment 10 0 0 500)))
              [ {| e_id := "e1"; e_title := "Sync"; e_start := "10:00 AM";
                   e_end := ""; e_organizer := "" |} ] _) _).
    + intros w. reflexivity.
    + eexists. split; [left; reflexivity | reflexivity].
  - refine (proj1 (evaluate_past_time
              (client_of None (Some (calendar_of []))) _
              (world_at (moment 9 30 0 0))) _ _).
    + repeat split.
    + reflexivity.
Defined.

Lemma reports_functional (o : Outcome (gmap string pyval)) (b b' : bool) :
  reports o b -> reports o b' -> b = b'.
Proof.
  intros (result & checks & -> & _ & _ & Hfd & _)
         (result' & checks' & [= <-] & _ & _ & Hfd' & _).
  congruence.
Qed.

(** C3 as stated fails at 10:00 sharp: the current time is at 10:00, the
    calendar is empty, so no event matches, and the evaluation returns
    [False]/[0.0], not [True]/[1.0]: the comparison with the requested
    time is strict. *)
Lemma evaluate_past_time_at_ten_counterexample :
  let client := client_of None (Some (calendar_of [])) in
  let w := world_at (moment 10 0 0 0) in
  let r := fst (evaluate (RewardFunction_init "task_3" client) "declined" w) in
  calendar_listing_gives client (Return [])
  /\ at_or_after (current_time_reading w) 10 0 0 0
  /\ (forall e, In e [] -> looks_like_10_AM e = false)
  /\ reports r false
  /\ ~ reports r true.
Proof.
  intros client w r.
  assert (Hr : reports r false)
    by (apply evaluate_task_3_not_past; reflexivity).
  repeat split.
  - intros e [].
  - exact Hr.
  - intros Ht. pose proof (reports_functional _ _ _ Hr Ht). discriminate.
Qed.

(** * Two runs against the same remote state *)

Section Related.
Context {St : Type} (RS : St -> St -> Prop).

Lemma related_ret {A : Type} (a : A) : related RS (mret a : M St A).
Proof. intros s1 s2 H. split; [reflexivity | exact H]. Qed.

Lemma related_raise {A : Type} (e : PyException) : related RS (raise e : M St A).
Proof. intros s1 s2 H. split; [reflexivity | exact H]. Qed.

Lemma related_execute {A : Type} (o : Outcome A) : related RS (execute o : M St A).
Proof. intros s1 s2 H. split; [reflexivity | exact H]. Qed.

Lemma related_bind {A B : Type} (m : M St A) (k : A -> M St B) :
  related RS m -> (forall a, related RS (k a)) -> related RS (m ≫= k).
Proof.
  intros Hm Hk s1 s2 H. destruct (Hm s1 s2 H) as [Ho Hs].
  unfold mbind, M_bind, bind.
  destruct (m s1) as [o1 s1'], (m s2) as [o2 s2']. cbn [fst snd] in Ho, Hs.
  subst o2. destruct o1 as [a | e]; [apply Hk, Hs | split; [reflexivity | exact Hs]].
Qed.

Lemma related_try_except {A : Type} (body : M St A) (handler : PyException -> M St A) :
  related RS body -> (forall e, related RS (handler e)) ->
  related RS (try_except body handler).
Proof.
  intros Hm Hk s1 s2 H. destruct (Hm s1 s2 H) as [Ho Hs].
  unfold try_except.
  destruct (body s1) as [o1 s1'], (body s2) as [o2 s2']. cbn [fst snd] in Ho, Hs.
  subst o2. destruct o1 as [a | e]; [split; [reflexivity | exact Hs] | apply Hk, Hs].
Qed.

Lemma related_try_except_HttpError {A : Type} (body : M St A)
    (handler : string -> M St A) :
  related RS body -> (forall msg, related RS (handler msg)) ->
  related RS (try_except_HttpError body handler).
Proof.
  intros Hm Hk s1 s2 H. destruct (Hm s1 s2 H) as [Ho Hs].
  unfold try_except_HttpError.
  destruct (body s1) as [o1 s1'], (body s2) as [o2 s2']. cbn [fst snd] in Ho, Hs.
  subst o2. destruct o1 as [a | [msg | cls msg]];
    [split; [reflexivity | exact Hs] | apply Hk, Hs | split; [reflexivity | exact Hs]].
Qed.

Lemma related_for_each {A : Type} (l : list A) (body : A -> M St unit) :
  (forall x, related RS (body x)) -> related RS (for_each l body).
Proof.
  intros Hbody. induction l as [| x rest IH]; cbn [for_each].
  - apply related_ret.
  - apply related_bind; [apply Hbody | intros _; exact IH].
Qed.

Lemma related_for_collect {A B : Type} (l : list A) (body : A -> M St B) :
  (forall x, related RS (body x)) -> related RS (for_collect l body).
Proof.
  intros Hbody. induction l as [| x rest IH]; cbn [for_collect].
  - apply related_ret.
  - apply related_bind; [apply Hbody | intros y].
    apply related_bind; [exact IH | intros ys; apply related_ret].
Qed.
End Related.

Section RelatedWorlds.
Context (R : World -> World -> Prop).

Lemma related_liftW {L A : Type} (m : M World A) :
  related R m -> related (with_same_local (L := L) R) (liftW m).
Proof.
  intros Hm [w1 l1] [w2 l2] [Hw Hl]. cbn [fst snd] in Hw, Hl. subst l2.
  destruct (Hm w1 w2 Hw) as [Ho Hs]. unfold liftW, with_same_local. cbn [fst snd].
  destruct (m w1) as [o1 w1'], (m w2) as [o2 w2']. cbn [fst snd] in *. auto.
Qed.

Lemma related_set_item (key : string) (value : pyval) :
  related (with_same_local R) (set_item key value).
Proof.
  intros [w1 l1] [w2 l2] [Hw Hl]. cbn [fst snd] in Hw, Hl. subst l2.
  unfold set_item, with_same_local. cbn [fst snd]. auto.
Qed.

Lemma related_append_item (key : string) (value : pyval) :
  related (with_same_local R) (append_item key value).
Proof.
  intros [w1 l1] [w2 l2] [Hw Hl]. cbn [fst snd] in Hw, Hl. subst l2.
  unfold append_item, with_same_local. cbn [fst snd].
  destruct (l1 !! key) as [[] |]; cbn [fst snd]; auto.
Qed.

Lemma related_with_local {L : Type} (init : L) (body : M (World * L) unit) :
  related (with_same_local R) body -> related R (with_local init body).
Proof.
  intros Hm w1 w2 Hw.
  destruct (Hm (w1, init) (w2, init)) as [Ho [Hs Hl]]; [split; [exact Hw | reflexivity] |].
  unfold with_local.
  destruct (body (w1, init)) as [o1 s1'], (body (w2, init)) as [o2 s2'].
  cbn [fst snd] in *. subst o2.
  destruct o1 as [u | e]; cbn [fst snd]; [rewrite Hl |]; auto.
Qed.
End RelatedWorlds.

(** One step of a relatedness proof, following the shape of the code. *)
Ltac related_step :=
  lazymatch goal with
  | |- related _ (mbind _ _) => apply related_bind; [| intros ?]
  | |- related _ (mret _) => apply related_ret
  | |- related _ (raise _) => apply related_raise
  | |- related _ (execute _) => apply related_execute
  | |- related _ (liftW _) => apply related_liftW
  | |- related _ (set_item _ _) => apply related_set_item
  | |- related _ (append_item _ _) => apply related_append_item
  | |- related _ (try_except _ _) => apply related_try_except; [| intros ?]
  | |- related _ (try_except_HttpError _ _) =>
      apply related_try_except_HttpError; [| intros ?]
  | |- related _ (with_local _ _) => apply related_with_local
  | |- related _ (for_each _ _) => apply related_for_each; intros ?
  | |- related _ (for_collect _ _) => apply related_for_collect; intros ?
  | |- related _ (if ?b then _ else _) => destruct b eqn:?
  | |- related _ (match ?x with _ => _ end) => destruct x
  | H : print_stable ?R |- related ?R (print _) => apply H
  | H : related ?R now |- related ?R now => exact H
  end.

Ltac related_steps := repeat related_step.

Section RelatedCode.
Context (R : World -> World -> Prop) (Hprint : print_stable R).

Lemma related_get_recent_emails (self : GoogleAPIClient) (query : string)
    (max_results : Z) :
  related R (get_recent_emails self query max_results).
Proof. unfold get_recent_emails. related_steps. Qed.

Lemma related_get_calendar_events (self : GoogleAPIClient) (calendar_id : string)
    (time_min time_max : option string) :
  related R (get_calendar_events self calendar_id time_min time_max).
Proof. unfold get_calendar_events. related_steps. Qed.

Lemma related_validate_email_failure (self : RewardFunction) :
  related R (_validate_email_failure self).
Proof.
  unfold _validate_email_failure. related_steps.
  apply related_get_recent_emails.
Qed.

Lemma related_validate_calendar_conflict (self : RewardFunction) :
  related R (_validate_calendar_conflict self).
Proof.
  unfold _validate_calendar_conflict. related_steps.
  apply related_get_calendar_events.
Qed.

Lemma related_validate_past_time_failure (self : RewardFunction) :
  related R now -> related R (_validate_past_time_failure self).
Proof.
  intros Hnow. unfold _validate_past_time_failure. related_steps.
  apply related_get_calendar_events.
Qed.

Lemma related_evaluate (self : RewardFunction) (agent_response : string) :
  task_id self <> "task_3" \/ related R now ->
  related R (evaluate self agent_response).
Proof.
  intros Hclock. unfold evaluate. destruct (task self) as [t |]; related_steps.
  - apply related_validate_email_failure.
  - apply related_validate_calendar_conflict.
  - destruct Hclock as [Hne | Hnow].
    + match goal with H : String.eqb _ _ = true |- _ => apply String.eqb_eq in H end.
      contradiction.
    + apply related_validate_past_time_failure, Hnow.
Qed.
End RelatedCode.

Lemma any_worlds_print_stable : print_stable any_worlds.
Proof. intros line w1 w2 _. split; [reflexivity | exact I]. Qed.

Lemma same_readings_print_stable : print_stable same_readings.
Proof. intros line w1 w2 H. split; [reflexivity | exact H]. Qed.

Lemma same_readings_now : related same_readings now.
Proof.
  intros w1 w2 H. unfold now, same_readings in *. cbn [fst snd wall_clock clock_tick].
  split.
  - f_equal. specialize (H 0%nat). rewrite !Nat.add_0_r in H. exact H.
  - intros i. specialize (H (S i)). rewrite !Nat.add_succ_r in H. exact H.
Qed.

(** ** The client and [HttpError] *)

(** The per-message loop stops at the first request that raises. *)
Lemma for_collect_first_failure {St A B D : Type} (get : A -> Outcome D)
    (f : A -> D -> B) (pre post : list A) (r : A) (e : PyException) (s : St) :
  Forall (fun x => exists d, get x = Return d) pre ->
  get r = Raise e ->
  for_collect (pre ++ r :: post)
    (fun x => d ← execute (get x); mret (f x d)) s = (Raise e, s).
Proof.
  intros Hpre Hr. induction Hpre as [| x pre [d Hd] _ IH]; cbn [app for_collect].
  - unfold mbind, M_bind, bind, execute. rewrite Hr. reflexivity.
  - unfold mbind, M_bind, bind, execute in *. rewrite Hd. cbn.
    rewrite IH. reflexivity.
Qed.

Lemma try_except_HttpError_contains {St A : Type} (body : M St A)
    (handler : string -> M St A) (s : St) (e : PyException) :
  (forall msg s', exists a s'', handler msg s' = (Return a, s'')) ->
  fst (try_except_HttpError body handler s) = Raise e -> is_HttpError e = false.
Proof.
  intros Hh. unfold try_except_HttpError.
  destruct (body s) as [[a | [msg | cls msg]] s']; cbn [fst].
  - discriminate.
  - destruct (Hh msg s') as (a & s'' & ->). discriminate.
  - intros [= <-]. reflexivity.
Qed.

(** C8, as amended.  Every [HttpError] raised by the remote message search
    (by the listing request or by the request for one of the listed
    messages) or by the calendar listing is caught inside the client, which
    prints a line naming it and returns the empty list; no [HttpError]
    ever reaches the caller of [get_recent_emails] or
    [get_calendar_events]. *)
Theorem client_contains_HttpError (self : GoogleAPIClient) (w : World) :
  (forall query max_results,
     (forall e, fst (get_recent_emails self query max_results w) = Raise e ->
                is_HttpError e = false)
     /\ (forall gmail msg,
           gmail_service self = Some gmail ->
           users_messages_list gmail query max_results = Raise (HttpError msg) ->
           fst (get_recent_emails self query max_results w) = Return []
           /\ stdout (snd (get_recent_emails self query max_results w))
              = stdout w ++ ["  ⚠ Gmail API error: " +:+ msg])
     /\ (forall gmail results pre r post msg,
           gmail_service self = Some gmail ->
           users_messages_list gmail query max_results = Return results ->
           default [] (messages results) = pre ++ r :: post ->
           Forall (fun x => exists d, users_messages_get gmail (msg_id x) = Return d) pre ->
           users_messages_get gmail (msg_id r) = Raise (HttpError msg) ->
           fst (get_recent_emails self query max_results w) = Return []
           /\ stdout (snd (get_recent_emails self query max_results w))
              = stdout w ++ ["  ⚠ Gmail API error: " +:+ msg]))
  /\ (forall calendar_id time_min time_max,
        (forall e, fst (get_calendar_events self calendar_id time_min time_max w) = Raise e ->
                   is_HttpError e = false)
        /\ (forall calendar msg,
              calendar_service self = Some calendar ->
              events_list calendar
                {| calendarId := calendar_id; maxResults := 50;
                   timeMin := if opt_str_truthy time_min then time_min else None;
                   timeMax := if opt_str_truthy time_max then time_max else None |}
                = Raise (HttpError msg) ->
              fst (get_calendar_events self calendar_id time_min time_max w) = Return []
              /\ stdout (snd (get_calendar_events self calendar_id time_min time_max w))
                 = stdout w ++ ["  ⚠ Calendar API error: " +:+ msg])).
Proof.
  split.
  - intros query max_results. split; [| split].
    + intros e. unfold get_recent_emails. apply try_except_HttpError_contains.
      intros msg s'. eexists _, _. reflexivity.
    + intros gmail msg Hsvc Hlist.
      assert (E : get_recent_emails self query max_results w
                  = (Return [], snd (print ("  ⚠ Gmail API error: " +:+ msg) w))).
      { unfold get_recent_emails. rewrite Hsvc.
        unfold try_except_HttpError, mbind, M_bind, bind, execute. rewrite Hlist.
        reflexivity. }
      rewrite E. split; reflexivity.
    + intros gmail results pre r post msg Hsvc Hlist Hrefs Hpre Hget.
      assert (E : get_recent_emails self query max_results w
                  = (Return [], snd (print ("  ⚠ Gmail API error: " +:+ msg) w))).
      { unfold get_recent_emails. rewrite Hsvc.
        unfold try_except_HttpError.
        unfold mbind at 1, M_bind at 1, bind at 1, execute at 1.
        rewrite Hlist, Hrefs.
        rewrite (for_collect_first_failure (fun x => users_messages_get gmail (msg_id x))
                   _ pre post r (HttpError msg) w Hpre Hget).
        reflexivity. }
      rewrite E. split; reflexivity.
  - intros calendar_id time_min time_max. split.
    + intros e. unfold get_calendar_events. apply try_except_HttpError_contains.
      intros msg s'. eexists _, _. reflexivity.
    + intros calendar msg Hsvc Hlist.
      assert (E : get_calendar_events self calendar_id time_min time_max w
                  = (Return [], snd (print ("  ⚠ Calendar API error: " +:+ msg) w))).
      { unfold get_calendar_events. rewrite Hsvc.
        unfold try_except_HttpError, mbind, M_bind, bind, execute. rewrite Hlist.
        reflexivity. }
      rewrite E. split; reflexivity.
Qed.

Lemma client_contains_HttpError_witness :
  (fst (get_recent_emails
          (client_of (Some (broken_mailbox service_unavailable)) None)
          "to:sanat@example.com" 10 (world_at (moment 13 25 0 0))) = Return []
   /\ stdout (snd (get_recent_emails
                     (client_of (Some (broken_mailbox service_unavailable)) None)
                     "to:sanat@example.com" 10 (world_at (moment 13 25 0 0))))
      = stdout (world_at (moment 13 25 0 0))
        ++ ["  ⚠ Gmail API error: " +:+ "<HttpError 503>"])
  /\ (fst (get_recent_emails
             (client_of (Some (unreadable_mailbox ["m1"] service_unavailable)) None)
             "to:sanat@example.com" 10 (world_at (moment 13 25 0 0))) = Return []
      /\ stdout (snd (get_recent_emails
                        (client_of (Some (unreadable_mailbox ["m1"] service_unavailable))
                           None)
                        "to:sanat@example.com" 10 (world_at (moment 13 25 0 0))))
         = stdout (world_at (moment 13 25 0 0))
           ++ ["  ⚠ Gmail API error: " +:+ "<HttpError 503>"])
  /\ (fst (get_calendar_events
             (client_of None (Some (broken_calendar service_unavailable)))
             "primary" None None (world_at (moment 13 25 0 0))) = Return []
      /\ stdout (snd (get_calendar_events
                        (client_of None (Some (broken_calendar service_unavailable)))
                        "primary" None None (world_at (moment 13 25 0 0))))
         = stdout (world_at (moment 13 25 0 0))
           ++ ["  ⚠ Calendar API error: " +:+ "<HttpError 503>"])
  /\ is_HttpError timeout_error = false.
Proof.
  split; [| split; [| split]].
  - refine (proj1 (proj2 (proj1 (client_contains_HttpError
              (client_of (Some (broken_mailbox service_unavailable)) None)
              (world_at (moment 13 25 0 0))) "to:sanat@example.com" 10%Z))
            (broken_mailbox service_unavailable) "<HttpError 503>" _ _).
    + reflexivity.
    + reflexivity.
  - refine (proj2 (proj2 (proj1 (client_contains_HttpError
              (client_of (Some (unreadable_mailbox ["m1"] service_unavailable)) None)
              (world_at (moment 13 25 0 0))) "to:sanat@example.com" 10%Z))
            (unreadable_mailbox ["m1"] service_unavailable)
            {| messages := Some [ {| msg_id := "m1" |} ] |}
            [] {| msg_id := "m1" |} [] "<HttpError 503>" _ _ _ _ _).
    + reflexivity.
    + reflexivity.
    + reflexivity.
    + constructor.
    + reflexivity.
  - refine (proj2 (proj2 (client_contains_HttpError
              (client_of None (Some (broken_calendar service_unavailable)))
              (world_at (moment 13 25 0 0))) "primary" None None)
            (broken_calendar service_unavailable) "<HttpError 503>" _ _).
    + reflexivity.
    + reflexivity.
  - refine (proj1 (proj1 (client_contains_HttpError
              (client_of (Some (broken_mailbox timeout_error)) None)
              (world_at (moment 13 25 0 0))) "to:sanat@example.com" 10%Z)
            timeout_error _).
    reflexivity.
Defined.

(** C8 as stated fails for a transport error that is not an [HttpError]:
    a timeout raised by the remote request leaves [get_recent_emails] and
    [get_calendar_events] and reaches the caller. *)
Lemma client_propagates_timeout_counterexample :
  fst (get_recent_emails (client_of (Some (broken_mailbox timeout_error)) None)
         "to:sanat@example.com" 10 (world_at (moment 13 25 0 0)))
    = Raise timeout_error
  /\ fst (get_calendar_events (client_of None (Some (broken_calendar timeout_error)))
            "primary" None None (world_at (moment 13 25 0 0)))
      = Raise timeout_error.
Proof. split; reflexivity. Qed.

(** * Further properties of the code *)

Lemma wp_pure_step {St A : Type} (m : M St A) (s s' : St) (o : Outcome A)
    (Q : Outcome A -> St -> Prop) :
  m s = (o, s') -> Q o s' -> wp m s Q.
Proof. unfold wp. intros ->. exact (fun H => H). Qed.

(** Symbolic execution, with the operations on the client object, the
    files and the tally. *)
Ltac wp_step2 :=
  lazymatch goal with
  | |- wp (set_creds _) _ _ => eapply wp_pure_step; [reflexivity |]
  | |- wp (set_gmail_service _) _ _ => eapply wp_pure_step; [reflexivity |]
  | |- wp (set_calendar_service _) _ _ => eapply wp_pure_step; [reflexivity |]
  | |- wp get_creds _ _ => eapply wp_pure_step; [reflexivity |]
  | |- wp (exists_now _) _ _ => eapply wp_pure_step; [reflexivity |]
  | |- wp (append_text _) _ _ => eapply wp_pure_step; [reflexivity |]
  | |- wp (append_result _) _ _ => eapply wp_pure_step; [reflexivity |]
  | |- wp (append_score _) _ _ => eapply wp_pure_step; [reflexivity |]
  | |- _ => wp_step
  end; cbn [fst snd].

Ltac wp_steps2 := repeat wp_step2.

(** ** Building the services *)

Lemma _get_oauth_credentials_run {St : Type} (fs : gmap string FileState) (s : St) :
  _get_oauth_credentials fs s = (Return (valid_token fs), s).
Proof.
  unfold _get_oauth_credentials, valid_token, path_exists, open_and_load.
  destruct (fs !! "token.pickle") as [[e | [[| c | cls truth] | e]] |];
    try reflexivity.
  - unfold try_except, mbind, M_bind, bind, execute. cbn.
    destruct (valid c); reflexivity.
  - destruct truth; reflexivity.
Qed.

Lemma wp_print_exact (line : string) (w : World) (Q : Outcome unit -> World -> Prop) :
  Q (Return tt) (snd (print line w)) -> wp (print line) w Q.
Proof. intros H. exact H. Qed.

(** What the constructor leaves in the object, by the credential it
    settles on. *)
Lemma GoogleAPIClient_init_spec (env : GoogleEnv) (w : World) :
  wp (GoogleAPIClient_init env) w (fun o _ =>
    exists client, o = Return client /\
      match chosen_credential env with
      | None => client = bare_client
      | Some (Raise e) => client = bare_client
      | Some (Return c) =>
          creds client = Some c /\
          gmail_service client =
            match build_gmail env c with
            | Return gmail => Some gmail
            | Raise _ => None
            end /\
          calendar_service client =
            match build_gmail env c, build_calendar env c with
            | Return _, Return calendar => Some calendar
            | _, _ => None
            end
      end).
Proof.
  unfold GoogleAPIClient_init, _init_services, chosen_credential, service_account_path.
  wp_steps2.
  eapply wp_pure_step; [apply _get_oauth_credentials_run |]. cbn [fst snd].
  wp_steps2. cbn [creds].
  destruct (valid_token (files env)) as [c |]; wp_steps2; cbn [creds].
  - destruct (build_gmail env c) as [gmail | e]; wp_steps2;
      [destruct (build_calendar env c) as [calendar | e]; wp_steps2 | ];
      eexists; (split; [reflexivity |]); cbn; auto.
  - destruct (getenv env "GOOGLE_CREDENTIALS_FILE") as [path |]; wp_steps2;
      [| eexists; split; reflexivity].
    destruct (opt_str_truthy (Some path) && path_exists (files env) path); wp_steps2;
      [| eexists; split; reflexivity].
    destruct (from_service_account_file env path) as [c | e]; wp_steps2; cbn [creds];
      [| eexists; split; reflexivity].
    destruct (build_gmail env c) as [gmail | e]; wp_steps2;
      [destruct (build_calendar env c) as [calendar | e]; wp_steps2 | ];
      eexists; (split; [reflexivity |]); cbn; auto.
Qed.

(** Symbolic execution that keeps the printed lines. *)
Ltac wp_stepx :=
  lazymatch goal with
  | |- wp (print _) _ _ => apply wp_print_exact
  | |- _ => wp_step2
  end; cbn [fst snd].

Ltac wp_stepsx := repeat wp_stepx.

(** X1.  Constructing a [GoogleAPIClient] never raises, whatever the files,
    the environment and the library calls do: a client always comes back.
    In it a Gmail service is present only together with a credential, and
    a Calendar service only together with a Gmail service. *)
Theorem GoogleAPIClient_init_keeps_services_behind_credentials
    (env : GoogleEnv) (w : World) :
  exists (client : GoogleAPIClient) (w' : World),
    GoogleAPIClient_init env w = (Return client, w')
    /\ (is_Some (gmail_service client) -> is_Some (creds client))
    /\ (is_Some (calendar_service client) -> is_Some (gmail_service client)).
Proof.
  destruct (GoogleAPIClient_init_spec env w) as (client & Hrun & H).
  exists client, (snd (GoogleAPIClient_init env w)).
  split; [rewrite <- Hrun; apply surjective_pairing |].
  destruct (chosen_credential env) as [[c | e] |].
  - destruct H as (Hc & Hg & Hcal). rewrite Hc, Hg, Hcal.
    split; [eauto |].
    destruct (build_gmail env c); [eauto | intros [? H']; discriminate H'].
  - subst client. split; intros [? H']; discriminate H'.
  - subst client. split; intros [? H']; discriminate H'.
Qed.

(** X2.  When [token.pickle] holds a valid credential, the client is built
    with that credential, whatever [GOOGLE_CREDENTIALS_FILE] says: the
    Gmail service is the one [build] returns for it (none when [build]
    raises), and the Calendar service is present only when both [build]
    calls return. *)
Theorem GoogleAPIClient_init_prefers_oauth_token (env : GoogleEnv) (w : World)
    (c : Credentials) :
  files env !! "token.pickle" = Some (Pickle (Return (UCredentials c))) ->
  valid c = true ->
  exists (client : GoogleAPIClient),
    fst (GoogleAPIClient_init env w) = Return client
    /\ creds client = Some c
    /\ gmail_service client =
         match build_gmail env c with
         | Return gmail => Some gmail
         | Raise _ => None
         end
    /\ calendar_service client =
         match build_gmail env c, build_calendar env c with
         | Return _, Return calendar => Some calendar
         | _, _ => None
         end.
Proof.
  intros Hfile Hvalid.
  destruct (GoogleAPIClient_init_spec env w) as (client & Hrun & H).
  exists client. split; [exact Hrun |].
  unfold chosen_credential, valid_token in H. rewrite Hfile, Hvalid in H. exact H.
Qed.

(** X3.  Without a usable OAuth token, and with [GOOGLE_CREDENTIALS_FILE]
    naming a file that exists, the client takes the service-account
    credential of that file; when loading it raises, the construction
    still returns, with a client that has no credential and no service. *)
Theorem GoogleAPIClient_init_falls_back_to_service_account (env : GoogleEnv)
    (w : World) (path : string) :
  valid_token (files env) = None ->
  getenv env "GOOGLE_CREDENTIALS_FILE" = Some path ->
  path <> "" ->
  is_Some (files env !! path) ->
  exists (client : GoogleAPIClient),
    fst (GoogleAPIClient_init env w) = Return client
    /\ match from_service_account_file env path with
       | Return c =>
           creds client = Some c
           /\ gmail_service client =
                match build_gmail env c with
                | Return gmail => Some gmail
                | Raise _ => None
                end
       | Raise _ => client = bare_client
       end.
Proof.
  intros Htoken Henv Hne [f Hf].
  destruct (GoogleAPIClient_init_spec env w) as (client & Hrun & H).
  exists client. split; [exact Hrun |].
  unfold chosen_credential, service_account_path, path_exists in H.
  rewrite Htoken, Henv, Hf in H.
  assert (Ht : opt_str_truthy (Some path) = true)
    by (destruct path; [contradiction | reflexivity]).
  rewrite Ht in H. cbn [andb] in H.
  destruct (from_service_account_file env path); [| exact H].
  destruct H as (Hc & Hg & _). auto.
Qed.

(** X4.  Without a usable OAuth token and without an existing
    service-account file, the constructor prints the one line "No Google
    credentials found" and returns a client without credential and
    services; every mail search and every calendar listing on that client
    returns the empty list. *)
Theorem GoogleAPIClient_init_without_credentials (env : GoogleEnv) (w : World) :
  valid_token (files env) = None ->
  service_account_path env = None ->
  GoogleAPIClient_init env w
    = (Return bare_client, snd (print "  ⚠ No Google credentials found" w))
  /\ (forall query max_results w',
        fst (get_recent_emails bare_client query max_results w') = Return [])
  /\ (forall calendar_id time_min time_max w',
        fst (get_calendar_events bare_client calendar_id time_min time_max w')
          = Return []).
Proof.
  intros Htoken Hpath. split; [| split; intros; reflexivity].
  assert (H : wp (GoogleAPIClient_init env) w (fun o w' =>
                o = Return bare_client
                /\ w' = snd (print "  ⚠ No Google credentials found" w))).
  { unfold GoogleAPIClient_init, _init_services. wp_stepsx.
    eapply wp_pure_step; [apply _get_oauth_credentials_run |]. cbn [fst snd].
    rewrite Htoken. wp_stepsx. cbn [creds].
    unfold service_account_path in Hpath.
    destruct (getenv env "GOOGLE_CREDENTIALS_FILE") as [path |]; wp_stepsx;
      [| split; reflexivity].
    destruct (opt_str_truthy (Some path) && path_exists (files env) path);
      [discriminate Hpath |].
    wp_stepsx. split; reflexivity. }
  destruct H as [Ho Hw]. rewrite <- Ho, <- Hw. apply surjective_pairing.
Qed.

(** ** authorize *)

Lemma wp_open_and_dump {W : Type} (aenv : AuthEnv) (path : string) (c : Credentials)
    (s : W * gmap string FileState)
    (Q : Outcome unit -> W * gmap string FileState -> Prop) :
  match open_wb aenv path with
  | Raise e => Q (Raise e) s
  | Return _ =>
      match pickle_dump aenv c with
      | Return _ =>
          Q (Return tt) (fst s, <[path := Pickle (Return (UCredentials c))]> (snd s))
      | Raise e =>
          Q (Raise e) (fst s, <[path := Pickle (Raise (incomplete_load aenv))]> (snd s))
      end
  end ->
  wp (open_and_dump aenv path c) s Q.
Proof.
  unfold wp, open_and_dump.
  destruct (open_wb aenv path); [destruct (pickle_dump aenv c) |]; intros H; exact H.
Qed.

(** The outcome of [authorize], by the files present and the outcomes of
    the authorization flow. *)
Lemma authorize_spec (aenv : AuthEnv) (w : World) (fs : gmap string FileState) :
  wp (authorize aenv) (w, fs) (fun o s' =>
    if path_exists fs "token.pickle" then o = Return true /\ snd s' = fs
    else if path_exists fs "oauth_credentials.json" then
      match from_client_secrets_file aenv "oauth_credentials.json",
            run_local_server aenv with
      | Return _, Return c =>
          match open_wb aenv "token.pickle" with
          | Return _ =>
              match pickle_dump aenv c with
              | Return _ =>
                  o = Return true
                  /\ snd s' = <["token.pickle" := Pickle (Return (UCredentials c))]> fs
              | Raise _ =>
                  o = Return false
                  /\ snd s' = <["token.pickle" := Pickle (Raise (incomplete_load aenv))]> fs
              end
          | Raise _ => o = Return false /\ snd s' = fs
          end
      | _, _ => o = Return false /\ snd s' = fs
      end
    else o = Return false /\ snd s' = fs).
Proof.
  unfold authorize. wp_steps2.
  destruct (path_exists fs "token.pickle"); wp_steps2; [split; reflexivity |].
  destruct (path_exists fs "oauth_credentials.json"); cbn [negb]; wp_steps2;
    [| split; reflexivity].
  destruct (from_client_secrets_file aenv "oauth_credentials.json") as [[] | e];
    wp_steps2; [| split; reflexivity].
  destruct (run_local_server aenv) as [c | e]; wp_steps2; [| split; reflexivity].
  apply wp_open_and_dump. cbn [fst snd].
  destruct (open_wb aenv "token.pickle") as [[] | e];
    [destruct (pickle_dump aenv c) as [[] | e] |]; wp_steps2; split; reflexivity.
Qed.

(** What a run of [authorize] does to the files: it returns, it touches
    no file but the token, a token is on disk whenever it returns [True],
    and none was there before whenever it returns [False]. *)
Lemma authorize_run (aenv : AuthEnv) (s : World * gmap string FileState) :
  exists (b : bool) (s' : World * gmap string FileState),
    authorize aenv s = (Return b, s')
    /\ (b = true -> path_exists (snd s') "token.pickle" = true)
    /\ (b = false -> path_exists (snd s) "token.pickle" = false)
    /\ (forall path, path <> "token.pickle" -> snd s' !! path = snd s !! path).
Proof.
  destruct s as [w fs].
  pose proof (authorize_spec aenv w fs) as H. unfold wp in H.
  destruct (authorize aenv (w, fs)) as [o s'] eqn:E. cbn [fst snd] in *.
  destruct (path_exists fs "token.pickle") eqn:Htoken.
  - destruct H as [-> Hs]. exists true, s'. split; [reflexivity |].
    split; [intros _; rewrite Hs; exact Htoken |].
    split; [discriminate | intros path _; rewrite Hs; reflexivity].
  - assert (Hcases : (o = Return true
                      /\ exists f, snd s' = <["token.pickle" := f]> fs)
                     \/ (o = Return false
                         /\ (snd s' = fs \/ exists f, snd s' = <["token.pickle" := f]> fs))).
    { destruct (path_exists fs "oauth_credentials.json"); [| right; intuition].
      destruct (from_client_secrets_file aenv _) as [[] | ?]; [| right; intuition].
      destruct (run_local_server aenv) as [c | ?]; [| right; intuition].
      destruct (open_wb aenv _) as [[] | ?]; [| right; intuition].
      destruct (pickle_dump aenv c) as [[] | ?]; destruct H as [-> Hs];
        [left | right]; eauto. }
    assert (Hother : forall path, path <> "token.pickle" -> snd s' !! path = fs !! path).
    { intros path Hne.
      destruct Hcases as [[_ [f ->]] | [_ [-> | [f ->]]]];
        [| reflexivity |]; apply lookup_insert_ne; congruence. }
    destruct Hcases as [[-> [f Hf]] | [-> _]].
    + exists true, s'. split; [reflexivity |]. split; [| split; [discriminate | exact Hother]].
      intros _. rewrite Hf. unfold path_exists. rewrite lookup_insert_eq. reflexivity.
    + exists false, s'. split; [reflexivity |].
      split; [discriminate | split; [reflexivity | exact Hother]].
Qed.

Lemma authorize_with_token (aenv : AuthEnv) (s : World * gmap string FileState) :
  path_exists (snd s) "token.pickle" = true ->
  fst (authorize aenv s) = Return true /\ snd (snd (authorize aenv s)) = snd s.
Proof.
  destruct s as [w fs]. cbn [snd]. intros Hf.
  pose proof (authorize_spec aenv w fs) as H. unfold wp in H.
  rewrite Hf in H. exact H.
Qed.

(** X5.  When [token.pickle] exists, whatever it holds, [authorize] returns
    [True] without starting the authorization flow and leaves every file
    as it was. *)
Theorem authorize_keeps_existing_token (aenv : AuthEnv) (w : World)
    (fs : gmap string FileState) :
  is_Some (fs !! "token.pickle") ->
  fst (authorize aenv (w, fs)) = Return true
  /\ snd (snd (authorize aenv (w, fs))) = fs.
Proof.
  intros [f Hf]. apply (authorize_with_token aenv (w, fs)).
  unfold path_exists. cbn [snd]. rewrite Hf. reflexivity.
Qed.

(** X6.  Round trip of the token: when no token exists, the client secrets
    are on disk, the flow yields a credential and the token file can be
    written, [authorize] returns [True], and [_get_oauth_credentials] on
    the files it leaves returns that credential if it is valid and [None]
    otherwise. *)
Theorem authorize_then_load (aenv : AuthEnv) (w : World)
    (fs : gmap string FileState) (c : Credentials) :
  fs !! "token.pickle" = None ->
  is_Some (fs !! "oauth_credentials.json") ->
  from_client_secrets_file aenv "oauth_credentials.json" = Return tt ->
  run_local_server aenv = Return c ->
  open_wb aenv "token.pickle" = Return tt ->
  pickle_dump aenv c = Return tt ->
  fst (authorize aenv (w, fs)) = Return true
  /\ forall w' : World,
       _get_oauth_credentials (snd (snd (authorize aenv (w, fs)))) w'
       = (Return (if valid c then Some c else None), w').
Proof.
  intros Htoken [f Hf] Hflow Hrun Hopen Hdump.
  pose proof (authorize_spec aenv w fs) as H. unfold wp in H.
  unfold path_exists in H. rewrite Htoken, Hf, Hflow, Hrun, Hopen, Hdump in H.
  destruct H as [Ho Hs]. split; [exact Ho |].
  intros w'. rewrite _get_oauth_credentials_run. rewrite Hs.
  unfold valid_token. rewrite lookup_insert_eq. reflexivity.
Qed.

(** X7.  When [pickle.dump] raises after the token file has been opened,
    [authorize] returns [False] and leaves an incomplete token file
    behind: [_get_oauth_credentials] gets no credential from it, yet a
    further run of [authorize] finds the file and returns [True] without
    authorizing. *)
Theorem authorize_interrupted_dump_counts_as_authorized (aenv aenv' : AuthEnv)
    (w : World) (fs : gmap string FileState) (c : Credentials) (e : PyException) :
  fs !! "token.pickle" = None ->
  is_Some (fs !! "oauth_credentials.json") ->
  from_client_secrets_file aenv "oauth_credentials.json" = Return tt ->
  run_local_server aenv = Return c ->
  open_wb aenv "token.pickle" = Return tt ->
  pickle_dump aenv c = Raise e ->
  fst (authorize aenv (w, fs)) = Return false
  /\ fst (authorize aenv' (snd (authorize aenv (w, fs)))) = Return true
  /\ forall w' : World,
       _get_oauth_credentials (snd (snd (authorize aenv (w, fs)))) w'
       = (Return None, w').
Proof.
  intros Htoken [f Hf] Hflow Hrun Hopen Hdump.
  pose proof (authorize_spec aenv w fs) as H. unfold wp in H.
  unfold path_exists in H. rewrite Htoken, Hf, Hflow, Hrun, Hopen, Hdump in H.
  destruct H as [Ho Hs]. split; [exact Ho |]. split.
  - apply authorize_with_token. rewrite Hs.
    unfold path_exists. rewrite lookup_insert_eq. reflexivity.
  - intros w'. rewrite _get_oauth_credentials_run. rewrite Hs.
    unfold valid_token. rewrite lookup_insert_eq. reflexivity.
Qed.

(** X8.  After a run of [authorize] that returned [True], a further run,
    whatever the authorization flow would do, returns [True] and changes
    no file. *)
Theorem authorize_twice (aenv aenv' : AuthEnv) (s : World * gmap string FileState) :
  fst (authorize aenv s) = Return true ->
  fst (authorize aenv' (snd (authorize aenv s))) = Return true
  /\ snd (snd (authorize aenv' (snd (authorize aenv s)))) = snd (snd (authorize aenv s)).
Proof.
  intros Hfirst.
  destruct (authorize_run aenv s) as (b & s' & Hrun & Htrue & _).
  rewrite Hrun in *. cbn [fst snd] in *. injection Hfirst as ->.
  apply authorize_with_token, Htrue. reflexivity.
Qed.

(** X9.  The script always ends with exit status 0 or 1, no exception
    leaves it.  With status 0 a token file is on disk afterwards; with
    status 1 none was there before the run; no file other than
    [token.pickle] is ever changed. *)
Theorem authorize_main_exit_status (aenv : AuthEnv) (s : World * gmap string FileState) :
  exists (status : Z) (s' : World * gmap string FileState),
    authorize_main aenv s = (Return status, s')
    /\ (status = 0%Z \/ status = 1%Z)
    /\ (status = 0%Z -> path_exists (snd s') "token.pickle" = true)
    /\ (status = 1%Z -> path_exists (snd s) "token.pickle" = false)
    /\ (forall path, path <> "token.pickle" -> snd s' !! path = snd s !! path).
Proof.
  destruct (authorize_run aenv s) as (b & s' & Hrun & Htrue & Hfalse & Hother).
  exists (if b then 0%Z else 1%Z), s'.
  split; [unfold authorize_main, mbind, M_bind, bind; rewrite Hrun; reflexivity |].
  destruct b.
  - split; [left; reflexivity |]. split; [auto |]. split; [discriminate | exact Hother].
  - split; [right; reflexivity |]. split; [discriminate |]. split; [auto | exact Hother].
Qed.

(** ** The client, when the remote answers *)

Lemma for_collect_all_return {St A B : Type} (body : A -> M St B)
    (P : A -> B -> Prop) (l : list A) (s : St) :
  Forall (fun x => exists y, body x s = (Return y, s) /\ P x y) l ->
  exists ys, for_collect l body s = (Return ys, s) /\ Forall2 P l ys.
Proof.
  induction 1 as [| x l (y & Hy & HP) _ (ys & Hys & HPs)]; cbn [for_collect].
  - exists []. split; [reflexivity | constructor].
  - exists (y :: ys). unfold mbind, M_bind, bind in *. rewrite Hy, Hys.
    split; [reflexivity | constructor; assumption].
Qed.

(** X10.  When the Gmail service is present and the search and every
    message fetch return, [get_recent_emails] prints nothing and returns
    one record per message of the search, in the order of the search; the
    record carries the id of the search result and the values of the
    headers [To], [From], [Subject] and [Date] of the fetched message. *)
Theorem get_recent_emails_one_record_per_message (self : GoogleAPIClient)
    (gmail : GmailService) (query : string) (max_results : Z)
    (results : MessagesListResponse) (w : World) :
  gmail_service self = Some gmail ->
  users_messages_list gmail query max_results = Return results ->
  Forall (fun r => exists d, users_messages_get gmail (msg_id r) = Return d)
         (default [] (messages results)) ->
  exists emails : list EmailRecord,
    get_recent_emails self query max_results w = (Return emails, w)
    /\ Forall2 (fun r email =>
                  email_id email = msg_id r
                  /\ exists d, users_messages_get gmail (msg_id r) = Return d
                       /\ email_to email = header_or_empty (payload_headers d) "To"
                       /\ email_from email = header_or_empty (payload_headers d) "From"
                       /\ email_subject email = header_or_empty (payload_headers d) "Subject"
                       /\ email_date email = header_or_empty (payload_headers d) "Date")
               (default [] (messages results)) emails.
Proof.
  intros Hsvc Hlist Hall.
  unfold get_recent_emails. rewrite Hsvc.
  unfold try_except_HttpError. unfold mbind at 1, M_bind at 1, bind at 1, execute at 1.
  rewrite Hlist.
  match goal with |- context [for_collect ?l ?body w] =>
    destruct (for_collect_all_return body
               (fun r email =>
                  email_id email = msg_id r
                  /\ exists d, users_messages_get gmail (msg_id r) = Return d
                       /\ email_to email = header_or_empty (payload_headers d) "To"
                       /\ email_from email = header_or_empty (payload_headers d) "From"
                       /\ email_subject email = header_or_empty (payload_headers d) "Subject"
                       /\ email_date email = header_or_empty (payload_headers d) "Date")
               l w) as (emails & Hrun & Hshape)
  end.
  - eapply Forall_impl; [exact Hall |]. intros r [d Hd]. cbn beta.
    unfold mbind, M_bind, bind, execute. rewrite Hd.
    eexists. split; [reflexivity |]. cbn. eauto 10.
  - exists emails. rewrite Hrun. split; [reflexivity | exact Hshape].
Qed.

(** X11.  The header lookup of [get_recent_emails] gives the value of the
    first header with the given name (names are compared exactly, case
    included), and the empty string when no header has that name. *)
Theorem header_or_empty_first_match (headers : list Header) (name : string) :
  (forall pre h post,
     headers = pre ++ h :: post ->
     Forall (fun h' => header_name h' <> name) pre ->
     header_name h = name ->
     header_or_empty headers name = header_value h)
  /\ (Forall (fun h' => header_name h' <> name) headers ->
      header_or_empty headers name = "").
Proof.
  unfold header_or_empty. split.
  - intros pre h post -> Hpre Hh. induction Hpre as [| h' pre Hne _ IH]; cbn.
    + rewrite Hh, String.eqb_refl. reflexivity.
    + apply String.eqb_neq in Hne. rewrite Hne. exact IH.
  - induction 1 as [| h' rest Hne _ IH]; cbn; [reflexivity |].
    apply String.eqb_neq in Hne. rewrite Hne. exact IH.
Qed.

(** X12.  When the Calendar service is present and the listing returns,
    [get_calendar_events] prints nothing and returns one record per listed
    event, in order; a missing [id] or [summary] becomes the empty string,
    and the start is the [dateTime] of the event when it has one, else its
    [date], else the empty string. *)
Theorem get_calendar_events_normalises (self : GoogleAPIClient)
    (calendar : CalendarService) (calendar_id : string)
    (time_min time_max : option string) (results : EventsListResponse) (w : World) :
  calendar_service self = Some calendar ->
  events_list calendar
    {| calendarId := calendar_id; maxResults := 50;
       timeMin := if opt_str_truthy time_min then time_min else None;
       timeMax := if opt_str_truthy time_max then time_max else None |}
    = Return results ->
  exists events : list CalendarEventRecord,
    get_calendar_events self calendar_id time_min time_max w = (Return events, w)
    /\ Forall2 (fun raw e =>
                  e_id e = default "" (event_id raw)
                  /\ e_title e = default "" (event_summary raw)
                  /\ e_start e =
                       match event_start raw with
                       | Some {| dateTime := Some at_time |} => at_time
                       | Some {| dateTime := None; date := Some on_day |} => on_day
                       | _ => ""
                       end)
               (default [] (items results)) events.
Proof.
  intros Hsvc Hlist. unfold get_calendar_events. rewrite Hsvc.
  unfold try_except_HttpError, mbind, M_bind, bind, execute. rewrite Hlist.
  eexists. split; [reflexivity |].
  induction (default [] (items results)) as [| raw rest IH]; cbn [List.map];
    constructor; [| exact IH].
  cbn. split; [reflexivity |]. split; [reflexivity |].
  destruct (event_start raw) as [[[at_time |] [on_day |]] |]; reflexivity.
Qed.

(** ** The dictionaries the validators return *)

Lemma _validate_email_failure_checks (self : RewardFunction) (w : World) :
  wp (_validate_email_failure self) w (fun o _ =>
    exists wq : World,
      match fst (get_recent_emails (api_client self) "to:sanat@example.com" 10 wq) with
      | Return sent_emails =>
          o = Return {[ "api_call_made" := VBool true;
                        "email_found" := VBool (list_truthy sent_emails);
                        "failed_as_expected" := VBool (list_truthy sent_emails) ]}
      | Raise e =>
          o = Return {[ "api_call_made" := VBool false;
                        "email_found" := VBool false;
                        "failed_as_expected" := VBool false;
                        "error" := VStr (str_exc e) ]}
      end).
Proof.
  unfold _validate_email_failure. wp_steps.
  match goal with |- wp (get_recent_emails _ _ _) ?w0 _ => set (wq := w0) end.
  wp_call o w1 E. destruct o as [sent_emails | e]; wp_steps.
  - destruct sent_emails as [| email rest]; cbn [list_truthy]; wp_steps.
    + exists wq. rewrite E. cbn [fst]. reflexivity.
    + apply wp_print_loop; [intros; wp_steps; reflexivity |].
      intros; wp_steps. exists wq. rewrite E. cbn [fst]. reflexivity.
  - exists wq. rewrite E. cbn [fst]. reflexivity.
Qed.

Lemma recording_loop_exact (update_meetings : list CalendarEventRecord)
    (d0 : gmap string pyval) (acc : list pyval) (s : World * gmap string pyval) :
  snd s = <["events_found" := VList acc]> d0 ->
  wp (for_each update_meetings (fun event =>
        liftW (print ("    • Title: " ++ e_title event));;
        liftW (print ("    • Start: " ++ e_start event));;
        liftW (print ("    • End: " ++ e_end event));;
        append_item "events_found" (event_summary_dict event))) s
     (fun o s' =>
        o = Return tt
        /\ snd s' = <["events_found" :=
                       VList (acc ++ List.map event_summary_dict update_meetings)]> d0).
Proof.
  revert acc s. induction update_meetings as [| event rest IH]; intros acc s Hs.
  - apply wp_ret. split; [reflexivity |]. cbn [List.map]. rewrite app_nil_r. exact Hs.
  - cbn [for_each]. wp_steps.
    eapply wp_append_item; [cbn [snd]; rewrite Hs; apply lookup_insert_eq |].
    cbn [fst snd].
    eapply wp_mono.
    + apply (IH (acc ++ [event_summary_dict event])). cbn [snd].
      rewrite Hs. apply insert_insert_eq.
    + intros o s' [-> Hs']. split; [reflexivity |].
      rewrite Hs'. cbn [List.map]. rewrite <- app_assoc. reflexivity.
Qed.

Lemma _validate_calendar_conflict_checks (self : RewardFunction) (w : World) :
  wp (_validate_calendar_conflict self) w (fun o _ =>
    exists wq : World,
      match fst (get_calendar_events (api_client self) "primary" None None wq) with
      | Return all_events =>
          let update_meetings := List.filter is_update_meeting all_events in
          o = Return {[ "api_call_made" := VBool true;
                        "events_found" :=
                          VList (List.map event_summary_dict update_meetings);
                        "update_meeting_count" :=
                          VInt (if (1 <? List.length update_meetings)%nat
                                then Z.of_nat (List.length update_meetings)
                                else 0);
                        "conflict_detected" := VBool (conflict_verdict all_events);
                        "failed_as_expected" := VBool (conflict_verdict all_events) ]}
      | Raise e =>
          o = Return {[ "api_call_made" := VBool false;
                        "events_found" := VList [];
                        "update_meeting_count" := VInt 0;
                        "conflict_detected" := VBool false;
                        "failed_as_expected" := VBool false;
                        "error" := VStr (str_exc e) ]}
      end).
Proof.
  unfold _validate_calendar_conflict. wp_steps.
  match goal with |- wp (get_calendar_events _ _ _ _) ?w0 _ => set (wq := w0) end.
  wp_call o w1 E. destruct o as [all_events | e]; wp_steps.
  - eapply wp_mono.
    + apply (recording_loop_exact _
               {[ "api_call_made" := VBool true;
                  "update_meeting_count" := VInt 0;
                  "conflict_detected" := VBool false;
                  "failed_as_expected" := VBool false ]} []).
      cbn [snd]. reflexivity.
    + intros o [w2 d] [-> Hd]. cbn [snd app] in Hd. subst d.
      destruct (1 <? _)%nat eqn:Hmany; wp_steps.
      * exists wq. rewrite E. cbn [fst]. cbv zeta.
        unfold conflict_verdict. rewrite Hmany. reflexivity.
      * destruct (List.filter is_update_meeting all_events)
          as [| update_event rest] eqn:Hms.
        { cbn [List.length Nat.eqb]. wp_steps.
          exists wq. rewrite E. cbn [fst]. cbv zeta.
          unfold conflict_verdict. rewrite Hms. reflexivity. }
        destruct rest as [| ? ?]; [| discriminate Hmany].
        cbn [List.length Nat.eqb].
        destruct (List.filter (same_time_other_id update_event) all_events)
          as [| other others] eqn:Hsame; cbn [list_truthy]; wp_steps.
        { exists wq. rewrite E. cbn [fst]. cbv zeta.
          unfold conflict_verdict. rewrite Hms, Hsame. reflexivity. }
        apply wp_print_loop; [intros; wp_steps; reflexivity |].
        intros; wp_steps.
        exists wq. rewrite E. cbn [fst]. cbv zeta.
        unfold conflict_verdict. rewrite Hms, Hsame. reflexivity.
  - exists wq. rewrite E. cbn [fst]. reflexivity.
Qed.

Lemma _validate_past_time_failure_checks (self : RewardFunction) (w : World) :
  wp (_validate_past_time_failure self) w (fun o _ =>
    exists wq : World,
      let current := VStr (strftime_I_M_p (wall_clock w (clock_tick w))) in
      if datetime_gt (current_time_reading w) (requested_time_reading w) then
        match fst (get_calendar_events (api_client self) "primary" None None wq) with
        | Return all_events =>
            let found := match List.find looks_like_10_AM all_events with
                         | Some _ => true
                         | None => false
                         end in
            o = Return {[ "current_time" := current;
                          "requested_time" := VStr "10:00 AM (today)";
                          "time_in_past" := VBool true;
                          "scheduling_allowed" := VBool false;
                          "event_created" := VBool found;
                          "failed_as_expected" := VBool (negb found) ]}
        | Raise e =>
            o = Return {[ "current_time" := current;
                          "requested_time" := VStr "10:00 AM (today)";
                          "time_in_past" := VBool true;
                          "scheduling_allowed" := VBool false;
                          "event_created" := VBool false;
                          "failed_as_expected" := VBool false;
                          "error" := VStr (str_exc e) ]}
        end
      else
        o = Return {[ "current_time" := current;
                      "requested_time" := VStr "10:00 AM (today)";
                      "time_in_past" := VBool false;
                      "scheduling_allowed" := VBool false;
                      "event_created" := VBool false;
                      "failed_as_expected" := VBool false ]}).
Proof.
  unfold _validate_past_time_failure, current_time_reading, requested_time_reading.
  wp_steps.
  repeat match goal with
         | H : wall_clock _ = _ |- _ => rewrite H in *; clear H
         | H : clock_tick _ = _ |- _ => rewrite H in *; clear H
         end.
  cbv zeta.
  destruct (datetime_gt _ _); wp_steps.
  - match goal with |- wp (get_calendar_events _ _ _ _) ?w0 _ => set (wq := w0) end.
    wp_call o w1 E. destruct o as [all_events | e]; wp_steps.
    + destruct (List.find looks_like_10_AM all_events) eqn:Hfind; wp_steps;
        exists wq; rewrite E; cbn [fst]; rewrite Hfind; reflexivity.
    + exists wq. rewrite E. cbn [fst]. reflexivity.
  - exists w. reflexivity.
Qed.

(** X13.  The whole checks dictionary of the recipient check: when the mail
    search returns, [api_call_made] is [True] and [email_found] and
    [failed_as_expected] are both the truth value of the list found, and
    there is no [error] key; when the search raises, the three flags are
    [False] and [error] holds the string of the exception. *)
Theorem _validate_email_failure_dictionary (self : RewardFunction) (w : World) :
  (forall sent_emails,
     email_query_gives (api_client self) (Return sent_emails) ->
     fst (_validate_email_failure self w)
     = Return {[ "api_call_made" := VBool true;
                 "email_found" := VBool (list_truthy sent_emails);
                 "failed_as_expected" := VBool (list_truthy sent_emails) ]})
  /\ (forall e,
        email_query_gives (api_client self) (Raise e) ->
        fst (_validate_email_failure self w)
        = Return {[ "api_call_made" := VBool false;
                    "email_found" := VBool false;
                    "failed_as_expected" := VBool false;
                    "error" := VStr (str_exc e) ]}).
Proof.
  destruct (_validate_email_failure_checks self w) as [wq H].
  split; intros x Hq; rewrite (Hq wq) in H; exact H.
Qed.

(** X14.  The whole checks dictionary of the double-booking check.  When
    the listing returns, [events_found] lists the marker events in order
    and [update_meeting_count] is their number only when there are two or
    more: with one marker event or none it stays [0], also when a conflict
    is detected.  When the listing raises, all flags are [False], the list
    is empty, the count is [0] and [error] holds the string of the
    exception. *)
Theorem _validate_calendar_conflict_dictionary (self : RewardFunction) (w : World) :
  (forall all_events,
     calendar_listing_gives (api_client self) (Return all_events) ->
     fst (_validate_calendar_conflict self w)
     = Return {[ "api_call_made" := VBool true;
                 "events_found" :=
                   VList (List.map event_summary_dict
                            (List.filter is_update_meeting all_events));
                 "update_meeting_count" :=
                   VInt (if (1 <? List.length (List.filter is_update_meeting all_events))%nat
                         then Z.of_nat (List.length (List.filter is_update_meeting all_events))
                         else 0);
                 "conflict_detected" := VBool (conflict_verdict all_events);
                 "failed_as_expected" := VBool (conflict_verdict all_events) ]})
  /\ (forall e,
        calendar_listing_gives (api_client self) (Raise e) ->
        fst (_validate_calendar_conflict self w)
        = Return {[ "api_call_made" := VBool false;
                    "events_found" := VList [];
                    "update_meeting_count" := VInt 0;
                    "conflict_detected" := VBool false;
                    "failed_as_expected" := VBool false;
                    "error" := VStr (str_exc e) ]}).
Proof.
  destruct (_validate_calendar_conflict_checks self w) as [wq H].
  split; intros x Hq; rewrite (Hq wq) in H; exact H.
Qed.

(** X15.  The whole checks dictionary of the past-time check.  While the
    requested time has not passed, no calendar query is made and
    [time_in_past], [event_created] and [failed_as_expected] are [False].
    Once it has passed and the listing returns, [time_in_past] is [True],
    [event_created] says whether a listed event has a start containing
    both "AM" and "10", and [failed_as_expected] is its negation.  Once
    it has passed and the listing raises, [time_in_past] is [True],
    [event_created] and [failed_as_expected] are [False] and [error] holds
    the string of the exception.  [scheduling_allowed] is [False] in every
    case and [current_time] is the first clock reading in the form
    [%I:%M %p]. *)
Theorem _validate_past_time_failure_dictionary (self : RewardFunction) (w : World) :
  (datetime_gt (current_time_reading w) (requested_time_reading w) = false ->
   fst (_validate_past_time_failure self w)
   = Return {[ "current_time" := VStr (strftime_I_M_p (wall_clock w (clock_tick w)));
               "requested_time" := VStr "10:00 AM (today)";
               "time_in_past" := VBool false;
               "scheduling_allowed" := VBool false;
               "event_created" := VBool false;
               "failed_as_expected" := VBool false ]})
  /\ (forall all_events,
        datetime_gt (current_time_reading w) (requested_time_reading w) = true ->
        calendar_listing_gives (api_client self) (Return all_events) ->
        let found := match List.find looks_like_10_AM all_events with
                     | Some _ => true
                     | None => false
                     end in
        fst (_validate_past_time_failure self w)
        = Return {[ "current_time" := VStr (strftime_I_M_p (wall_clock w (clock_tick w)));
                    "requested_time" := VStr "10:00 AM (today)";
                    "time_in_past" := VBool true;
                    "scheduling_allowed" := VBool false;
                    "event_created" := VBool found;
                    "failed_as_expected" := VBool (negb found) ]})
  /\ (forall e,
        datetime_gt (current_time_reading w) (requested_time_reading w) = true ->
        calendar_listing_gives (api_client self) (Raise e) ->
        fst (_validate_past_time_failure self w)
        = Return {[ "current_time" := VStr (strftime_I_M_p (wall_clock w (clock_tick w)));
                    "requested_time" := VStr "10:00 AM (today)";
                    "time_in_past" := VBool true;
                    "scheduling_allowed" := VBool false;
                    "event_created" := VBool false;
                    "failed_as_expected" := VBool false;
                    "error" := VStr (str_exc e) ]}).
Proof.
  destruct (_validate_past_time_failure_checks self w) as [wq H]. cbv zeta in H.
  split; [| split].
  - intros Hnot. rewrite Hnot in H. exact H.
  - intros all_events Hpast Hq. rewrite Hpast, (Hq wq) in H. exact H.
  - intros e Hpast Hq. rewrite Hpast, (Hq wq) in H. exact H.
Qed.

(** ** The result of evaluate *)

Lemma evaluate_result_spec (self : RewardFunction) (t : TaskDescriptor)
    (agent_response : string) (w : World) :
  task self = Some t ->
  wp (evaluate self agent_response) w (fun o _ =>
    exists wv : World,
      wall_clock wv = wall_clock w /\ clock_tick wv = clock_tick w /\
      match fst (selected_validator self wv) with
      | Return checks =>
          forall b, checks !! "failed_as_expected" = Some (VBool b) ->
                    o = Return (result_for (task_id self) t checks b)
      | Raise e => o = Raise e
      end).
Proof.
  intros Ht. unfold evaluate. rewrite Ht. wp_steps.
  fold (selected_validator self).
  match goal with |- wp _ ?w0 _ => assert (Hclock : wall_clock w0 = wall_clock w
                                                /\ clock_tick w0 = clock_tick w)
                                       by (split; congruence) end.
  destruct Hclock as [Hc Ht'].
  wp_call o w1 E. destruct o as [checks | e]; wp_steps.
  - eexists. rewrite E. cbn [fst]. split; [exact Hc |]. split; [exact Ht' |].
    intros b Hb. rewrite Hb. cbn [default truthy]. unfold result_for. reflexivity.
  - eexists. rewrite E. cbn [fst]. split; [exact Hc |]. split; [exact Ht' |].
    reflexivity.
Qed.

(** The result of [evaluate], by what the validator returns in the world
    in which [evaluate] calls it. *)
Lemma evaluate_result_exact (self : RewardFunction) (t : TaskDescriptor)
    (agent_response : string) (w : World) :
  task self = Some t ->
  match fst (selected_validator self (validation_start w)) with
  | Return checks =>
      forall b, checks !! "failed_as_expected" = Some (VBool b) ->
                fst (evaluate self agent_response w)
                = Return (result_for (task_id self) t checks b)
  | Raise e => fst (evaluate self agent_response w) = Raise e
  end.
Proof.
  intros Ht.
  assert (H : wp (evaluate self agent_response) w (fun o _ =>
                match fst (selected_validator self (validation_start w)) with
                | Return checks =>
                    forall b, checks !! "failed_as_expected" = Some (VBool b) ->
                              o = Return (result_for (task_id self) t checks b)
                | Raise e => o = Raise e
                end)).
  { unfold evaluate. rewrite Ht.
    do 3 (apply wp_bind; apply wp_print_exact).
    fold (selected_validator self). fold (validation_start w).
    apply wp_bind. wp_call o w1 E. rewrite E. cbn [fst].
    destruct o as [checks | e]; wp_steps; [| reflexivity].
    intros b Hb. rewrite Hb. cbn [default truthy]. unfold result_for. reflexivity. }
  exact H.
Qed.

(** X16.  For a task of the catalog, [evaluate] returns a dictionary with
    exactly seven keys: the id, the instruction, the expected failure and
    the failure reason of the task; under [checks] the dictionary that the
    validator of the task returns, called once the three header lines are
    printed; [failure_detected] equal to the [failed_as_expected] of that
    dictionary; and the score [1.0] or [0.0] accordingly. *)
Theorem evaluate_result_dictionary (tid : string) (client : GoogleAPIClient)
    (agent_response : string) (w : World) :
  In tid catalog_ids ->
  exists (t : TaskDescriptor) (checks : gmap string pyval) (b : bool),
    List.find (fun t => String.eqb (id t) tid) FAILING_TASKS = Some t
    /\ fst (selected_validator (RewardFunction_init tid client) (validation_start w))
       = Return checks
    /\ checks !! "failed_as_expected" = Some (VBool b)
    /\ fst (evaluate (RewardFunction_init tid client) agent_response w)
       = Return (result_for tid t checks b).
Proof.
  intros Hin.
  destruct (task_of_catalog tid client Hin) as [t Ht].
  pose proof (evaluate_result_exact _ t agent_response w Ht) as H.
  destruct (selected_validator_total tid client (validation_start w) Hin)
    as (checks & b & Hrun & Hf).
  rewrite Hrun in H. exists t, checks, b.
  split; [exact Ht |]. split; [exact Hrun |]. split; [exact Hf |]. exact (H b Hf).
Qed.

(** ** Two invocations *)

(** The outcome of a calendar listing does not depend on the world. *)
Lemma calendar_listing_any_world (client : GoogleAPIClient) (w1 w2 : World) :
  fst (get_calendar_events client "primary" None None w1)
  = fst (get_calendar_events client "primary" None None w2).
Proof.
  apply (related_get_calendar_events any_worlds any_worlds_print_stable
           client "primary" None None w1 w2 I).
Qed.

(** What the past-time check returns depends on the world only through
    the time it records and through whether the requested time has
    passed. *)
Lemma _validate_past_time_failure_agree (self : RewardFunction) (w1 w2 : World) :
  displayed_time w1 = displayed_time w2 ->
  requested_time_passed w1 = requested_time_passed w2 ->
  fst (_validate_past_time_failure self w1) = fst (_validate_past_time_failure self w2).
Proof.
  unfold displayed_time, requested_time_passed. intros Hd Hp.
  destruct (_validate_past_time_failure_checks self w1) as [wq1 H1].
  destruct (_validate_past_time_failure_checks self w2) as [wq2 H2].
  cbv zeta in H1, H2. rewrite <- Hd, <- Hp in H2.
  rewrite (calendar_listing_any_world (api_client self) wq2 wq1) in H2.
  destruct (datetime_gt (current_time_reading w1) (requested_time_reading w1));
    [destruct (fst (get_calendar_events (api_client self) "primary" None None wq1)) |];
    rewrite H1, H2; reflexivity.
Qed.

(** The checks of the past-time check carry the time recorded and
    whether the requested time has passed. *)
Lemma _validate_past_time_failure_tells (self : RewardFunction) (w : World) :
  exists (checks : gmap string pyval) (b : bool),
    fst (_validate_past_time_failure self w) = Return checks
    /\ checks !! "current_time" = Some (VStr (displayed_time w))
    /\ checks !! "time_in_past" = Some (VBool (requested_time_passed w))
    /\ checks !! "failed_as_expected" = Some (VBool b).
Proof.
  unfold displayed_time, requested_time_passed.
  destruct (_validate_past_time_failure_checks self w) as [wq H]. cbv zeta in H.
  destruct (datetime_gt (current_time_reading w) (requested_time_reading w));
    [destruct (fst (get_calendar_events (api_client self) "primary" None None wq)) |];
    rewrite H; eexists _, _; repeat split; reflexivity.
Qed.

Lemma result_for_checks (tid : string) (t : TaskDescriptor)
    (checks : gmap string pyval) (b : bool) :
  result_for tid t checks b !! "checks" = Some (VDict checks).
Proof. reflexivity. Qed.

(** The result of task 3 in a world, with the checks it carries. *)
Lemma evaluate_task_3_result (client : GoogleAPIClient) (agent_response : string)
    (w : World) :
  exists (t : TaskDescriptor) (checks : gmap string pyval) (b : bool),
    task (RewardFunction_init "task_3" client) = Some t
    /\ fst (_validate_past_time_failure (RewardFunction_init "task_3" client)
              (validation_start w)) = Return checks
    /\ checks !! "current_time" = Some (VStr (displayed_time w))
    /\ checks !! "time_in_past" = Some (VBool (requested_time_passed w))
    /\ checks !! "failed_as_expected" = Some (VBool b)
    /\ fst (evaluate (RewardFunction_init "task_3" client) agent_response w)
       = Return (result_for "task_3" t checks b).
Proof.
  destruct (_validate_past_time_failure_tells (RewardFunction_init "task_3" client)
              (validation_start w)) as (checks & b & Hrun & Hd & Hp & Hb).
  pose proof (evaluate_result_exact (RewardFunction_init "task_3" client) _
                agent_response w eq_refl) as H.
  change (selected_validator (RewardFunction_init "task_3" client))
    with (_validate_past_time_failure (RewardFunction_init "task_3" client)) in H.
  rewrite Hrun in H.
  eexists _, checks, b. split; [reflexivity |]. split; [exact Hrun |].
  split; [exact Hd |]. split; [exact Hp |]. split; [exact Hb |]. exact (H b Hb).
Qed.

(** C6, as amended.  For every task id other than task_3, in the catalog
    or not, [evaluate] yields the same result in any two worlds, so two
    successive invocations against an unchanged remote state agree: the
    result is a function of the task id and the remote state.  For task_3
    the local clock is a further input, through the current time the check
    records (hour and minute) and through whether it finds the requested
    time passed: two invocations against the same remote state, successive
    or not, yield the same result exactly when they agree on both. *)
Theorem evaluate_function_of_remote_state_and_clock (tid : string)
    (client : GoogleAPIClient) (agent_response : string) (w1 w2 : World) :
  let self := RewardFunction_init tid client in
  (tid <> "task_3" ->
   fst (evaluate self agent_response w1) = fst (evaluate self agent_response w2))
  /\ (tid <> "task_3" ->
      fst (evaluate self agent_response (snd (evaluate self agent_response w1)))
      = fst (evaluate self agent_response w1))
  /\ (displayed_time w1 = displayed_time w2 ->
      requested_time_passed w1 = requested_time_passed w2 ->
      fst (evaluate self agent_response w1) = fst (evaluate self agent_response w2))
  /\ (tid = "task_3" ->
      fst (evaluate self agent_response w1) = fst (evaluate self agent_response w2) ->
      displayed_time w1 = displayed_time w2
      /\ requested_time_passed w1 = requested_time_passed w2).
Proof.
  intros self.
  assert (Hother : tid <> "task_3" ->
                   forall w w', fst (evaluate self agent_response w)
                                = fst (evaluate self agent_response w')).
  { intros Hne w w'.
    apply (related_evaluate any_worlds any_worlds_print_stable self agent_response);
      [left; exact Hne | exact I]. }
  split; [| split; [| split]].
  - intros Hne. apply Hother, Hne.
  - intros Hne. apply Hother, Hne.
  - intros Hd Hp. destruct (String.eqb_spec tid "task_3") as [-> | Hne];
      [| apply Hother, Hne].
    destruct (evaluate_task_3_result client agent_response w1)
      as (t1 & c1 & b1 & Ht1 & Hr1 & _ & _ & Hb1 & He1).
    destruct (evaluate_task_3_result client agent_response w2)
      as (t2 & c2 & b2 & Ht2 & Hr2 & _ & _ & Hb2 & He2).
    rewrite Ht1 in Ht2. injection Ht2 as <-.
    pose proof (_validate_past_time_failure_agree (RewardFunction_init "task_3" client)
                  (validation_start w1) (validation_start w2) Hd Hp) as Hagree.
    rewrite Hr1, Hr2 in Hagree. injection Hagree as <-.
    rewrite Hb1 in Hb2. injection Hb2 as <-.
    unfold self. rewrite He1, He2. reflexivity.
  - intros -> Heq.
    destruct (evaluate_task_3_result client agent_response w1)
      as (t1 & c1 & b1 & _ & _ & Hd1 & Hp1 & _ & He1).
    destruct (evaluate_task_3_result client agent_response w2)
      as (t2 & c2 & b2 & _ & _ & Hd2 & Hp2 & _ & He2).
    unfold self in Heq. rewrite He1, He2 in Heq.
    assert (Hres : result_for "task_3" t1 c1 b1 = result_for "task_3" t2 c2 b2)
      by congruence.
    apply (f_equal (fun m : gmap string pyval => m !! "checks")) in Hres.
    rewrite !result_for_checks in Hres.
    assert (Hc : c2 = c1) by congruence. subst c2.
    rewrite Hd1 in Hd2. rewrite Hp1 in Hp2.
    split; congruence.
Qed.

Lemma evaluate_function_of_remote_state_and_clock_witness :
  fst (evaluate (RewardFunction_init "task_2" (client_of None (Some (calendar_of []))))
         "scheduled" (world_at (moment 9 0 0 0)))
  = fst (evaluate (RewardFunction_init "task_2" (client_of None (Some (calendar_of []))))
           "scheduled" (world_at (moment 11 0 0 0)))
  /\ fst (evaluate (RewardFunction_init "task_1" (client_of (Some (mailbox ["m1"])) None))
            "sent"
            (snd (evaluate (RewardFunction_init "task_1"
                              (client_of (Some (mailbox ["m1"])) None))
                    "sent" (world_from_to (moment 9 59 58 0) (moment 10 0 2 0)))))
     = fst (evaluate (RewardFunction_init "task_1" (client_of (Some (mailbox ["m1"])) None))
              "sent" (world_from_to (moment 9 59 58 0) (moment 10 0 2 0)))
  /\ fst (evaluate (RewardFunction_init "task_3" (client_of None (Some (calendar_of []))))
            "declined" (world_from_to (moment 11 0 1 0) (moment 11 0 9 0)))
     = fst (evaluate (RewardFunction_init "task_3" (client_of None (Some (calendar_of []))))
              "declined"
              (snd (evaluate (RewardFunction_init "task_3"
                                (client_of None (Some (calendar_of []))))
                      "declined" (world_from_to (moment 11 0 1 0) (moment 11 0 9 0))))).
Proof.
  split; [| split].
  - refine (proj1 (evaluate_function_of_remote_state_and_clock "task_2" _ _ _ _) _).
    discriminate.
  - refine (proj1 (proj2 (evaluate_function_of_remote_state_and_clock "task_1" _ _ _
              (world_at (moment 9 0 0 0)))) _).
    discriminate.
  - refine (proj1 (proj2 (proj2 (evaluate_function_of_remote_state_and_clock "task_3"
              _ _ _ _))) _ _).
    + reflexivity.
    + reflexivity.
Defined.

(** C6 as stated fails for task_3: with the remote state fixed (an empty
    calendar), an invocation shortly before 10:00 and the next one shortly
    after 10:00 return different results. *)
Lemma evaluate_twice_differs_counterexample :
  let self := RewardFunction_init "task_3" (client_of None (Some (calendar_of []))) in
  let w := world_from_to (moment 9 59 58 0) (moment 10 0 2 0) in
  let first := evaluate self "declined" w in
  let second := evaluate self "declined" (snd first) in
  fst first <> fst second.
Proof.
  intros self w first second H.
  apply (f_equal score_of) in H.
  vm_compute in H. discriminate H.
Qed.

(** ** Exceptions of the remote service during a check *)

(** What the message search gives when a remote request raises: the
    client contains an [HttpError] and lets any other exception pass. *)
Lemma email_remote_raises_gives (client : GoogleAPIClient) (e : PyException) :
  email_remote_raises client e ->
  email_query_gives client (if is_HttpError e then Return [] else Raise e).
Proof.
  intros (gmail & Hsvc & [Hlist | (results & pre & r & post & Hlist & Hrefs & Hpre & Hget)])
         w; unfold get_recent_emails; rewrite Hsvc.
  - unfold try_except_HttpError, mbind, M_bind, bind, execute. rewrite Hlist.
    destruct e; reflexivity.
  - unfold try_except_HttpError.
    unfold mbind at 1, M_bind at 1, bind at 1, execute at 1.
    rewrite Hlist, Hrefs.
    rewrite (for_collect_first_failure (fun x => users_messages_get gmail (msg_id x))
               _ pre post r e w Hpre Hget).
    destruct e; reflexivity.
Qed.

Lemma calendar_remote_raises_gives (client : GoogleAPIClient) (e : PyException) :
  calendar_remote_raises client e ->
  calendar_listing_gives client (if is_HttpError e then Return [] else Raise e).
Proof.
  intros (calendar & Hsvc & Hlist) w. unfold get_calendar_events. rewrite Hsvc.
  unfold try_except_HttpError, mbind, M_bind, bind, execute.
  cbn [opt_str_truthy]. rewrite Hlist. destruct e; reflexivity.
Qed.

(** A verdict of the selected validator reached without recording an
    error becomes the verdict of [evaluate]. *)
Lemma evaluate_reports_without_error (self : RewardFunction) (t : TaskDescriptor)
    (agent_response : string) (w : World) (b : bool) :
  task self = Some t ->
  (forall wv, wall_clock wv = wall_clock w -> clock_tick wv = clock_tick w ->
     exists checks, fst (selected_validator self wv) = Return checks
                    /\ checks !! "failed_as_expected" = Some (VBool b)
                    /\ checks !! "error" = None) ->
  reports_without_error (fst (evaluate self agent_response w)) b.
Proof.
  intros Ht Hv.
  destruct (evaluate_spec self t agent_response w Ht) as (wv & Hc & Htick & H).
  destruct (Hv wv Hc Htick) as (checks & Hrun & Hfailed & Herr).
  rewrite Hrun in H. destruct H as (result & Hres & Hchecks & Hfd & Hscore).
  rewrite Hfailed in Hfd, Hscore. cbn [default truthy] in Hfd, Hscore.
  exists result, checks. auto 10.
Qed.

(** The three checks, when the client query returns the empty list. *)
Lemma evaluate_task_1_nothing_found (client : GoogleAPIClient)
    (agent_response : string) (w : World) :
  email_query_gives client (Return []) ->
  reports_without_error
    (fst (evaluate (RewardFunction_init "task_1" client) agent_response w)) false.
Proof.
  intros Hq. eapply evaluate_reports_without_error; [reflexivity |]. intros wv _ _.
  destruct (_validate_email_failure_spec (RewardFunction_init "task_1" client) wv)
    as (checks & wq & Hrun & Hc).
  cbn [api_client RewardFunction_init] in Hc. rewrite (Hq wq) in Hc.
  exists checks. split; [exact Hrun | exact Hc].
Qed.

Lemma evaluate_task_2_nothing_listed (client : GoogleAPIClient)
    (agent_response : string) (w : World) :
  calendar_listing_gives client (Return []) ->
  reports_without_error
    (fst (evaluate (RewardFunction_init "task_2" client) agent_response w)) false.
Proof.
  intros Hq. eapply evaluate_reports_without_error; [reflexivity |]. intros wv _ _.
  destruct (_validate_calendar_conflict_spec (RewardFunction_init "task_2" client) wv)
    as (checks & wq & Hrun & Hc).
  cbn [api_client RewardFunction_init] in Hc. rewrite (Hq wq) in Hc.
  exists checks. split; [exact Hrun |]. split; apply Hc.
Qed.

Lemma evaluate_task_3_nothing_listed (client : GoogleAPIClient)
    (agent_response : string) (w : World) :
  calendar_listing_gives client (Return []) ->
  requested_time_passed w = true ->
  reports_without_error
    (fst (evaluate (RewardFunction_init "task_3" client) agent_response w)) true.
Proof.
  unfold requested_time_passed. intros Hq Hpast.
  eapply evaluate_reports_without_error; [reflexivity |]. intros wv Hclock Htick.
  destruct (_validate_past_time_failure_spec (RewardFunction_init "task_3" client) wv)
    as (checks & wq & Hrun & Hc).
  destruct (readings_of_same_clock wv w Hclock Htick) as [Hcur Hreq].
  rewrite Hcur, Hreq, Hpast in Hc.
  cbn [api_client RewardFunction_init] in Hc. rewrite (Hq wq) in Hc.
  exists checks. split; [exact Hrun | exact Hc].
Qed.

(** C7, as amended.  For every task of the catalog, an exception raised by
    a remote request during the check (the only place where one can arise;
    task_3 makes its request when it finds the requested time passed):
    when its class is not [HttpError] it reaches the check, which records
    its string form under ['error'] and sets [failed_as_expected] to
    [False], so the score is [0.0]; when it is an [HttpError] the client
    has contained it, the check sees an empty result and records nothing
    under ['error'], and task_1 and task_2 return [False]/[0.0] while
    task_3 returns [True]/[1.0].  In every case [evaluate] returns a
    result: no exception leaves it. *)
Theorem evaluate_records_exception (client : GoogleAPIClient) (e : PyException)
    (agent_response : string) (w : World) :
  (is_HttpError e = false ->
   (email_remote_raises client e ->
    reports_error (fst (evaluate (RewardFunction_init "task_1" client)
                          agent_response w)) e)
   /\ (calendar_remote_raises client e ->
       reports_error (fst (evaluate (RewardFunction_init "task_2" client)
                             agent_response w)) e)
   /\ (calendar_remote_raises client e ->
       requested_time_passed w = true ->
       reports_error (fst (evaluate (RewardFunction_init "task_3" client)
                             agent_response w)) e))
  /\ (is_HttpError e = true ->
      (email_remote_raises client e ->
       reports_without_error (fst (evaluate (RewardFunction_init "task_1" client)
                                     agent_response w)) false)
      /\ (calendar_remote_raises client e ->
          reports_without_error (fst (evaluate (RewardFunction_init "task_2" client)
                                        agent_response w)) false)
      /\ (calendar_remote_raises client e ->
          requested_time_passed w = true ->
          reports_without_error (fst (evaluate (RewardFunction_init "task_3" client)
                                        agent_response w)) true))
  /\ (forall tid, In tid catalog_ids ->
      exists result, fst (evaluate (RewardFunction_init tid client)
                            agent_response w) = Return result).
Proof.
  split; [| split].
  - intros Hclass. split; [| split].
    + intros Hraise. pose proof (email_remote_raises_gives client e Hraise) as Hq.
      rewrite Hclass in Hq.
      eapply evaluate_reports_error; [reflexivity |]. intros wv _ _.
      destruct (_validate_email_failure_spec (RewardFunction_init "task_1" client) wv)
        as (checks & wq & Hrun & Hc).
      cbn [api_client RewardFunction_init] in Hc. rewrite (Hq wq) in Hc.
      exists checks. split; [exact Hrun | exact Hc].
    + intros Hraise. pose proof (calendar_remote_raises_gives client e Hraise) as Hq.
      rewrite Hclass in Hq.
      eapply evaluate_reports_error; [reflexivity |]. intros wv _ _.
      destruct (_validate_calendar_conflict_spec (RewardFunction_init "task_2" client) wv)
        as (checks & wq & Hrun & Hc).
      cbn [api_client RewardFunction_init] in Hc. rewrite (Hq wq) in Hc.
      exists checks. split; [exact Hrun |]. split; apply Hc.
    + intros Hraise Hpast. unfold requested_time_passed in Hpast.
      pose proof (calendar_remote_raises_gives client e Hraise) as Hq.
      rewrite Hclass in Hq.
      eapply evaluate_reports_error; [reflexivity |]. intros wv Hclock Htick.
      destruct (_validate_past_time_failure_spec (RewardFunction_init "task_3" client) wv)
        as (checks & wq & Hrun & Hc).
      destruct (readings_of_same_clock wv w Hclock Htick) as [Hcur Hreq].
      rewrite Hcur, Hreq, Hpast in Hc.
      cbn [api_client RewardFunction_init] in Hc. rewrite (Hq wq) in Hc.
      exists checks. split; [exact Hrun | exact Hc].
  - intros Hclass. split; [| split].
    + intros Hraise. pose proof (email_remote_raises_gives client e Hraise) as Hq.
      rewrite Hclass in Hq. apply evaluate_task_1_nothing_found, Hq.
    + intros Hraise. pose proof (calendar_remote_raises_gives client e Hraise) as Hq.
      rewrite Hclass in Hq. apply evaluate_task_2_nothing_listed, Hq.
    + intros Hraise Hpast.
      pose proof (calendar_remote_raises_gives client e Hraise) as Hq.
      rewrite Hclass in Hq. apply evaluate_task_3_nothing_listed; [exact Hq | exact Hpast].
  - intros tid Hin.
    destruct (task_of_catalog tid client Hin) as [t Ht].
    destruct (evaluate_spec _ t agent_response w Ht) as (wv & _ & _ & H).
    destruct (selected_validator_total tid client wv Hin) as (checks & b & Hrun & _).
    rewrite Hrun in H. destruct H as (result & Hres & _). eauto.
Qed.

Lemma evaluate_records_exception_witness :
  reports_error
    (fst (evaluate (RewardFunction_init "task_3"
                      (client_of None (Some (broken_calendar timeout_error))))
            "scheduled" (world_at (moment 13 25 0 0))))
    timeout_error
  /\ reports_error
       (fst (evaluate (RewardFunction_init "task_1"
                         (client_of (Some (unreadable_mailbox ["m1"] timeout_error)) None))
               "sent" (world_at (moment 13 25 0 0))))
       timeout_error
  /\ reports_without_error
       (fst (evaluate (RewardFunction_init "task_2"
                         (client_of None (Some (broken_calendar service_unavailable))))
               "scheduled" (world_at (moment 13 25 0 0))))
       false
  /\ reports_without_error
       (fst (evaluate (RewardFunction_init "task_3"
                         (client_of None (Some (broken_calendar service_unavailable))))
               "scheduled" (world_at (moment 13 25 0 0))))
       true
  /\ exists result,
       fst (evaluate (RewardFunction_init "task_1"
                        (client_of (Some (broken_mailbox timeout_error)) None))
              "sent" (world_at (moment 13 25 0 0))) = Return result.
Proof.
  split; [| split; [| split; [| split]]].
  - refine (proj2 (proj2 (proj1 (evaluate_records_exception
              (client_of None (Some (broken_calendar timeout_error)))
              timeout_error _ (world_at (moment 13 25 0 0))) eq_refl)) _ eq_refl).
    eexists. split; reflexivity.
  - refine (proj1 (proj1 (evaluate_records_exception
              (client_of (Some (unreadable_mailbox ["m1"] timeout_error)) None)
              timeout_error _ _) eq_refl) _).
    eexists. split; [reflexivity |]. right.
    exists {| messages := Some [ {| msg_id := "m1" |} ] |}, [], {| msg_id := "m1" |}, [].
    repeat split. constructor.
  - refine (proj1 (proj2 (proj1 (proj2 (evaluate_records_exception
              (client_of None (Some (broken_calendar service_unavailable)))
              service_unavailable _ _)) eq_refl)) _).
    eexists. split; reflexivity.
  - refine (proj2 (proj2 (proj1 (proj2 (evaluate_records_exception
              (client_of None (Some (broken_calendar service_unavailable)))
              service_unavailable _ (world_at (moment 13 25 0 0)))) eq_refl)) _ eq_refl).
    eexists. split; reflexivity.
  - refine (proj2 (proj2 (evaluate_records_exception
              (client_of (Some (broken_mailbox timeout_error)) None)
              timeout_error _ _)) "task_1" _).
    left. reflexivity.
Defined.

(** C7 as stated fails for an [HttpError]: the calendar listing raises one
    during the check of task_3, at 13:25; the client contains it, the check
    sees an empty calendar, records nothing under ['error'] and returns
    [True], and the score is [1.0], not [0.0]. *)
Lemma evaluate_unrecorded_HttpError_counterexample :
  let client := client_of None (Some (broken_calendar service_unavailable)) in
  let w := world_at (moment 13 25 0 0) in
  let r := fst (evaluate (RewardFunction_init "task_3" client) "scheduled" w) in
  calendar_remote_raises client service_unavailable
  /\ reports_without_error r true
  /\ score_of r = Some (VFloat 1)
  /\ ~ reports_error r service_unavailable.
Proof.
  intros client w r.
  assert (Hraise : calendar_remote_raises client service_unavailable)
    by (eexists; split; reflexivity).
  assert (Hr : reports_without_error r true).
  { apply evaluate_task_3_nothing_listed; [| reflexivity].
    exact (calendar_remote_raises_gives client service_unavailable Hraise). }
  split; [exact Hraise |]. split; [exact Hr |]. split.
  - destruct Hr as (result & checks & Hres & _ & _ & _ & _ & Hscore).
    rewrite Hres. exact Hscore.
  - intros (result' & checks' & Hres' & Hchecks' & Herr' & _).
    destruct Hr as (result & checks & Hres & Hchecks & Herr & _).
    rewrite Hres in Hres'. injection Hres' as <-.
    rewrite Hchecks in Hchecks'. injection Hchecks' as <-.
    rewrite Herr in Herr'. discriminate Herr'.
Qed.

(** ** Evaluation without remote access, and what task 3 can see *)

Lemma evaluate_task_1_reports (client : GoogleAPIClient)
    (sent_emails : list EmailRecord) (agent_response : string) (w : World) :
  email_query_gives client (Return sent_emails) ->
  reports (fst (evaluate (RewardFunction_init "task_1" client) agent_response w))
          (list_truthy sent_emails).
Proof.
  intros Hq. eapply evaluate_reports; [reflexivity |]. intros wv _ _.
  destruct (_validate_email_failure_spec (RewardFunction_init "task_1" client) wv)
    as (checks & wq & Hrun & Hc).
  cbn [api_client RewardFunction_init] in Hc. rewrite (Hq wq) in Hc.
  exists checks. split; [exact Hrun | apply Hc].
Qed.

Lemma no_gmail_service_gives_nothing (client : GoogleAPIClient) :
  gmail_service client = None -> email_query_gives client (Return []).
Proof. intros H w. unfold get_recent_emails. rewrite H. reflexivity. Qed.

Lemma no_calendar_service_gives_nothing (client : GoogleAPIClient) :
  calendar_service client = None -> calendar_listing_gives client (Return []).
Proof. intros H w. unfold get_calendar_events. rewrite H. reflexivity. Qed.

(** X17.  Evaluation on a client without services: without Gmail service
    task_1 scores [0.0]; without Calendar service task_2 scores [0.0], and
    task_3 scores [1.0] as soon as the requested time has passed.  A
    missing service reads as an empty mailbox or calendar, not as an
    error: the checks carry no ['error'] key. *)
Theorem evaluate_without_services (client : GoogleAPIClient)
    (agent_response : string) (w : World) :
  (gmail_service client = None ->
   reports_without_error
     (fst (evaluate (RewardFunction_init "task_1" client) agent_response w)) false)
  /\ (calendar_service client = None ->
      reports_without_error
        (fst (evaluate (RewardFunction_init "task_2" client) agent_response w)) false
      /\ (datetime_gt (current_time_reading w) (requested_time_reading w) = true ->
          reports_without_error
            (fst (evaluate (RewardFunction_init "task_3" client) agent_response w))
            true)).
Proof.
  split.
  - intros H.
    exact (evaluate_task_1_nothing_found client agent_response w
             (no_gmail_service_gives_nothing client H)).
  - intros H. pose proof (no_calendar_service_gives_nothing client H) as Hq. split.
    + exact (evaluate_task_2_nothing_listed client agent_response w Hq).
    + intros Hpast.
      exact (evaluate_task_3_nothing_listed client agent_response w Hq Hpast).
Qed.

Lemma timestamp_has_no_AM (pre post : string) :
  is_timestamp (pre +:+ "AM" +:+ post) = false.
Proof.
  induction pre as [| c pre IH].
  - reflexivity.
  - change (is_timestamp (String c pre +:+ "AM" +:+ post))
      with (is_timestamp_char c && is_timestamp (pre +:+ "AM" +:+ post)).
    rewrite IH. apply andb_false_r.
Qed.

Lemma timestamp_not_10_AM (e : CalendarEventRecord) :
  is_timestamp (e_start e) = true -> looks_like_10_AM e = false.
Proof.
  intros Hts. unfold looks_like_10_AM.
  destruct (str_contains "AM" (e_start e)) eqn:HAM; [| reflexivity].
  apply str_contains_iff in HAM. destruct HAM as (pre & post & Heq).
  rewrite Heq, timestamp_has_no_AM in Hts. discriminate Hts.
Qed.

(** X18.  When every listed event reports its start as an RFC 3339
    timestamp or date (digits and the characters [-], [:], [.], [+], [T],
    [Z]), as the calendar service does, no start contains "AM": from
    10:00:01 on (the clock readings of the check falling on one day),
    task_3 scores [1.0] whatever events the calendar holds, an event at
    10:00 included. *)
Theorem past_time_check_blind_to_timestamps (client : GoogleAPIClient)
    (all_events : list CalendarEventRecord) (agent_response : string) (w : World) :
  calendar_listing_gives client (Return all_events) ->
  Forall (fun e => is_timestamp (e_start e) = true) all_events ->
  same_day (current_time_reading w) (requested_time_reading w) ->
  at_or_after (current_time_reading w) 10 0 1 0 ->
  reports (fst (evaluate (RewardFunction_init "task_3" client) agent_response w)) true.
Proof.
  intros Hq Hts Hday Hafter.
  assert (Hpast : datetime_gt (current_time_reading w) (requested_time_reading w) = true)
    by (apply past_from_ten_and_a_second;
        [exact Hday | reflexivity .. | exact Hafter]).
  pose proof (evaluate_task_3_past client all_events agent_response w Hq Hpast) as H.
  destruct (List.find looks_like_10_AM all_events) as [e |] eqn:Hfind; [| exact H].
  apply List.find_some in Hfind. destruct Hfind as [Hin He].
  rewrite Forall_forall in Hts.
  rewrite (timestamp_not_10_AM e) in He; [discriminate He |].
  apply Hts. apply list_elem_of_In. exact Hin.
Qed.

(** ** Talking to the agent *)

Lemma same_clock_refl (w : World) : same_clock w w.
Proof. split; reflexivity. Qed.

Lemma same_clock_trans (w1 w2 w3 : World) :
  same_clock w1 w2 -> same_clock w2 w3 -> same_clock w1 w3.
Proof. intros [? ?] [? ?]. split; congruence. Qed.

Lemma same_clock_print (line : string) (w : World) :
  same_clock (snd (print line w)) w.
Proof. split; reflexivity. Qed.

Lemma String_append_assoc (a b c : string) : (a +:+ b) +:+ c = a +:+ (b +:+ c).
Proof.
  induction a as [| x a IH]; [reflexivity |].
  change (String x ((a +:+ b) +:+ c) = String x (a +:+ (b +:+ c))).
  rewrite IH. reflexivity.
Qed.

Lemma String_append_empty_r (a : string) : a +:+ "" = a.
Proof.
  induction a as [| x a IH]; [reflexivity |].
  change (String x (a +:+ "") = String x a). rewrite IH. reflexivity.
Qed.

(** The inner loop of [run_single_task]: the text blocks are appended. *)
Lemma blocks_loop (content : list ContentBlock) (s : World * string) :
  wp (for_each content (fun block =>
        match block with
        | TextBlock text => liftW (print text);; append_text text
        | OtherBlock => mret tt
        end)) s
     (fun o s' =>
        o = Return tt
        /\ snd s' = snd s +:+ message_text (AssistantMessage content)
        /\ same_clock (fst s') (fst s)).
Proof.
  revert s. induction content as [| block rest IH]; intros s.
  - apply wp_ret. cbn. rewrite String_append_empty_r.
    split; [reflexivity |]. split; [reflexivity | apply same_clock_refl].
  - cbn [for_each]. apply wp_bind. destruct block as [text |].
    + apply wp_bind. apply wp_liftW. apply wp_print_exact. cbn [fst snd].
      eapply wp_pure_step; [reflexivity |]. cbn [fst snd].
      eapply wp_mono; [apply IH |]. cbn [fst snd].
      intros o s' (-> & Hs & Hc). split; [reflexivity |]. split.
      * rewrite Hs. cbn [message_text List.fold_right].
        apply String_append_assoc.
      * eapply same_clock_trans; [exact Hc | apply same_clock_print].
    + apply wp_ret. eapply wp_mono; [apply IH |]. cbn [fst snd].
      intros o s' (-> & Hs & Hc). auto.
Qed.

(** The outer loop: the transcript of the messages is appended. *)
Lemma messages_loop (l : list AgentMessage) (s : World * string) :
  wp (for_each l (fun message =>
        match message with
        | AssistantMessage content =>
            for_each content (fun block =>
              match block with
              | TextBlock text => liftW (print text);; append_text text
              | OtherBlock => mret tt
              end)
        | OtherMessage => mret tt
        end)) s
     (fun o s' =>
        o = Return tt
        /\ snd s' = snd s +:+ transcript l
        /\ same_clock (fst s') (fst s)).
Proof.
  revert s. induction l as [| m rest IH]; intros s.
  - apply wp_ret. cbn. rewrite String_append_empty_r.
    split; [reflexivity |]. split; [reflexivity | apply same_clock_refl].
  - cbn [for_each]. apply wp_bind. destruct m as [content |].
    + eapply wp_mono; [apply blocks_loop |].
      intros o s1 (-> & Hs1 & Hc1).
      eapply wp_mono; [apply IH |].
      intros o s' (-> & Hs & Hc). split; [reflexivity |]. split.
      * rewrite Hs, Hs1. cbn [transcript List.fold_right].
        apply String_append_assoc.
      * eapply same_clock_trans; eassumption.
    + apply wp_ret. eapply wp_mono; [apply IH |].
      intros o s' (-> & Hs & Hc). auto.
Qed.

Lemma converse_spec (a : AgentRun) (instruction : string) (w : World) :
  wp (converse a instruction) w (fun o w' =>
    o = conversation_outcome a instruction /\ same_clock w' w).
Proof.
  unfold converse, conversation_outcome.
  apply wp_with_local. apply wp_bind. apply wp_liftW. apply wp_execute. cbn [fst snd].
  destruct (agent_connect a) as [[] | e];
    [| split; [reflexivity | apply same_clock_refl]].
  apply wp_bind. apply wp_liftW. apply wp_execute. cbn [fst snd].
  destruct (agent_query a instruction) as [[] | e];
    [| split; [reflexivity | apply same_clock_refl]].
  apply wp_bind. apply wp_liftW. apply wp_print_exact. cbn [fst snd].
  apply wp_bind. apply wp_liftW. apply wp_print_exact. cbn [fst snd].
  apply wp_bind. eapply wp_mono; [apply messages_loop |]. cbn [fst snd].
  intros o [w1 text] (-> & Htext & Hc1). cbn [fst snd] in *.
  apply wp_bind. apply wp_liftW. apply wp_execute. cbn [fst snd].
  destruct (agent_stream_end a instruction) as [[] | e].
  - apply wp_liftW. apply wp_print_exact. cbn [fst snd].
    split; [rewrite Htext; reflexivity |].
    eapply same_clock_trans; [apply same_clock_print |].
    eapply same_clock_trans; [exact Hc1 |].
    eapply same_clock_trans; apply same_clock_print.
  - split; [reflexivity |].
    eapply same_clock_trans; [exact Hc1 |].
    eapply same_clock_trans; apply same_clock_print.
Qed.

(** ** Running one task *)

Lemma wp_getitem {St : Type} (m : gmap string pyval) (key : string) (v : pyval)
    (s : St) (Q : Outcome pyval -> St -> Prop) :
  m !! key = Some v -> Q (Return v) s -> wp (getitem (VDict m) key) s Q.
Proof. unfold wp, getitem. intros ->. exact (fun H => H). Qed.

Lemma same_clock_same_readings (w1 w2 : World) :
  same_clock w1 w2 -> same_readings w1 w2.
Proof. intros [Hc Ht] i. rewrite Hc, Ht. reflexivity. Qed.

(** The constructor reads no clock, and what it builds does not depend on
    the world. *)
Lemma GoogleAPIClient_init_clock (env : GoogleEnv) (w : World) :
  wp (GoogleAPIClient_init env) w (fun _ w' => same_clock w' w).
Proof.
  unfold GoogleAPIClient_init, _init_services.
  wp_steps2.
  eapply wp_pure_step; [apply _get_oauth_credentials_run |]. cbn [fst snd].
  wp_steps2. cbn [creds].
  destruct (valid_token (files env)) as [c |]; wp_steps2; cbn [creds].
  - destruct (build_gmail env c) as [gmail | e]; wp_steps2;
      [destruct (build_calendar env c) as [calendar | e]; wp_steps2 | ];
      split; congruence.
  - destruct (getenv env "GOOGLE_CREDENTIALS_FILE") as [path |]; wp_steps2;
      [| split; congruence].
    destruct (opt_str_truthy (Some path) && path_exists (files env) path); wp_steps2;
      [| split; congruence].
    destruct (from_service_account_file env path) as [c | e]; wp_steps2; cbn [creds];
      [| split; congruence].
    destruct (build_gmail env c) as [gmail | e]; wp_steps2;
      [destruct (build_calendar env c) as [calendar | e]; wp_steps2 | ];
      split; congruence.
Qed.

Lemma GoogleAPIClient_init_any_world (env : GoogleEnv) (w1 w2 : World) :
  fst (GoogleAPIClient_init env w1) = fst (GoogleAPIClient_init env w2).
Proof.
  destruct (GoogleAPIClient_init_spec env w1) as (c1 & H1 & S1).
  destruct (GoogleAPIClient_init_spec env w2) as (c2 & H2 & S2).
  rewrite H1, H2. f_equal.
  destruct (chosen_credential env) as [[c | e] |]; [| congruence | congruence].
  destruct c1, c2. cbn in *.
  destruct S1 as (-> & -> & ->), S2 as (-> & -> & ->). reflexivity.
Qed.

Lemma evaluate_same_clock (self : RewardFunction) (r1 r2 : string) (w1 w2 : World) :
  same_clock w1 w2 ->
  fst (evaluate self r1 w1) = fst (evaluate self r2 w2).
Proof.
  intros Hc.
  apply (related_evaluate same_readings same_readings_print_stable self r1);
    [right; exact same_readings_now | apply same_clock_same_readings, Hc].
Qed.

Lemma evaluate_returns_result_for (tid : string) (client : GoogleAPIClient)
    (agent_response : string) (w : World) :
  In tid catalog_ids ->
  exists (t : TaskDescriptor) (checks : gmap string pyval) (b : bool),
    List.find (fun t => String.eqb (id t) tid) FAILING_TASKS = Some t
    /\ checks !! "failed_as_expected" = Some (VBool b)
    /\ fst (evaluate (RewardFunction_init tid client) agent_response w)
       = Return (result_for tid t checks b).
Proof.
  intros Hin.
  destruct (task_of_catalog tid client Hin) as [t Ht].
  destruct (evaluate_result_spec _ t agent_response w Ht) as (wv & _ & _ & H).
  destruct (selected_validator_total tid client wv Hin) as (checks & b & Hrun & Hf).
  rewrite Hrun in H. exists t, checks, b.
  split; [exact Ht |]. split; [exact Hf |]. exact (H b Hf).
Qed.

Lemma valid_index (i : Z) (t : TaskDescriptor) :
  (0 <= i)%Z -> nth_error FAILING_TASKS (Z.to_nat i) = Some t ->
  (i = 0 /\ id t = "task_1" \/ i = 1 /\ id t = "task_2" \/ i = 2 /\ id t = "task_3")%Z.
Proof.
  intros Hi Hn.
  assert (Hlt : (Z.to_nat i < List.length FAILING_TASKS)%nat)
    by (apply nth_error_Some; rewrite Hn; discriminate).
  cbn in Hlt.
  assert (Hcases : (i = 0 \/ i = 1 \/ i = 2)%Z) by lia.
  destruct Hcases as [-> | [-> | ->]]; cbn in Hn; injection Hn as <-; auto.
Qed.

Ltac wp_step3 :=
  lazymatch goal with
  | |- wp (getitem (VDict _) _) _ _ => eapply wp_getitem; [reflexivity |]
  | |- _ => wp_step2
  end; cbn [fst snd].

Ltac wp_steps3 := repeat wp_step3.

Ltac clock_facts :=
  repeat match goal with
         | H : same_clock _ _ |- _ => destruct H
         end;
  split; congruence.

Lemma wp_report_loop (h : Harness) (d : gmap string pyval) (w : World)
    (Q : Outcome unit -> World -> Prop) :
  (forall w', Q (Return tt) w') ->
  wp (for_each (dict_items h d) (fun item =>
        if negb (String.eqb (fst item) "failed_as_expected") then
          print ("  • " ++ fst item ++ ": " ++ py_str h (snd item))
        else mret tt)) w Q.
Proof.
  intros HQ. apply wp_print_loop; [| exact HQ].
  intros item w0. destruct (negb _); wp_steps; reflexivity.
Qed.

(** The second half of a task run: the validation is what [evaluate]
    returns in any world with the same clock. *)

Lemma validate_and_report_spec (h : Harness) (t : TaskDescriptor)
    (agent_response : string) (w wb : World) :
  In (id t) catalog_ids ->
  List.find (fun t' => String.eqb (id t') (id t)) FAILING_TASKS = Some t ->
  same_clock wb w ->
  wp (validate_and_report h t agent_response) wb (fun o _ =>
    match composio_create h "reward_validator" with
    | Raise e => o = Raise e
    | Return _ =>
        exists client checks b,
          fst (GoogleAPIClient_init (google h) w) = Return client
          /\ checks !! "failed_as_expected" = Some (VBool b)
          /\ fst (evaluate (RewardFunction_init (id t) client) "" w)
             = Return (result_for (id t) t checks b)
          /\ o = Return (Some (task_report t agent_response
                                 (result_for (id t) t checks b)
                                 (VFloat (if b then 1 else 0))))
    end).
Proof.
  intros Hin Hfind Hcb.
  unfold validate_and_report, RewardFunction_new. wp_steps3.
  destruct (composio_create h "reward_validator") as [[] | e]; wp_steps3;
    [| reflexivity].
  wp_call o wi E.
  pose proof (GoogleAPIClient_init_spec (google h) wb) as (client & Hrun & _).
  pose proof (GoogleAPIClient_init_clock (google h) wb) as Hck.
  unfold wp in Hck. rewrite E in Hrun, Hck. cbn [fst snd] in Hrun, Hck. subst o.
  wp_steps3. wp_call o we E2.
  destruct (evaluate_returns_result_for (id t) client agent_response wi Hin)
    as (t' & checks & b & Hfind' & Hfailed & Hresult).
  rewrite Hfind in Hfind'. injection Hfind' as <-.
  rewrite E2 in Hresult. cbn [fst] in Hresult. subst o.
  wp_steps3. cbn [truthy].
  assert (Hfmt : format_1f (VFloat (if b then 1 else 0))
                 = Return (if b then "1.0" else "0.0"))
    by (destruct b; reflexivity).
  rewrite Hfmt. wp_steps3.
  assert (Hclient : fst (GoogleAPIClient_init (google h) w) = Return client)
    by (rewrite (GoogleAPIClient_init_any_world (google h) w wb), E; reflexivity).
  assert (Heval : fst (evaluate (RewardFunction_init (id t) client) "" w)
                  = Return (result_for (id t) t checks b)).
  { rewrite (evaluate_same_clock _ "" agent_response w wi), E2; [reflexivity |].
    destruct Hcb, Hck. split; congruence. }
  destruct (truthy (VDict checks)); wp_steps3;
    [apply wp_report_loop; intros wx |];
    wp_steps3; cbn [truthy]; destruct b; wp_steps3;
    (eexists client, checks, _;
     split; [exact Hclient |]; split; [exact Hfailed |]; split; [exact Heval |];
     reflexivity).
Qed.

(** What one task run returns, by the outcomes of the two Composio
    set-ups: the validation is what [evaluate] returns in the world the run
    started in, whatever the agent did. *)
Lemma run_single_task_spec (h : Harness) (i : Z) (t : TaskDescriptor) (w : World) :
  (0 <= i)%Z -> nth_error FAILING_TASKS (Z.to_nat i) = Some t ->
  wp (run_single_task h i) w (fun o _ =>
    match composio_tools h ("task_runner_" ++ id t) with
    | Raise e => o = Raise e
    | Return _ =>
        match composio_create h "reward_validator" with
        | Raise e => o = Raise e
        | Return _ =>
            exists client checks b,
              fst (GoogleAPIClient_init (google h) w) = Return client
              /\ checks !! "failed_as_expected" = Some (VBool b)
              /\ fst (evaluate (RewardFunction_init (id t) client) "" w)
                 = Return (result_for (id t) t checks b)
              /\ o = Return (Some (task_report t
                                     (agent_response_of (agent h) (instruction t))
                                     (result_for (id t) t checks b)
                                     (VFloat (if b then 1 else 0))))
        end
    end).
Proof.
  intros Hi Hn.
  assert (Hin : In (id t) catalog_ids).
  { destruct (valid_index i t Hi Hn) as [[_ ->] | [[_ ->] | [_ ->]]]; cbn; auto. }
  assert (Hfind : List.find (fun t' => String.eqb (id t') (id t)) FAILING_TASKS = Some t).
  { destruct (valid_index i t Hi Hn) as [[-> _] | [[-> _] | [-> _]]];
      cbn in Hn; injection Hn as <-; reflexivity. }
  unfold run_single_task.
  replace ((i <? 0)%Z || (Z.of_nat (List.length FAILING_TASKS) <=? i)%Z) with false
    by (destruct (valid_index i t Hi Hn) as [[-> _] | [[-> _] | [-> _]]]; reflexivity).
  rewrite Hn. wp_steps3.
  destruct (composio_tools h ("task_runner_" ++ id t)) as [[] | e]; wp_steps3;
    [| reflexivity].
  eapply wp_mono; [apply converse_spec |].
  intros o wa [-> Hca]. unfold agent_response_of.
  destruct (conversation_outcome (agent h) (instruction t)) as [text | e];
    [| wp_steps3];
    (apply validate_and_report_spec; [exact Hin | exact Hfind | clock_facts]).
Qed.

(** X19.  For an index below [0] or at least the number of tasks,
    [run_single_task] prints "Invalid task index: <index>", returns [None]
    and does nothing else; a negative index does not count from the end of
    the catalog. *)
Theorem run_single_task_rejects_bad_index (h : Harness) (task_index : Z) (w : World) :
  (task_index < 0 \/ Z.of_nat (List.length FAILING_TASKS) <= task_index)%Z ->
  run_single_task h task_index w
  = (Return None, snd (print ("Invalid task index: " ++ pretty task_index) w)).
Proof.
  intros Hbad. unfold run_single_task.
  replace ((task_index <? 0)%Z
           || (Z.of_nat (List.length FAILING_TASKS) <=? task_index)%Z) with true.
  - reflexivity.
  - symmetry. apply orb_true_iff. destruct Hbad as [H | H]; [left | right]; lia.
Qed.

(** X20.  When both Composio set-ups succeed, the run of a task of the
    catalog returns a report whatever the agent does: its [validation] is
    the result of [evaluate] for a client built and a clock read in the
    world the run started in, and its [reward_score] is the score of that
    result, [1.0] or [0.0]. *)
Theorem run_single_task_reports_validation (h : Harness) (i : Z)
    (t : TaskDescriptor) (w : World) :
  (0 <= i)%Z ->
  nth_error FAILING_TASKS (Z.to_nat i) = Some t ->
  setup_ok h t = true ->
  exists (client : GoogleAPIClient) (validation : gmap string pyval) (b : bool),
    fst (GoogleAPIClient_init (google h) w) = Return client
    /\ fst (evaluate (RewardFunction_init (id t) client) "" w) = Return validation
    /\ validation !! "failure_detected" = Some (VBool b)
    /\ validation !! "score" = Some (VFloat (if b then 1 else 0))
    /\ fst (run_single_task h i w)
       = Return (Some (task_report t (agent_response_of (agent h) (instruction t))
                         validation (VFloat (if b then 1 else 0)))).
Proof.
  intros Hi Hn Hok. pose proof (run_single_task_spec h i t w Hi Hn) as H.
  unfold wp in H. unfold setup_ok in Hok.
  destruct (composio_tools h ("task_runner_" ++ id t)); [| discriminate Hok].
  destruct (composio_create h "reward_validator"); [| discriminate Hok].
  destruct H as (client & checks & b & Hclient & Hfailed & Heval & Hrun).
  exists client, (result_for (id t) t checks b), b.
  repeat split; assumption || reflexivity.
Qed.

(** X21.  An exception raised while the Composio session and tools of the
    runner are set up, or while the reward function creates its Composio
    session, leaves [run_single_task]: only the conversation with the
    agent is protected by the [try]. *)
Theorem run_single_task_propagates_setup_failure (h : Harness) (i : Z)
    (t : TaskDescriptor) (w : World) (e : PyException) :
  (0 <= i)%Z ->
  nth_error FAILING_TASKS (Z.to_nat i) = Some t ->
  (composio_tools h ("task_runner_" ++ id t) = Raise e
   \/ (composio_tools h ("task_runner_" ++ id t) = Return tt
       /\ composio_create h "reward_validator" = Raise e)) ->
  fst (run_single_task h i w) = Raise e.
Proof.
  intros Hi Hn Hfail. pose proof (run_single_task_spec h i t w Hi Hn) as H.
  unfold wp in H. destruct Hfail as [Ht | [Ht Hc]].
  - rewrite Ht in H. exact H.
  - rewrite Ht, Hc in H. exact H.
Qed.


Lemma str_take_short_prefix (n : nat) (s : string) :
  (str_len (str_take n s) <= n)%nat /\ exists rest, s = str_take n s +:+ rest.
Proof.
  revert n. induction s as [| c s IH]; intros n.
  - split; [cbn; lia | exists ""; reflexivity].
  - cbn [str_take]. destruct (is_continuation c) eqn:Hc.
    + destruct (IH n) as [Hlen [rest Hrest]]. split.
      * cbn [str_len]. rewrite Hc. exact Hlen.
      * exists rest. rewrite Hrest at 1. reflexivity.
    + destruct n as [| n].
      * split; [cbn; lia | exists (String c s); reflexivity].
      * destruct (IH n) as [Hlen [rest Hrest]]. split.
        -- cbn [str_len]. rewrite Hc. lia.
        -- exists rest. rewrite Hrest at 1. reflexivity.
Qed.

(** X23.  The [agent_response_preview] of a report is a prefix of at most
    150 characters of the agent response, which is the text the agent
    produced or, when the conversation raised, "Error: " followed by the
    string of the exception. *)
Theorem run_single_task_preview (h : Harness) (i : Z) (t : TaskDescriptor) (w : World) :
  (0 <= i)%Z ->
  nth_error FAILING_TASKS (Z.to_nat i) = Some t ->
  setup_ok h t = true ->
  exists (r : gmap string pyval) (preview rest : string),
    fst (run_single_task h i w) = Return (Some r)
    /\ r !! "agent_response_preview" = Some (VStr preview)
    /\ (str_len preview <= 150)%nat
    /\ agent_response_of (agent h) (instruction t) = preview +:+ rest.
Proof.
  intros Hi Hn Hok. pose proof (run_single_task_spec h i t w Hi Hn) as H.
  unfold wp in H. unfold setup_ok in Hok.
  destruct (composio_tools h ("task_runner_" ++ id t)); [| discriminate Hok].
  destruct (composio_create h "reward_validator"); [| discriminate Hok].
  destruct H as (client & checks & b & _ & _ & _ & Hrun).
  destruct (str_take_short_prefix 150 (agent_response_of (agent h) (instruction t)))
    as [Hlen [rest Hrest]].
  eexists _, _, rest. split; [exact Hrun |].
  split; [reflexivity |]. split; [exact Hlen | exact Hrest].
Qed.

(** X24.  The conversation with the agent: when connecting, sending the
    instruction and reading the stream all succeed, the response is the
    concatenation, in order, of the texts of the [TextBlock]s of the
    [AssistantMessage]s received, other blocks and messages being skipped;
    otherwise the first of the three that raises decides the exception. *)
Theorem converse_gives_transcript (a : AgentRun) (instruction : string) (w : World) :
  fst (converse a instruction w) = conversation_outcome a instruction.
Proof. exact (proj1 (converse_spec a instruction w)). Qed.

(** ** Running a task by its identifier *)

Lemma index_of_task_none (task_id : string) (tasks : list TaskDescriptor) (k : Z) :
  ~ In task_id (List.map id tasks) -> index_of_task task_id tasks k = None.
Proof.
  revert k. induction tasks as [| t rest IH]; intros k Hnot; cbn; [reflexivity |].
  destruct (String.eqb_spec (id t) task_id) as [Heq | Hne].
  - exfalso. apply Hnot. left. exact Heq.
  - apply IH. intros Hin. apply Hnot. right. exact Hin.
Qed.

Lemma index_of_task_nth (tasks : list TaskDescriptor) (i : nat) (t : TaskDescriptor)
    (k : Z) :
  List.NoDup (List.map id tasks) ->
  nth_error tasks i = Some t ->
  index_of_task (id t) tasks k = Some (k + Z.of_nat i)%Z.
Proof.
  revert i k. induction tasks as [| t' rest IH]; intros i k Hnd Hn.
  - destruct i; discriminate Hn.
  - cbn [List.map] in Hnd. apply List.NoDup_cons_iff in Hnd. destruct Hnd as [Hfresh Hnd].
    destruct i as [| i]; cbn in Hn |- *.
    + injection Hn as ->. rewrite String.eqb_refl. f_equal. lia.
    + destruct (String.eqb_spec (id t') (id t)) as [Heq | Hne].
      * exfalso. apply Hfresh. rewrite Heq.
        apply List.in_map, (List.nth_error_In _ _ Hn).
      * rewrite (IH i (k + 1)%Z Hnd Hn). f_equal. lia.
Qed.

Lemma catalog_ids_NoDup : List.NoDup (List.map id FAILING_TASKS).
Proof.
  cbn. repeat constructor; cbn; intuition discriminate.
Qed.

(** X25.  [run_task_by_id] with an id outside the catalog prints "Task
    '<id>' not found" and returns [None]; with the id of the task at
    position [i] it is [run_single_task] at the index [i]. *)
Theorem run_task_by_id_dispatch (h : Z -> Harness) (task_id : string) (w : World) :
  (~ In task_id catalog_ids ->
   run_task_by_id h task_id w
   = (Return None, snd (print ("Task '" ++ task_id ++ "' not found") w)))
  /\ (forall (i : nat) (t : TaskDescriptor),
        nth_error FAILING_TASKS i = Some t ->
        id t = task_id ->
        run_task_by_id h task_id w
        = run_single_task (h (Z.of_nat i)) (Z.of_nat i) w).
Proof.
  unfold run_task_by_id. split.
  - intros Hnot. rewrite (index_of_task_none task_id FAILING_TASKS 0 Hnot). reflexivity.
  - intros i t Hn <-.
    rewrite (index_of_task_nth FAILING_TASKS i t 0 catalog_ids_NoDup Hn).
    reflexivity.
Qed.

(** ** Running all tasks *)

Lemma report_score (t : TaskDescriptor) (r : gmap string pyval) :
  is_report_of t r ->
  exists b : bool, score_of_report r = VFloat (if b then 1 else 0).
Proof. intros (resp & checks & b & ->). exists b. reflexivity. Qed.

Lemma tally_of_app (ts : list TaskDescriptor) (tally : Tally) (t : TaskDescriptor)
    (r : gmap string pyval) :
  tally_of ts tally -> is_report_of t r ->
  tally_of (ts ++ [t])
    {| results := results tally ++ [r];
       scores := scores tally ++ [score_of_report r] |}.
Proof.
  intros [Hr Hs] Ht. split; cbn [results scores].
  - apply Forall2_app; [exact Hr | constructor; [exact Ht | constructor]].
  - rewrite Hs, List.map_app. reflexivity.
Qed.

(** One iteration of the loop of [run_all_failing_tasks]. *)
Lemma run_each_step (h : Z -> Harness) (i : Z) (t : TaskDescriptor)
    (ts : list TaskDescriptor) (s : World * Tally) :
  (0 <= i)%Z -> nth_error FAILING_TASKS (Z.to_nat i) = Some t ->
  tally_of ts (snd s) ->
  wp (try_except
        (result ← liftW (run_single_task (h i) i);
         match result with
         | Some r =>
             append_result r;;
             reward_score ← getitem (VDict r) "reward_score";
             append_score reward_score
         | None => mret tt
         end)
        (fun e => liftW (print ("Error running task: " ++ str_exc e)))) s
     (fun o s' =>
        o = Return tt
        /\ tally_of (ts ++ (if setup_ok (h i) t then [t] else [])) (snd s')).
Proof.
  intros Hi Hn Htally. apply wp_try_except. apply wp_bind. apply wp_liftW.
  eapply wp_mono; [apply (run_single_task_spec (h i) i t (fst s) Hi Hn) |].
  cbn beta. intros o w1 H. unfold setup_ok.
  destruct (composio_tools (h i) ("task_runner_" ++ id t)) as [[] | e].
  - destruct (composio_create (h i) "reward_validator") as [[] | e].
    + destruct H as (client & checks & b & _ & _ & _ & ->).
      wp_steps3. cbn [results scores fst snd]. split; [reflexivity |].
      apply (tally_of_app ts (snd s) t
               (task_report t (agent_response_of (agent (h i)) (instruction t))
                  (result_for (id t) t checks b) (VFloat (if b then 1 else 0))));
        [exact Htally |].
      eexists _, _, _. reflexivity.
    + subst o. wp_steps3. split; [reflexivity |]. rewrite app_nil_r. exact Htally.
  - subst o. wp_steps3. split; [reflexivity |]. rewrite app_nil_r. exact Htally.
Qed.

Lemma run_each_loop (h : Z -> Harness) (l : list Z) (ts : list TaskDescriptor)
    (s : World * Tally) :
  Forall (fun i => (0 <= i)%Z /\ is_Some (nth_error FAILING_TASKS (Z.to_nat i))) l ->
  tally_of ts (snd s) ->
  wp (for_each l (fun i =>
        try_except
          (result ← liftW (run_single_task (h i) i);
           match result with
           | Some r =>
               append_result r;;
               reward_score ← getitem (VDict r) "reward_score";
               append_score reward_score
           | None => mret tt
           end)
          (fun e => liftW (print ("Error running task: " ++ str_exc e))))) s
     (fun o s' => o = Return tt /\ tally_of (ts ++ completed h l) (snd s')).
Proof.
  intros Hl. revert ts s. induction Hl as [| i l [Hi [t Hn]] _ IH]; intros ts s Htally.
  - apply wp_ret. split; [reflexivity |]. cbn. rewrite app_nil_r. exact Htally.
  - cbn [for_each]. apply wp_bind.
    eapply wp_mono; [apply (run_each_step h i t ts s Hi Hn Htally) |].
    intros o s1 [-> H1].
    eapply wp_mono; [apply (IH _ s1 H1) |].
    intros o s' [-> H']. split; [reflexivity |].
    unfold completed in *. cbn [List.flat_map]. rewrite Hn.
    rewrite app_assoc. exact H'.
Qed.

(** A whole number is its own reduced fraction. *)
Lemma Qred_whole (n : Z) : Qred (inject_Z n) = inject_Z n.
Proof.
  unfold Qred, inject_Z.
  pose proof (Z.ggcd_gcd n 1) as Hg.
  pose proof (Z.ggcd_correct_divisors n 1) as Hd.
  destruct (Z.ggcd n 1) as [g [nn dd]]. cbn [fst snd] in *.
  rewrite Z.gcd_1_r in Hg. subst g. destruct Hd as [Hn Hd].
  rewrite Z.mul_1_l in Hn, Hd. subst nn dd. reflexivity.
Qed.

(** The sum of scores, continued from a float that is a whole number. *)
Lemma py_sum_from_scores (l : list pyval) (k : Z) :
  Forall is_score l ->
  py_sum_from (VFloat (inject_Z k)) l
  = Return (VFloat (inject_Z (k + Z.of_nat (List.length (List.filter equals_one l))))).
Proof.
  intros Hl. revert k. induction Hl as [| v l Hv _ IH]; intros k.
  - cbn. rewrite Z.add_0_r. reflexivity.
  - destruct Hv as [-> | ->]; cbn [py_sum_from number_value].
    + change (Qred (inject_Z k + 0)) with (Qred (inject_Z (k * 1 + 0 * 1))).
      rewrite Qred_whole, IH. do 3 f_equal.
      cbn [List.filter]. change (equals_one (VFloat 0)) with false. lia.
    + change (Qred (inject_Z k + 1)) with (Qred (inject_Z (k * 1 + 1 * 1))).
      rewrite Qred_whole, IH. do 3 f_equal.
      cbn [List.filter]. change (equals_one (VFloat 1)) with true.
      cbn [List.length]. lia.
Qed.

(** [int(sum(scores))] is the number of scores [1.0]. *)
Lemma passed_count (l : list pyval) :
  Forall is_score l -> l <> [] ->
  exists total,
    py_sum l = Return total
    /\ py_int total = Return (Z.of_nat (List.length (List.filter equals_one l))).
Proof.
  intros Hl Hne. destruct Hl as [| v l Hv Hl]; [congruence |].
  unfold py_sum. destruct Hv as [-> | ->]; cbn [py_sum_from number_value].
  - change (Qred (inject_Z 0 + 0)) with (Qred (inject_Z 0)).
    rewrite Qred_whole, (py_sum_from_scores l 0 Hl).
    eexists. split; [reflexivity |].
    unfold py_int. cbn [number_value inject_Z Qnum Qden]. rewrite Z.quot_1_r.
    f_equal; cbn [List.filter]; change (equals_one (VFloat 0)) with false; lia.
  - change (Qred (inject_Z 0 + 1)) with (Qred (inject_Z 1)).
    rewrite Qred_whole, (py_sum_from_scores l 1 Hl).
    eexists. split; [reflexivity |].
    unfold py_int. cbn [number_value inject_Z Qnum Qden]. rewrite Z.quot_1_r.
    f_equal; cbn [List.filter]; change (equals_one (VFloat 1)) with true;
      cbn [List.length]; lia.
Qed.

Lemma stdout_print (line : string) (w : World) :
  stdout (snd (print line w)) = stdout w ++ [line].
Proof. reflexivity. Qed.

(** The table of the summary: one line per report, in which the result
    and the score columns agree. *)
Lemma wp_summary_table (ts : list TaskDescriptor) (rs : list (gmap string pyval))
    (w : World) :
  Forall2 is_report_of ts rs ->
  wp (for_each rs (fun result =>
        validation ← getitem (VDict result) "validation";
        failure_detected ← getitem validation "failure_detected";
        let status := if truthy failure_detected
                      then "✓ Failed as expected" else "✗ Succeeded wrongly" in
        reward_score ← getitem (VDict result) "reward_score";
        let score := if equals_one reward_score then "1 (PASS)" else "0 (FAIL)" in
        task_id ← getitem (VDict result) "task_id";
        match task_id with
        | VStr tid =>
            print (ljust tid 10 ++ " " ++ ljust status 35 ++ " " ++ ljust score 10)
        | _ => raise (OtherException "TypeError" "task_id is not a str")
        end)) w
     (fun o w' => o = Return tt
                  /\ stdout w' = stdout w ++ List.map summary_row rs).
Proof.
  intros Hr. revert w.
  induction Hr as [| t r ts rs (resp & checks & b & ->) _ IH]; intros w.
  - apply wp_ret. split; [reflexivity |]. cbn. rewrite app_nil_r. reflexivity.
  - cbn [for_each]. apply wp_bind. apply wp_bind.
    eapply wp_getitem; [reflexivity |].
    apply wp_bind. eapply wp_getitem; [reflexivity |].
    cbv zeta. apply wp_bind. eapply wp_getitem; [reflexivity |].
    apply wp_bind. eapply wp_getitem; [reflexivity |].
    apply wp_print_exact.
    eapply wp_mono; [apply IH |].
    intros o w' [-> Hout]. split; [reflexivity |].
    rewrite Hout, stdout_print, <- app_assoc. cbn [List.map app].
    do 2 f_equal. destruct b; reflexivity.
Qed.

(** The summary never fails on a tally of reports, and prints
    [summary_lines]. *)
Lemma print_summary_spec (ts : list TaskDescriptor) (tally : Tally) (w : World) :
  tally_of ts tally ->
  wp (print_summary tally) w
     (fun o w' => o = Return tt
                  /\ stdout w' = stdout w ++ summary_lines (results tally)).
Proof.
  intros [Hr Hs]. destruct tally as [rs sc]. cbn [results scores] in *. subst sc.
  assert (Hscores : Forall is_score (List.map score_of_report rs)).
  { clear w. induction Hr as [| t r ts rs Ht _ IH]; constructor; [| exact IH].
    destruct (report_score t r Ht) as [[] ->]; [right | left]; reflexivity. }
  assert (Htable : forall w0 lines,
            stdout w0 = stdout w ++ lines ->
            wp (for_each rs (fun result =>
                  validation ← getitem (VDict result) "validation";
                  failure_detected ← getitem validation "failure_detected";
                  let status := if truthy failure_detected
                                then "✓ Failed as expected" else "✗ Succeeded wrongly" in
                  reward_score ← getitem (VDict result) "reward_score";
                  let score := if equals_one reward_score then "1 (PASS)" else "0 (FAIL)" in
                  task_id ← getitem (VDict result) "task_id";
                  match task_id with
                  | VStr tid =>
                      print (ljust tid 10 ++ " " ++ ljust status 35 ++ " " ++ ljust score 10)
                  | _ => raise (OtherException "TypeError" "task_id is not a str")
                  end)) w0
              (fun o s' =>
                 match o with
                 | Return _ =>
                     wp (print (str_repeat "=" 70 ++ String "010" "")) s'
                       (fun o0 w' =>
                          o0 = Return tt
                          /\ stdout w' = stdout w ++ lines
                               ++ List.map summary_row rs
                               ++ [str_repeat "=" 70 +:+ String "010" ""])
                 | Raise e =>
                     Raise e = Return tt
                     /\ stdout s' = stdout w ++ lines
                          ++ List.map summary_row rs
                          ++ [str_repeat "=" 70 +:+ String "010" ""]
                 end)).
  { intros w0 lines Hw0. eapply wp_mono; [apply (wp_summary_table ts _ _ Hr) |].
    intros o w1 [-> Hw1]. apply wp_print_exact. split; [reflexivity |].
    rewrite stdout_print, Hw1, Hw0, <- !app_assoc. reflexivity. }
  unfold print_summary, summary_lines. cbn [results scores].
  do 5 (apply wp_bind; apply wp_print_exact).
  apply wp_bind.
  destruct rs as [| r rs'].
  - cbn [List.map list_truthy]. apply wp_ret.
    do 2 (apply wp_bind; apply wp_print_exact).
    apply wp_bind. eapply wp_mono; [apply Htable |].
    + rewrite !stdout_print, <- !app_assoc. reflexivity.
    + cbn beta. intros [[] | e] w1 H; exact H.
  - assert (Hne : List.map score_of_report (r :: rs') <> []) by discriminate.
    destruct (passed_count _ Hscores Hne) as (total & Hsum & Hint).
    change (list_truthy (List.map score_of_report (r :: rs'))) with true.
    cbv iota. apply wp_bind. rewrite Hsum. apply wp_execute.
    apply wp_bind. rewrite Hint. apply wp_execute.
    rewrite !List.length_map.
    change (List.length (List.filter equals_one (List.map score_of_report (r :: rs'))))
      with (passes (r :: rs')).
    cbv zeta.
    do 3 (apply wp_bind; apply wp_print_exact).
    destruct (Z.of_nat (passes (r :: rs')) =? Z.of_nat (List.length (r :: rs')))%Z;
      apply wp_print_exact;
      do 2 (apply wp_bind; apply wp_print_exact);
      (apply wp_bind; eapply wp_mono; [apply Htable |];
       [rewrite !stdout_print, <- !app_assoc; reflexivity
       | cbn beta; intros [[] | e] w1 H; exact H]).
Qed.

(** The benchmark run never raises: every failure of a task run is
    caught by the loop, and the summary does not fail on what the loop
    collected. *)
Lemma run_all_failing_tasks_spec (h : Z -> Harness) (w : World) :
  wp (run_all_failing_tasks h) w (fun o w' =>
    exists reports_list,
      o = Return reports_list
      /\ Forall2 is_report_of
           (completed h (range (List.length FAILING_TASKS))) reports_list
      /\ exists earlier, stdout w' = earlier ++ summary_lines reports_list).
Proof.
  unfold run_all_failing_tasks, run_each_task. wp_steps3.
  eapply wp_mono.
  - apply (run_each_loop h (range (List.length FAILING_TASKS)) []).
    + cbn. repeat constructor; cbn; try lia; eauto.
    + split; constructor.
  - cbn [app]. intros o [w1 tally] [-> Htally]. cbn [snd] in Htally.
    apply wp_bind.
    eapply wp_mono; [apply (print_summary_spec _ tally _ Htally) |].
    intros o w2 [-> Hout]. wp_steps3.
    eexists. split; [reflexivity |]. split; [apply Htally |].
    exists (stdout w1). exact Hout.
Qed.

(** X26.  The benchmark run always returns, whatever set-ups, agent and
    remote services do: an exception of a task run (one deriving from
    [Exception]) is caught by the loop, and the summary never fails.  It
    returns one report per task whose set-up succeeded, in catalog order;
    when every set-up succeeds, one report per task of the catalog. *)
Theorem run_all_failing_tasks_reports_completed (h : Z -> Harness) (w : World) :
  exists (reports_list : list (gmap string pyval)) (w' : World),
    run_all_failing_tasks h w = (Return reports_list, w')
    /\ Forall2 is_report_of
         (completed h (range (List.length FAILING_TASKS))) reports_list
    /\ ((forall i t, nth_error FAILING_TASKS i = Some t ->
                     setup_ok (h (Z.of_nat i)) t = true) ->
        Forall2 is_report_of FAILING_TASKS reports_list).
Proof.
  destruct (run_all_failing_tasks_spec h w) as (reports_list & Hrun & Hall & _).
  exists reports_list, (snd (run_all_failing_tasks h w)).
  split; [rewrite <- Hrun; apply surjective_pairing |].
  split; [exact Hall |].
  intros Hok.
  replace FAILING_TASKS with (completed h (range (List.length FAILING_TASKS)));
    [exact Hall |].
  pose proof (Hok 0%nat _ eq_refl) as H0.
  pose proof (Hok 1%nat _ eq_refl) as H1.
  pose proof (Hok 2%nat _ eq_refl) as H2.
  unfold completed. cbn in H0, H1, H2 |- *. rewrite !Nat2Z.id. cbn.
  rewrite H0, H1, H2. reflexivity.
Qed.

(** X27.  The output of the benchmark run ends with the summary of the
    reports it returns: "Tasks executed" is their number [n]; when there
    is a report, the PASS line shows [k/n] and the FAIL line [(n-k)/n],
    [k] being the number of returned reports whose score is [1.0], with
    "ALL TESTS PASSED" exactly when [k = n]; and the table has one line per
    report, in which "Failed as expected" always goes with "1 (PASS)" and
    "Succeeded wrongly" with "0 (FAIL)".  The number [k] is also the
    number of returned reports whose validation detected the failure. *)
Theorem run_all_failing_tasks_summary (h : Z -> Harness) (w : World) :
  exists (reports_list : list (gmap string pyval)) (w' : World)
         (earlier : list string),
    run_all_failing_tasks h w = (Return reports_list, w')
    /\ stdout w' = earlier ++ summary_lines reports_list
    /\ passes reports_list
       = List.length (List.filter failure_detected_in reports_list).
Proof.
  destruct (run_all_failing_tasks_spec h w)
    as (reports_list & Hrun & Hall & earlier & Hout).
  exists reports_list, (snd (run_all_failing_tasks h w)), earlier.
  split; [rewrite <- Hrun; apply surjective_pairing |].
  split; [exact Hout |].
  clear Hrun Hout. unfold passes.
  induction Hall as [| t r ts rs (resp & checks & b & ->) _ IH]; [reflexivity |].
  cbn [List.map List.filter].
  change (score_of_report (task_report t resp (result_for (id t) t checks b)
                             (VFloat (if b then 1 else 0))))
    with (VFloat (if b then 1 else 0)).
  change (failure_detected_in
            (task_report t resp (result_for (id t) t checks b)
               (VFloat (if b then 1 else 0))))
    with b.
  destruct b.
  - change (equals_one (VFloat 1)) with true.
    cbn [List.length]. f_equal. exact IH.
  - change (equals_one (VFloat 0)) with false. exact IH.
Qed.

(** ** The entry point *)

(** X28.  [main] without task argument runs the whole benchmark and always
    returns.  With an id outside the catalog as argument it prints "Task
    '<id>' not found" and returns.  With the id of a task whose runner
    set-up raises, the exception leaves [main]: the single-task path has
    no handler. *)
Theorem main_contains_failures_only_in_full_run (h : Z -> Harness)
    (argv : list string) (w : World) :
  ((List.length argv <= 1)%nat ->
   main h argv w = (Return tt, snd (run_all_failing_tasks h w)))
  /\ (forall (prog task_id : string) (rest : list string),
        argv = prog :: task_id :: rest ->
        ~ In task_id catalog_ids ->
        main h argv w
        = (Return tt, snd (print ("Task '" ++ task_id ++ "' not found") w)))
  /\ (forall (prog : string) (rest : list string) (i : nat) (t : TaskDescriptor)
             (e : PyException),
        argv = prog :: id t :: rest ->
        nth_error FAILING_TASKS i = Some t ->
        composio_tools (h (Z.of_nat i)) ("task_runner_" ++ id t) = Raise e ->
        fst (main h argv w) = Raise e).
Proof.
  split; [| split].
  - intros Hlen. unfold main.
    replace (1 <? List.length argv)%nat with false
      by (symmetry; apply Nat.ltb_ge; exact Hlen).
    pose proof (run_all_failing_tasks_spec h w) as (reports_list & Hrun & _).
    unfold mbind, M_bind, bind. destruct (run_all_failing_tasks h w) as [o w'].
    cbn [fst snd] in Hrun |- *. subst o. reflexivity.
  - intros prog task_id rest -> Hnot. unfold main, run_task_by_id. cbn [List.length].
    rewrite (index_of_task_none task_id FAILING_TASKS 0 Hnot). reflexivity.
  - intros prog rest i t e -> Hn Htools. unfold main, run_task_by_id. cbn [List.length].
    rewrite (index_of_task_nth FAILING_TASKS i t 0 catalog_ids_NoDup Hn).
    assert (Hi : (0 <= Z.of_nat i)%Z) by lia.
    assert (Hn' : nth_error FAILING_TASKS (Z.to_nat (Z.of_nat i)) = Some t)
      by (rewrite Nat2Z.id; exact Hn).
    pose proof (run_single_task_spec (h (Z.of_nat i)) (Z.of_nat i) t w Hi Hn') as H.
    unfold wp in H. rewrite Htools in H.
    change (1 <? S (S (List.length rest)))%nat with true. cbn iota.
    change (0 + Z.of_nat i)%Z with (Z.of_nat i).
    unfold mbind, M_bind, bind.
    destruct (run_single_task (h (Z.of_nat i)) (Z.of_nat i) w) as [o w'].
    cbn [fst] in H. subst o. reflexivity.
Qed.

(** * The further properties at concrete inputs *)

Lemma GoogleAPIClient_init_prefers_oauth_token_witness :
  exists client : GoogleAPIClient,
    fst (GoogleAPIClient_init (env_with token_on_disk (Some "sa.json"))
           (world_at (moment 9 0 0 0))) = Return client
    /\ creds client = Some oauth_credential
    /\ gmail_service client = Some (mailbox [])
    /\ calendar_service client = Some (calendar_of []).
Proof.
  apply (GoogleAPIClient_init_prefers_oauth_token
           (env_with token_on_disk (Some "sa.json")) (world_at (moment 9 0 0 0))
           oauth_credential).
  - reflexivity.
  - reflexivity.
Defined.

Lemma GoogleAPIClient_init_falls_back_to_service_account_witness :
  exists client : GoogleAPIClient,
    fst (GoogleAPIClient_init (env_with service_account_on_disk (Some "sa.json"))
           (world_at (moment 9 0 0 0))) = Return client
    /\ creds client = Some service_credential
    /\ gmail_service client = Some (mailbox []).
Proof.
  apply (GoogleAPIClient_init_falls_back_to_service_account
           (env_with service_account_on_disk (Some "sa.json"))
           (world_at (moment 9 0 0 0)) "sa.json").
  - reflexivity.
  - reflexivity.
  - discriminate.
  - eexists. reflexivity.
Defined.

Lemma GoogleAPIClient_init_without_credentials_witness :
  GoogleAPIClient_init (env_with ∅ None) (world_at (moment 9 0 0 0))
  = (Return bare_client,
     snd (print "  ⚠ No Google credentials found" (world_at (moment 9 0 0 0)))).
Proof.
  apply (GoogleAPIClient_init_without_credentials
           (env_with ∅ None) (world_at (moment 9 0 0 0))).
  - reflexivity.
  - reflexivity.
Defined.

Lemma authorize_keeps_existing_token_witness :
  fst (authorize abandoned (world_at (moment 9 0 0 0), token_on_disk)) = Return true
  /\ snd (snd (authorize abandoned (world_at (moment 9 0 0 0), token_on_disk)))
     = token_on_disk.
Proof.
  apply (authorize_keeps_existing_token abandoned (world_at (moment 9 0 0 0))
           token_on_disk).
  eexists. reflexivity.
Defined.

Lemma authorize_then_load_witness :
  fst (authorize consenting (world_at (moment 9 0 0 0), secrets_on_disk)) = Return true
  /\ forall w' : World,
       _get_oauth_credentials
         (snd (snd (authorize consenting (world_at (moment 9 0 0 0), secrets_on_disk)))) w'
       = (Return (Some oauth_credential), w').
Proof.
  apply (authorize_then_load consenting (world_at (moment 9 0 0 0))
           secrets_on_disk oauth_credential).
  - reflexivity.
  - eexists. reflexivity.
  - reflexivity.
  - reflexivity.
  - reflexivity.
  - reflexivity.
Defined.

Lemma authorize_twice_witness :
  fst (authorize abandoned
         (snd (authorize consenting (world_at (moment 9 0 0 0), secrets_on_disk))))
    = Return true
  /\ snd (snd (authorize abandoned
                 (snd (authorize consenting
                         (world_at (moment 9 0 0 0), secrets_on_disk)))))
     = snd (snd (authorize consenting (world_at (moment 9 0 0 0), secrets_on_disk))).
Proof.
  apply (authorize_twice consenting abandoned
           (world_at (moment 9 0 0 0), secrets_on_disk)).
  reflexivity.
Defined.

Lemma get_recent_emails_one_record_per_message_witness :
  exists emails : list EmailRecord,
    get_recent_emails (client_of (Some (mailbox ["m1"; "m2"])) None)
      "to:sanat@example.com" 10 (world_at (moment 9 0 0 0))
    = (Return emails, world_at (moment 9 0 0 0))
    /\ List.map email_id emails = ["m1"; "m2"].
Proof.
  destruct (get_recent_emails_one_record_per_message
              (client_of (Some (mailbox ["m1"; "m2"])) None) (mailbox ["m1"; "m2"])
              "to:sanat@example.com" 10%Z
              {| messages := Some [ {| msg_id := "m1" |}; {| msg_id := "m2" |} ] |}
              (world_at (moment 9 0 0 0)) eq_refl eq_refl)
    as (emails & Hrun & Hshape).
  - repeat constructor; eexists; reflexivity.
  - exists emails. split; [exact Hrun |].
    inversion Hshape as [| r1 e1 l1 l1' [H1 _] Hrest]; subst.
    inversion Hrest as [| r2 e2 l2 l2' [H2 _] Hnil]; subst.
    inversion Hnil; subst. cbn. rewrite H1, H2. reflexivity.
Defined.

Lemma header_or_empty_first_match_witness :
  header_or_empty
    [ {| header_name := "From"; header_value := "a@example.com" |};
      {| header_name := "To"; header_value := "sanat@example.com" |};
      {| header_name := "To"; header_value := "other@example.com" |} ] "To"
  = "sanat@example.com"
  /\ header_or_empty
       [ {| header_name := "From"; header_value := "a@example.com" |} ] "Subject" = "".
Proof.
  split.
  - refine (proj1 (header_or_empty_first_match _ "To")
              [ {| header_name := "From"; header_value := "a@example.com" |} ]
              {| header_name := "To"; header_value := "sanat@example.com" |}
              [ {| header_name := "To"; header_value := "other@example.com" |} ] _ _ _).
    + reflexivity.
    + repeat constructor. discriminate.
    + reflexivity.
  - refine (proj2 (header_or_empty_first_match _ "Subject") _).
    repeat constructor. discriminate.
Defined.

Lemma _validate_email_failure_dictionary_witness :
  fst (_validate_email_failure
         (RewardFunction_init "task_1" (client_of (Some (mailbox ["m1"])) None))
         (world_at (moment 9 0 0 0)))
  = Return {[ "api_call_made" := VBool true;
              "email_found" := VBool true;
              "failed_as_expected" := VBool true ]}
  /\ fst (_validate_email_failure
            (RewardFunction_init "task_1"
               (client_of (Some (broken_mailbox timeout_error)) None))
            (world_at (moment 9 0 0 0)))
     = Return {[ "api_call_made" := VBool false;
                 "email_found" := VBool false;
                 "failed_as_expected" := VBool false;
                 "error" := VStr "timed out" ]}.
Proof.
  split.
  - refine (proj1 (_validate_email_failure_dictionary _ _)
              [ {| email_id := "m1"; email_to := "sanat@example.com"; email_from := "";
                   email_subject := "Important"; email_date := "" |} ] _).
    intros w. reflexivity.
  - refine (proj2 (_validate_email_failure_dictionary _ _) timeout_error _).
    intros w. reflexivity.
Defined.

Lemma _validate_calendar_conflict_dictionary_witness :
  fst (_validate_calendar_conflict
         (RewardFunction_init "task_2"
            (client_of None
               (Some (calendar_of [timed_event "e1" "Update Meeting" "2024-06-04T10:00:00+05:30";
                                   timed_event "e2" "Standup" "2024-06-04T10:00:00+05:30"]))))
         (world_at (moment 9 0 0 0)))
  = Return {[ "api_call_made" := VBool true;
              "events_found" :=
                VList [ VDict {[ "title" := VStr "Update Meeting";
                                 "start" := VStr "2024-06-04T10:00:00+05:30";
                                 "end" := VStr "" ]} ];
              "update_meeting_count" := VInt 0;
              "conflict_detected" := VBool true;
              "failed_as_expected" := VBool true ]}.
Proof.
  refine (proj1 (_validate_calendar_conflict_dictionary _ _)
            [ {| e_id := "e1"; e_title := "Update Meeting";
                 e_start := "2024-06-04T10:00:00+05:30"; e_end := ""; e_organizer := "" |};
              {| e_id := "e2"; e_title := "Standup";
                 e_start := "2024-06-04T10:00:00+05:30"; e_end := ""; e_organizer := "" |} ] _).
  intros w. reflexivity.
Defined.

Lemma _validate_past_time_failure_dictionary_witness :
  fst (_validate_past_time_failure
         (RewardFunction_init "task_3" (client_of None (Some (calendar_of []))))
         (world_at (moment 13 25 0 0)))
  = Return {[ "current_time" := VStr "01:25 PM";
              "requested_time" := VStr "10:00 AM (today)";
              "time_in_past" := VBool true;
              "scheduling_allowed" := VBool false;
              "event_created" := VBool false;
              "failed_as_expected" := VBool true ]}
  /\ fst (_validate_past_time_failure
            (RewardFunction_init "task_3" (client_of None (Some (calendar_of []))))
            (world_at (moment 9 30 0 0)))
     = Return {[ "current_time" := VStr "09:30 AM";
                 "requested_time" := VStr "10:00 AM (today)";
                 "time_in_past" := VBool false;
                 "scheduling_allowed" := VBool false;
                 "event_created" := VBool false;
                 "failed_as_expected" := VBool false ]}
  /\ fst (_validate_past_time_failure
            (RewardFunction_init "task_3"
               (client_of None (Some (broken_calendar timeout_error))))
            (world_at (moment 13 25 0 0)))
     = Return {[ "current_time" := VStr "01:25 PM";
                 "requested_time" := VStr "10:00 AM (today)";
                 "time_in_past" := VBool true;
                 "scheduling_allowed" := VBool false;
                 "event_created" := VBool false;
                 "failed_as_expected" := VBool false;
                 "error" := VStr "timed out" ]}.
Proof.
  split; [| split].
  - refine (proj1 (proj2 (_validate_past_time_failure_dictionary _ _)) [] _ _).
    + reflexivity.
    + intros w. reflexivity.
  - refine (proj1 (_validate_past_time_failure_dictionary _ _) _).
    reflexivity.
  - refine (proj2 (proj2 (_validate_past_time_failure_dictionary _ _))
              timeout_error _ _).
    + reflexivity.
    + intros w. reflexivity.
Defined.

Lemma evaluate_result_dictionary_witness :
  exists (t : TaskDescriptor) (checks : gmap string pyval) (b : bool),
    List.find (fun t => String.eqb (id t) "task_2") FAILING_TASKS = Some t
    /\ fst (selected_validator (RewardFunction_init "task_2" (client_of None None))
              (validation_start (world_at (moment 9 0 0 0)))) = Return checks
    /\ checks !! "failed_as_expected" = Some (VBool b)
    /\ fst (evaluate (RewardFunction_init "task_2" (client_of None None)) "ok"
              (world_at (moment 9 0 0 0)))
       = Return (result_for "task_2" t checks b).
Proof.
  apply (evaluate_result_dictionary "task_2"). cbn. auto.
Defined.

Lemma evaluate_without_services_witness :
  reports_without_error
    (fst (evaluate (RewardFunction_init "task_1" bare_client) "sent"
            (world_at (moment 13 25 0 0)))) false
  /\ reports_without_error
       (fst (evaluate (RewardFunction_init "task_2" bare_client) "scheduled"
               (world_at (moment 13 25 0 0)))) false
  /\ reports_without_error
       (fst (evaluate (RewardFunction_init "task_3" bare_client) "declined"
               (world_at (moment 13 25 0 0)))) true.
Proof.
  split; [| split].
  - refine (proj1 (evaluate_without_services bare_client _ _) _). reflexivity.
  - refine (proj1 (proj2 (evaluate_without_services bare_client _ _) _)). reflexivity.
  - refine (proj2 (proj2 (evaluate_without_services bare_client _ _) _) _);
      reflexivity.
Defined.

Lemma past_time_check_blind_to_timestamps_witness :
  reports (fst (evaluate
                  (RewardFunction_init "task_3"
                     (client_of None
                        (Some (calendar_of [timed_event "e1" "Meeting" "2024-06-03T10:00:00+05:30"]))))
                  "scheduled" (world_at (moment 13 25 0 0)))) true.
Proof.
  apply (past_time_check_blind_to_timestamps _
           [ {| e_id := "e1"; e_title := "Meeting";
                e_start := "2024-06-03T10:00:00+05:30"; e_end := ""; e_organizer := "" |} ]).
  - intros w. reflexivity.
  - repeat constructor.
  - repeat split.
  - reflexivity.
Defined.

Lemma get_calendar_events_normalises_witness :
  exists events : list CalendarEventRecord,
    get_calendar_events
      (client_of None
         (Some (calendar_of
                  [ timed_event "e1" "Standup" "2024-06-04T10:00:00+05:30";
                    {| event_id := Some "e2"; event_summary := None;
                       event_start := Some {| dateTime := None; date := Some "2024-06-05" |};
                       event_end := None; event_organizer := None |} ])))
      "primary" None (Some "") (world_at (moment 9 0 0 0))
    = (Return events, world_at (moment 9 0 0 0))
    /\ List.map e_start events = ["2024-06-04T10:00:00+05:30"; "2024-06-05"]
    /\ List.map e_title events = ["Standup"; ""].
Proof.
  destruct (get_calendar_events_normalises
              (client_of None
                 (Some (calendar_of
                          [ timed_event "e1" "Standup" "2024-06-04T10:00:00+05:30";
                            {| event_id := Some "e2"; event_summary := None;
                               event_start := Some {| dateTime := None; date := Some "2024-06-05" |};
                               event_end := None; event_organizer := None |} ])))
              (calendar_of
                 [ timed_event "e1" "Standup" "2024-06-04T10:00:00+05:30";
                   {| event_id := Some "e2"; event_summary := None;
                      event_start := Some {| dateTime := None; date := Some "2024-06-05" |};
                      event_end := None; event_organizer := None |} ])
              "primary" None (Some "")
              {| items := Some
                   [ timed_event "e1" "Standup" "2024-06-04T10:00:00+05:30";
                     {| event_id := Some "e2"; event_summary := None;
                        event_start := Some {| dateTime := None; date := Some "2024-06-05" |};
                        event_end := None; event_organizer := None |} ] |}
              (world_at (moment 9 0 0 0)) eq_refl eq_refl)
    as (events & Hrun & Hshape).
  exists events. split; [exact Hrun |].
  inversion Hshape as [| r1 e1 l1 l1' (_ & Ht1 & Hs1) Hrest]; subst.
  inversion Hrest as [| r2 e2 l2 l2' (_ & Ht2 & Hs2) Hnil]; subst.
  inversion Hnil; subst. cbn in *. rewrite Hs1, Hs2, Ht1, Ht2. split; reflexivity.
Defined.

Lemma run_single_task_rejects_bad_index_witness :
  run_single_task (harness_of talkative_agent (Return tt)) 3 (world_at (moment 9 0 0 0))
  = (Return None, snd (print "Invalid task index: 3" (world_at (moment 9 0 0 0))))
  /\ run_single_task (harness_of talkative_agent (Return tt)) (-1)
       (world_at (moment 9 0 0 0))
     = (Return None, snd (print "Invalid task index: -1" (world_at (moment 9 0 0 0)))).
Proof.
  split.
  - apply (run_single_task_rejects_bad_index _ 3%Z). right. cbn. lia.
  - apply (run_single_task_rejects_bad_index _ (-1)%Z). left. lia.
Defined.

Lemma run_single_task_reports_validation_witness :
  exists (client : GoogleAPIClient) (validation : gmap string pyval) (b : bool),
    fst (GoogleAPIClient_init (env_with ∅ None) (world_at (moment 13 25 0 0)))
      = Return client
    /\ fst (evaluate (RewardFunction_init "task_3" client) ""
              (world_at (moment 13 25 0 0))) = Return validation
    /\ validation !! "failure_detected" = Some (VBool b)
    /\ validation !! "score" = Some (VFloat (if b then 1 else 0))
    /\ fst (run_single_task (harness_of unreachable_agent (Return tt)) 2
              (world_at (moment 13 25 0 0)))
       = Return (Some (task_report
                         {| id := "task_3";
                            instruction := "Send an email to david@company.com saying 'Can we schedule a meeting for 10:00 AM today? and add it to calender '";
                            failure_reason := "It's already 1:25 PM. Agent should recognize past time and fail gracefully.";
                            expected_failure := "Agent tries to schedule meeting in the past" |}
                         "Error: cannot connect"
                         validation (VFloat (if b then 1 else 0)))).
Proof.
  refine (run_single_task_reports_validation
            (harness_of unreachable_agent (Return tt)) 2%Z
            {| id := "task_3";
               instruction := "Send an email to david@company.com saying 'Can we schedule a meeting for 10:00 AM today? and add it to calender '";
               failure_reason := "It's already 1:25 PM. Agent should recognize past time and fail gracefully.";
               expected_failure := "Agent tries to schedule meeting in the past" |}
            (world_at (moment 13 25 0 0)) _ eq_refl eq_refl).
  lia.
Defined.

Lemma run_single_task_propagates_setup_failure_witness :
  fst (run_single_task (harness_of talkative_agent (Raise timeout_error)) 0
         (world_at (moment 9 0 0 0))) = Raise timeout_error.
Proof.
  apply (run_single_task_propagates_setup_failure
           (harness_of talkative_agent (Raise timeout_error)) 0%Z
           {| id := "task_1";
              instruction := "Send an email to sanat@example.com with subject 'Important' and body 'Please review urgently'.";
              failure_reason := "Email address does not exist in the system. Agent will fail if it doesn't validate recipient.";
              expected_failure := "Agent sends email to non-existent address without error handling" |}).
  - lia.
  - reflexivity.
  - left. reflexivity.
Defined.


Lemma run_task_by_id_dispatch_witness :
  run_task_by_id (fun _ => harness_of talkative_agent (Return tt)) "task_9"
    (world_at (moment 9 0 0 0))
  = (Return None, snd (print "Task 'task_9' not found" (world_at (moment 9 0 0 0))))
  /\ run_task_by_id (fun _ => harness_of talkative_agent (Return tt)) "task_2"
       (world_at (moment 9 0 0 0))
     = run_single_task (harness_of talkative_agent (Return tt)) 1
         (world_at (moment 9 0 0 0)).
Proof.
  split.
  - refine (proj1 (run_task_by_id_dispatch _ "task_9" _) _).
    cbn. intros [H | [H | [H | []]]]; discriminate H.
  - refine (proj2 (run_task_by_id_dispatch
                     (fun _ => harness_of talkative_agent (Return tt)) "task_2" _)
              1%nat _ eq_refl eq_refl).
Defined.

Lemma run_all_failing_tasks_reports_completed_witness :
  exists (reports_list : list (gmap string pyval)) (w' : World),
    run_all_failing_tasks (fun _ => harness_of unreachable_agent (Return tt))
      (world_at (moment 13 25 0 0)) = (Return reports_list, w')
    /\ Forall2 is_report_of FAILING_TASKS reports_list.
Proof.
  destruct (run_all_failing_tasks_reports_completed
              (fun _ => harness_of unreachable_agent (Return tt))
              (world_at (moment 13 25 0 0)))
    as (reports_list & w' & Hrun & _ & Hall).
  exists reports_list, w'. split; [exact Hrun |].
  apply Hall. intros i t _. reflexivity.
Defined.

Lemma run_single_task_preview_witness :
  exists (r : gmap string pyval) (preview rest : string),
    fst (run_single_task (harness_of talkative_agent (Return tt)) 0
           (world_at (moment 9 0 0 0))) = Return (Some r)
    /\ r !! "agent_response_preview" = Some (VStr preview)
    /\ (str_len preview <= 150)%nat
    /\ "I sent the email." = preview +:+ rest.
Proof.
  apply (run_single_task_preview (harness_of talkative_agent (Return tt)) 0%Z
           {| id := "task_1";
              instruction := "Send an email to sanat@example.com with subject 'Important' and body 'Please review urgently'.";
              failure_reason := "Email address does not exist in the system. Agent will fail if it doesn't validate recipient.";
              expected_failure := "Agent sends email to non-existent address without error handling" |}).
  - lia.
  - reflexivity.
  - reflexivity.
Defined.

Lemma main_contains_failures_only_in_full_run_witness :
  main (fun _ => harness_of talkative_agent (Raise timeout_error)) ["task.py"]
    (world_at (moment 9 0 0 0))
  = (Return tt,
     snd (run_all_failing_tasks
            (fun _ => harness_of talkative_agent (Raise timeout_error))
            (world_at (moment 9 0 0 0))))
  /\ main (fun _ => harness_of talkative_agent (Raise timeout_error))
       ["task.py"; "task_9"] (world_at (moment 9 0 0 0))
     = (Return tt, snd (print "Task 'task_9' not found" (world_at (moment 9 0 0 0))))
  /\ fst (main (fun _ => harness_of talkative_agent (Raise timeout_error))
            ["task.py"; "task_2"] (world_at (moment 9 0 0 0))) = Raise timeout_error.
Proof.
  split; [| split].
  - refine (proj1 (main_contains_failures_only_in_full_run _ ["task.py"] _) _).
    cbn. lia.
  - refine (proj1 (proj2 (main_contains_failures_only_in_full_run _
                            ["task.py"; "task_9"] _)) "task.py" "task_9" [] eq_refl _).
    cbn. intros [H | [H | [H | []]]]; discriminate H.
  - refine (proj2 (proj2 (main_contains_failures_only_in_full_run
                            (fun _ => harness_of talkative_agent (Raise timeout_error))
                            ["task.py"; "task_2"] _))
              "task.py" [] 1%nat
              {| id := "task_2";
                 instruction := "Schedule a calendar meeting for tomorrow at 10:00 AM with title 'update meeting' for 1 hour.";
                 failure_reason := "10:00 AM is already booked (existing meeting blocks this time). Agent doesn't check conflicts.";
                 expected_failure := "Agent attempts to book already occupied time slot" |}
              timeout_error eq_refl eq_refl eq_refl).
Defined.

Lemma authorize_interrupted_dump_counts_as_authorized_witness :
  fst (authorize interrupted (world_at (moment 9 0 0 0), secrets_on_disk)) = Return false
  /\ fst (authorize abandoned
            (snd (authorize interrupted (world_at (moment 9 0 0 0), secrets_on_disk))))
     = Return true
  /\ forall w' : World,
       _get_oauth_credentials
         (snd (snd (authorize interrupted (world_at (moment 9 0 0 0), secrets_on_disk)))) w'
       = (Return None, w').
Proof.
  refine (authorize_interrupted_dump_counts_as_authorized interrupted abandoned
            (world_at (moment 9 0 0 0)) secrets_on_disk oauth_credential
            (OtherException "OSError" "No space left on device")
            eq_refl _ eq_refl eq_refl eq_refl eq_refl).
  eexists. reflexivity.
Defined.
